(** * correo-alumnos-unmsm: the mass-mailing workflow of [app.py]

    A shallow embedding of the Flask application [src/app.py]: the Python
    string primitives it relies on, the credential file writer
    [_write_env_values], the converter [html_to_plain_text], and the three
    workflow handlers [prepare], [map_columns] and [send_emails] with the
    per-recipient dispatch loop.

    Conventions of the embedding.
    - A Python [str] is a Rocq [string] read as a sequence of code points
      below 256 (Latin-1), so that the non-ASCII whitespace and line-break
      characters of [str.strip] and [str.splitlines] are present.
    - A raised exception is a value of [exn]; code that may raise returns
      [exn + A] ([inl] is the raise).
    - Library calls whose implementation is outside the repository (Jinja2
      rendering, [html.unescape], werkzeug's [secure_filename], smtplib, pandas)
      are Section variables; nothing is assumed about them except where a
      statement says so. *)

From Stdlib Require Import String Ascii List ZArith QArith Bool Arith Lia DecimalString.
From Stdlib Require Import Sorted Permutation DecimalPos DecimalZ.
Import ListNotations.
Close Scope Q_scope.
Open Scope string_scope.

(* ================================================================== *)
(** ** Python string primitives *)
(* ================================================================== *)

Module Py.

Definition LF : ascii := "010"%char.
Definition CR : ascii := "013"%char.

(** The one-character strings ["\n"] and ["\r"], and ["\n\n"]. *)
Definition nl : string := String LF "".
Definition cr : string := String CR "".
Definition nlnl : string := String LF (String LF "").

(** [str.isspace] on one character (also the class [\s] of [re] on [str]
    patterns): TAB..CR, FS..US, space, NEL and NBSP. *)
Definition isspace (c : ascii) : bool :=
  let n := nat_of_ascii c in
  ((Nat.leb 9 n) && (Nat.leb n 13)) || ((Nat.leb 28 n) && (Nat.leb n 32))
  || (Nat.eqb n 133) || (Nat.eqb n 160).

(** The characters at which [str.splitlines] breaks a line: LF, VT, FF, CR,
    FS, GS, RS and NEL. *)
Definition islinebreak (c : ascii) : bool :=
  let n := nat_of_ascii c in
  ((Nat.leb 10 n) && (Nat.leb n 13)) || ((Nat.leb 28 n) && (Nat.leb n 30)) || (Nat.eqb n 133).

Fixpoint lstrip (s : string) : string :=
  match s with
  | "" => ""
  | String c r => if isspace c then lstrip r else s
  end.

Fixpoint rstrip (s : string) : string :=
  match s with
  | "" => ""
  | String c r =>
      match rstrip r with
      | "" => if isspace c then "" else String c ""
      | r' => String c r'
      end
  end.

(** [s.strip()] *)
Definition strip (s : string) : string := rstrip (lstrip s).

(** [s.startswith(p)] *)
Fixpoint startswith (p s : string) : bool :=
  match p, s with
  | "", _ => true
  | String _ _, "" => false
  | String a p', String b s' => Ascii.eqb a b && startswith p' s'
  end.

(** [s.endswith(suf)] *)
Fixpoint endswith (suf s : string) : bool :=
  if String.eqb s suf then true
  else match s with
       | "" => false
       | String _ r => endswith suf r
       end.

(** [sub in s] *)
Fixpoint contains (sub s : string) : bool :=
  startswith sub s
  || match s with
     | "" => false
     | String _ r => contains sub r
     end.

(** [c in s] for a one-character [c] *)
Fixpoint has_char (c : ascii) (s : string) : bool :=
  match s with
  | "" => false
  | String a r => Ascii.eqb a c || has_char c r
  end.

(** Whether [s] has a character that is not whitespace, that is, whether
    [s.strip()] is non-empty. *)
Fixpoint has_text (s : string) : bool :=
  match s with
  | "" => false
  | String a r => negb (isspace a) || has_text r
  end.

(** Whether every character of [s] is whitespace. *)
Fixpoint all_space (s : string) : bool :=
  match s with
  | "" => true
  | String a r => isspace a && all_space r
  end.

(** [s.split(c, 1)[0]]: the text before the first [c] (all of [s] when
    there is none). *)
Fixpoint before_char (c : ascii) (s : string) : string :=
  match s with
  | "" => ""
  | String a r => if Ascii.eqb a c then "" else String a (before_char c r)
  end.

(** Python truthiness of a [str]. *)
Definition truthy (s : string) : bool := negb (String.eqb s "").

(** [a or b] on strings. *)
Definition or_else (a b : string) : string := if truthy a then a else b.

(** [c.lower()] on one Latin-1 character. *)
Definition lower_char (c : ascii) : ascii :=
  let n := nat_of_ascii c in
  if ((Nat.leb 65 n) && (Nat.leb n 90))
     || ((Nat.leb 192 n) && (Nat.leb n 222) && negb (Nat.eqb n 215))
  then ascii_of_nat (n + 32) else c.

Fixpoint lower (s : string) : string :=
  match s with
  | "" => ""
  | String c r => String (lower_char c) (lower r)
  end.

(** [sep.join(l)] *)
Fixpoint join (sep : string) (l : list string) : string :=
  match l with
  | [] => ""
  | [x] => x
  | x :: r => x ++ sep ++ join sep r
  end.

(** [s.splitlines()]: [cur] is the line being read.  A CR LF pair is one
    break; a final line without terminator is kept, an empty one is not. *)
Fixpoint splitlines_from (cur : string) (s : string) : list string :=
  match s with
  | "" => if String.eqb cur "" then [] else [cur]
  | String c r =>
      if Ascii.eqb c CR then
        match r with
        | String c' r' =>
            if Ascii.eqb c' LF then cur :: splitlines_from "" r'
            else cur :: splitlines_from "" r
        | "" => [cur]
        end
      else if islinebreak c then cur :: splitlines_from "" r
      else splitlines_from (cur ++ String c "") r
  end.

Definition splitlines (s : string) : list string := splitlines_from "" s.

(** Substitution of every leftmost non-overlapping match, as [re.sub] and
    [str.replace] do it.  [m s] is the length of the match anchored at the
    start of [s], if there is one; all patterns used here match at least
    one character.  [skip] counts the characters of the current match that
    are still to be dropped. *)
Fixpoint sub_from (m : string -> option nat) (repl : string)
    (skip : nat) (s : string) : string :=
  match s with
  | "" => ""
  | String c r =>
      match skip with
      | S k => sub_from m repl k r
      | O =>
          match m s with
          | Some (S n) => repl ++ sub_from m repl n r
          | _ => String c (sub_from m repl 0 r)
          end
      end
  end.

Definition sub (m : string -> option nat) (repl s : string) : string :=
  sub_from m repl 0 s.

(** The literal pattern of [s.replace(old, new)]. *)
Definition lit (old : string) (s : string) : option nat :=
  if startswith old s then Some (String.length old) else None.

(** [s.replace(old, new)] for a non-empty [old]. *)
Definition replace (old new s : string) : string := sub (lit old) new s.

(** [\s*>] anchored at the start of [s]: number of characters matched. *)
Fixpoint ws_then_gt (s : string) : option nat :=
  match s with
  | "" => None
  | String c r =>
      if Ascii.eqb c ">" then Some 1
      else if isspace c then option_map S (ws_then_gt r)
      else None
  end.

(** The pattern [</p\s*>] with [re.IGNORECASE]. *)
Definition close_p (s : string) : option nat :=
  match s with
  | String "<" (String "/" (String p r)) =>
      if Ascii.eqb p "p" || Ascii.eqb p "P"
      then option_map (fun n => 3 + n) (ws_then_gt r)
      else None
  | _ => None
  end.

(** Position of the first [>] of [s]. *)
Fixpoint index_gt (s : string) : option nat :=
  match s with
  | "" => None
  | String c r => if Ascii.eqb c ">" then Some 0 else option_map S (index_gt r)
  end.

(** The pattern [<[^>]+>]: a [<], at least one character other than [>]
    (line breaks included), and the first [>] after them. *)
Definition any_tag (s : string) : option nat :=
  match s with
  | String "<" r =>
      match index_gt r with
      | Some (S n) => Some (n + 3)
      | _ => None
      end
  | _ => None
  end.

End Py.

(** A raised Python exception: the [ValueError] of [int] on a bad literal,
    or an exception of a library call, kept as its [str(exc)]. *)
Inductive exn : Type :=
  | ValueError (literal : string)
  | Raised (msg : string).

(** [str(exc)]; for the [ValueError] of [int] the literal is shown as
    [repr] shows a text of printable characters without quote. *)
Definition str_exn (e : exn) : string :=
  match e with
  | ValueError l => "invalid literal for int() with base 10: '" ++ l ++ "'"
  | Raised m => m
  end.

(** A pattern that can only match at the character [c0]. *)
Definition only_at (c0 : ascii) (m : string -> option nat) : Prop :=
  forall c r, c <> c0 -> m (String c r) = None.

(* ================================================================== *)
(** ** [html_to_plain_text] *)
(* ================================================================== *)

Section Html.

(** [html.unescape] of the standard library.  It can raise: a decimal
    character reference of more digits than [int] accepts gives a
    [ValueError]. *)
Variable unescape : string -> exn + string.

(** [html_to_plain_text(value)]: the three [replace] calls, the two
    [re.sub] calls, [html.unescape] and [strip], in the order of the
    source.  Nothing is caught: an exception of [html.unescape] leaves the
    function. *)
Definition html_to_plain_text (value : string) : exn + string :=
  if negb (Py.truthy value) then inr ""
  else
    let text := value in
    let text := Py.replace "<br />" Py.nl
                  (Py.replace "<br/>" Py.nl (Py.replace "<br>" Py.nl text)) in
    let text := Py.sub Py.close_p Py.nlnl text in
    let text := Py.sub Py.any_tag "" text in
    match unescape text with
    | inl exc => inl exc
    | inr text => inr (Py.strip text)
    end.

End Html.

(** The spellings of a line break that [html_to_plain_text] replaces. *)
Definition br_forms : list string := ["<br>"; "<br/>"; "<br />"].


(** Well-formed markup is a sequence of pieces: plain text, and tags made
    of a [<], a non-empty text without [<] and [>], and a [>]. *)
Inductive Piece : Type :=
  | Text (s : string)
  | Tag (inner : string).



(** What stands between [<] and [>] in a closing [p] tag: [/p] or [/P],
    then whitespace. *)
Definition closes_p (inner : string) : bool :=
  match inner with
  | String c (String p ws) =>
      Ascii.eqb c "/" && (Ascii.eqb p "p" || Ascii.eqb p "P")
      && Py.all_space ws
  | _ => false
  end.

(** What a piece becomes in plain text: a text stays, a tag spelled [<br>],
    [<br/>] or [<br />] is a line feed, a closing [p] tag two line feeds,
    any other tag nothing. *)
Definition shown (p : Piece) : string :=
  match p with
  | Text s => s
  | Tag inner =>
      if existsb (String.eqb inner) ["br"; "br/"; "br /"] then Py.nl
      else if closes_p inner then Py.nlnl
      else ""
  end.





(** [html.unescape] begins with [if '&' not in s: return s]; this is all the
    development uses of it. *)
Definition unescape_spec (unescape : string -> exn + string) : Prop :=
  forall s, Py.has_char "&" s = false -> unescape s = inr s.

(** An instance for evaluating examples: the five predefined XML entities
    in their terminated form, everything else unchanged. *)
Definition unescape_xml (s : string) : exn + string :=
  inr (Py.replace "&amp;" "&"
         (Py.replace "&#39;" "'"
            (Py.replace "&quot;" (String "034" "")
               (Py.replace "&gt;" ">" (Py.replace "&lt;" "<" s))))).

(* ================================================================== *)
(** ** Exceptions, dictionaries and [int] *)
(* ================================================================== *)

(** A one-character string from its code point. *)
Definition chr (n : nat) : string := String (ascii_of_nat n) "".

(** A [dict] with [str] keys, in insertion order. *)
Definition Dict (V : Type) : Type := list (string * V).

(** [d[k] = v]: an existing key keeps its position. *)
Fixpoint dict_set {V : Type} (k : string) (v : V) (d : Dict V) : Dict V :=
  match d with
  | [] => [(k, v)]
  | (k', v') :: r =>
      if String.eqb k' k then (k', v) :: r else (k', v') :: dict_set k v r
  end.

(** [d.get(k)] *)
Fixpoint dict_get {V : Type} (k : string) (d : Dict V) : option V :=
  match d with
  | [] => None
  | (k', v') :: r => if String.eqb k' k then Some v' else dict_get k r
  end.

(** [list(d.values())] *)
Definition dict_values {V : Type} (d : Dict V) : list V := map snd d.

(** [list(d.keys())] *)
Definition dict_keys {V : Type} (d : Dict V) : list string := map fst d.

(** A loop of assignments [d[key(x)] = value(x)] over the [x] of a list
    that pass the test [keep]; the two loops of [_write_env_values] have
    this shape. *)
Definition set_all {X V : Type} (keep : X -> bool) (key : X -> string)
    (value : X -> V) (xs : list X) (d : Dict V) : Dict V :=
  fold_left (fun d x => if keep x then dict_set (key x) (value x) d else d)
    xs d.

(** The value assigned last to [k] by such a loop, [init] if none is. *)
Definition last_set {X V : Type} (keep : X -> bool) (key : X -> string)
    (value : X -> V) (k : string) (xs : list X) (init : option V)
  : option V :=
  fold_left
    (fun found x =>
       if keep x && String.eqb (key x) k then Some (value x) else found)
    xs init.

(** Each line followed by a line feed. *)
Fixpoint terminated (lines : list string) : string :=
  match lines with
  | [] => ""
  | l :: rest => l ++ String "010" (terminated rest)
  end.

Definition digit_val (c : ascii) : option Z :=
  let n := nat_of_ascii c in
  if Nat.leb 48 n && Nat.leb n 57 then Some (Z.of_nat (n - 48)) else None.

(** Decimal digits, with single underscores allowed between digits. *)
Fixpoint int_digits (acc : Z) (after_digit : bool) (s : string) : option Z :=
  match s with
  | "" => if after_digit then Some acc else None
  | String c r =>
      match digit_val c with
      | Some d => int_digits (10 * acc + d) true r
      | None =>
          if Ascii.eqb c "_" && after_digit then int_digits acc false r
          else None
      end
  end.

(** The whitespace that [int] skips around a literal: that of [str.strip]
    without the separators FS, GS, RS and US. *)
Definition int_space (c : ascii) : bool :=
  let n := nat_of_ascii c in
  Py.isspace c && negb ((Nat.leb 28 n) && (Nat.leb n 31)).

Fixpoint int_lstrip (s : string) : string :=
  match s with
  | "" => ""
  | String c r => if int_space c then int_lstrip r else s
  end.

Fixpoint int_rstrip (s : string) : string :=
  match s with
  | "" => ""
  | String c r =>
      match int_rstrip r with
      | "" => if int_space c then "" else String c ""
      | r' => String c r'
      end
  end.

(** [int(s)] on a [str]: surrounding whitespace, an optional sign, decimal
    digits; anything else raises [ValueError].  The interpreter's limit on
    the number of digits of a literal (4300 unless configured otherwise)
    is left out: a longer literal raises where this function returns. *)
Definition py_int (s : string) : exn + Z :=
  let t := int_rstrip (int_lstrip s) in
  let r := match t with
           | String "-" d => option_map Z.opp (int_digits 0 false d)
           | String "+" d => int_digits 0 false d
           | _ => int_digits 0 false t
           end in
  match r with
  | Some z => inr z
  | None => inl (ValueError s)
  end.

(** [str(n)] on an [int]. *)
Definition py_str_int (n : Z) : string := NilZero.string_of_int (Z.to_int n).

(* ================================================================== *)
(** ** [_write_env_values] *)
(* ================================================================== *)

(** The test [if '=' in line and not line.strip().startswith('#')]. *)
Definition is_key_line (line : string) : bool :=
  Py.has_char "=" line && negb (Py.startswith "#" (Py.strip line)).

(** [line.split('=', 1)[0].strip()] *)
Definition line_key (line : string) : string :=
  Py.strip (Py.before_char "=" line).

(** The first loop: [mapping[k] = line] for each key line of the file. *)
Definition read_mapping (lines : list string) : Dict string :=
  fold_left
    (fun mapping line =>
       if is_key_line line then dict_set (line_key line) line mapping
       else mapping)
    lines [].

(** [v.replace('\n', '').replace('\r', '')] *)
Definition safe_value (v : string) : string :=
  Py.replace Py.cr "" (Py.replace Py.nl "" v).

(** The line [f"{k}={safe_v}"] of one update. *)
Definition update_line (kv : string * string) : string :=
  fst kv ++ "=" ++ safe_value (snd kv).

(** The second loop: [mapping[k] = f"{k}={safe_v}"] for each update. *)
Definition apply_updates (updates mapping : Dict string) : Dict string :=
  fold_left
    (fun mapping kv =>
       dict_set (fst kv) (update_line kv) mapping)
    updates mapping.

(** [lines]: the lines read from [.env], none when the file is absent. *)
Definition env_lines (env_file : option string) : list string :=
  match env_file with
  | Some text => Py.splitlines text
  | None => []
  end.

(** [mapping] after the two loops. *)
Definition env_mapping (updates : Dict string) (env_file : option string)
  : Dict string :=
  apply_updates updates (read_mapping (env_lines env_file)).

(** [_write_env_values(updates)]: [env_file] is the text of [.env] as
    [f.read()] returns it ([None] when the file does not exist); the result
    is the text written. *)
Definition _write_env_values (updates : Dict string) (env_file : option string)
  : string :=
  let new_lines := dict_values (env_mapping updates env_file) in
  Py.join Py.nl new_lines ++ (match new_lines with [] => "" | _ => Py.nl end).



(** Neither a line feed nor a carriage return occurs in [s]. *)
Definition no_crlf (s : string) : bool :=
  negb (Py.has_char Py.LF s) && negb (Py.has_char Py.CR s).

(* ================================================================== *)
(** ** Data model of the workflow *)
(* ================================================================== *)

(** A normalized record of [mapped_records]: the dict
    [{'email': ..., 'name': ..., 'subject': ...}], the last key optional. *)
Record Recipient : Type := {
  r_email : string;
  r_name : string;
  r_subject : option string
}.

(** A [pandas.DataFrame] as the handlers use it: the column labels and, for
    each row, [str(row[c])] as a function of the label [c]. *)
Record DataFrame : Type := {
  df_columns : list string;
  df_rows : list (string -> string)
}.

(** What the two pandas readers return on a stored file. *)
Record FileData : Type := {
  as_csv : exn + DataFrame;
  as_excel : exn + DataFrame
}.

(** The upload folder: path to file. *)
Definition Disk : Type := Dict FileData.

Definition no_such_file : exn := Raised "[Errno 2] No such file or directory".

(** [pd.read_csv(path)] *)
Definition pd_read_csv (disk : Disk) (path : string) : exn + DataFrame :=
  match dict_get path disk with
  | Some f => as_csv f
  | None => inl no_such_file
  end.

(** [pd.read_excel(path)] *)
Definition pd_read_excel (disk : Disk) (path : string) : exn + DataFrame :=
  match dict_get path disk with
  | Some f => as_excel f
  | None => inl no_such_file
  end.

(** The uploaded data file of [prepare] ([request.files.get('file')]). *)
Record DataUpload : Type := {
  du_filename : string;
  du_data : FileData
}.

(** An uploaded attachment: [f.filename] and the outcome of [f.read()]. *)
Record FileUpload : Type := {
  fu_filename : string;
  fu_read : exn + string
}.

(** The Flask [session] of one browser. *)
Record Session : Type := {
  ss_upload_path : option string;
  ss_message_template : option string;
  ss_default_subject : option string;
  ss_columns : option (list string);
  ss_mapped_records : option (list Recipient);
  ss_email_col : option string;
  ss_name_col : option string;
  ss_subject_col : option string
}.

Definition empty_session : Session :=
  {| ss_upload_path := None; ss_message_template := None;
     ss_default_subject := None; ss_columns := None;
     ss_mapped_records := None; ss_email_col := None;
     ss_name_col := None; ss_subject_col := None |}.

(** [request.form]: the first value of a field is the one [get] returns. *)
Definition Form : Type := list (string * string).

Definition form_get (form : Form) (key : string) : option string :=
  dict_get key form.

Definition form_get_default (form : Form) (key default : string) : string :=
  match form_get form key with
  | Some v => v
  | None => default
  end.

(** [session.get(key, '')] *)
Definition get_or_empty (o : option string) : string :=
  match o with
  | Some v => v
  | None => ""
  end.

(** Truthiness of a value that is [None] or a [str]. *)
Definition truthy_opt (o : option string) : bool :=
  match o with
  | Some v => Py.truthy v
  | None => false
  end.

(** [o or d] for [o] that is [None] or a [str]. *)
Definition opt_or (o : option string) (d : string) : string :=
  match o with
  | Some v => Py.or_else v d
  | None => d
  end.

(** One entry of [rendered_samples]. *)
Record Sample : Type := {
  sm_to : string;
  sm_subject : string;
  sm_body : string
}.

(** One entry of [results]: [{'to': ..., 'status': ..., 'detail': ...}]. *)
Record DispatchResult : Type := {
  res_to : string;
  res_status : string;
  res_detail : string
}.

(** One entry of [attachments]: [{'name': ..., 'bytes': ...}]. *)
Record Attachment : Type := {
  att_name : string;
  att_bytes : string
}.

(** The message handed to [server.sendmail]. *)
Record Message : Type := {
  msg_to : string;
  msg_subject : string;
  msg_from : string * string;
  msg_body : string;
  msg_parts : list Attachment
}.

(** Observable actions of the dispatch loop; [idx] is the counter of
    [enumerate(records, start=1)]. *)
Inductive Event : Type :=
  | Sendmail (idx : nat) (m : Message)
  | Sleep (idx : nat) (seconds : Q)
  | Quit.

(** The loop counter an action belongs to. *)
Definition event_idx (e : Event) : option nat :=
  match e with
  | Sendmail idx _ => Some idx
  | Sleep idx _ => Some idx
  | Quit => None
  end.

(** What a handler returns. *)
Inductive Response : Type :=
  | Redirect_index
  | Preview (columns : list string) (sample : list (string -> string))
  | Confirm (samples : list Sample) (total : nat)
      (smtp_defaults : Dict string)
  | Result (results : list DispatchResult).

Definition ALLOWED_EXTENSIONS : list string := [".xls"; ".xlsx"; ".csv"].

(** The part of a path after its last [/]. *)
Fixpoint basename (p : string) : string :=
  match p with
  | "" => ""
  | String c r =>
      if Py.has_char "/" r then basename r
      else if Ascii.eqb c "/" then r else p
  end.

(** The extension of a base name: from its last dot on, provided a
    character other than a dot comes before that dot. *)
Fixpoint ext_from (seen_other : bool) (s : string) : option string :=
  match s with
  | "" => None
  | String c r =>
      match ext_from (seen_other || negb (Ascii.eqb c ".")) r with
      | Some e => Some e
      | None => if Ascii.eqb c "." && seen_other then Some s else None
      end
  end.

(** [os.path.splitext(p)[1]] *)
Definition splitext_ext (p : string) : string :=
  match ext_from false (basename p) with
  | Some e => e
  | None => ""
  end.

Definition allowed_file (filename : string) : bool :=
  existsb (String.eqb (splitext_ext (Py.lower filename))) ALLOWED_EXTENSIONS.

(** [_get_env_default(key, fallback)] on [os.environ]. *)
Definition _get_env_default (environ : Dict string) (key fallback : string)
  : string :=
  match dict_get key environ with
  | Some val => val
  | None => fallback
  end.

(** The session after a Map request that passed the checks. *)
Definition mapped_session (sess : Session) (records : list Recipient)
    (email_col name_col : string) (subject_col : option string) : Session :=
  {| ss_upload_path := ss_upload_path sess;
     ss_message_template := ss_message_template sess;
     ss_default_subject := ss_default_subject sess;
     ss_columns := ss_columns sess;
     ss_mapped_records := Some records;
     ss_email_col := Some email_col;
     ss_name_col := Some name_col;
     ss_subject_col := Some (opt_or subject_col "") |}.

(** The process state a Send request reads and writes: the text of [.env]
    ([None] when absent), [os.environ], the outcome of reading
    [templates/_signature.html], and the actions performed so far. *)
Record World : Type := {
  w_env_file : option string;
  w_environ : Dict string;
  w_signature_file : exn + string;
  w_trace : list Event
}.

(** The state of the dispatch loop: the open SMTP session, [results], and
    the actions performed. *)
Record Loop (Smtp : Type) : Type := {
  server : Smtp;
  results : list DispatchResult;
  trace : list Event
}.
Arguments server {Smtp} _.
Arguments results {Smtp} _.
Arguments trace {Smtp} _.

(** [os.path.join(a, b)] *)
Definition path_join (a b : string) : string :=
  if Py.startswith "/" b then b
  else if negb (Py.truthy a) || Py.endswith "/" a then a ++ b
  else a ++ "/" ++ b.

Definition msg_session_expired : string :=
  "Sesi" ++ chr 243 ++ "n expirada. Vuelve a subir el archivo.".
Definition msg_select_columns : string :=
  "Selecciona correctamente las columnas de correo y nombre.".
Definition msg_unreadable (exc : exn) : string :=
  "No se pudo leer el archivo: " ++ str_exn exc.
Definition msg_no_recipients : string :=
  "No hay destinatarios. Vuelve a subir el archivo.".
Definition msg_credentials : string :=
  "Debes ingresar el correo remitente y la contrase" ++ chr 241
  ++ "a de aplicaci" ++ chr 243 ++ "n.".
Definition msg_smtp (exc : exn) : string :=
  "No se pudo conectar a SMTP: " ++ str_exn exc.
Definition correo_vacio : string := "Correo vac" ++ chr 237 ++ "o".

(** The signature used when the signature file cannot be read. *)
Definition fallback_signature : string :=
  "Coordinaci" ++ chr 243 ++ "n de Matr" ++ chr 237 ++ "cula" ++ Py.nl
  ++ "Centro de Idiomas de la Universidad Nacional Mayor de San Marcos"
  ++ Py.nl ++ "Correo: personalcontratado31.flch@unmsm.edu.pe" ++ Py.nl
  ++ "Av. Universitaria, Calle Germ" ++ chr 225 ++ "n Am" ++ chr 233
  ++ "zaga N" ++ chr 186 ++ " 375. Ciudad Universitaria, Lima".

(** [time.sleep(0.5)] *)
Definition send_pause : Q := (1 # 2)%Q.

(* ================================================================== *)
(** ** The handlers *)
(* ================================================================== *)

Section App.

(** [Template(t).render(name=n, email=e)] of Jinja2. *)
Variable render : string -> string -> string -> exn + string.
(** [werkzeug.utils.secure_filename] *)
Variable secure_filename : string -> string.
(** [html.unescape] *)
Variable unescape : string -> exn + string.
Variable UPLOAD_FOLDER : string.
(** An open [smtplib.SMTP] session; [smtp_connect host port user password]
    is the sequence [SMTP(host, port); ehlo(); starttls(); login(...)]. *)
Variable Smtp : Type.
Variable smtp_connect : string -> Z -> string -> string -> exn + Smtp.
(** [server.sendmail(from_addr, [to_addr], msg.as_string())] on the message
    built for one recipient; [Some exc] is an exception raised while the
    message is built, serialised or sent. *)
Variable sendmail : Smtp -> string -> string -> Message -> Smtp * option exn.

(** [pd.read_csv] or [pd.read_excel], chosen by the suffix of [name]. *)
Definition read_table (disk : Disk) (name path : string) : exn + DataFrame :=
  if Py.endswith ".csv" (Py.lower name) then pd_read_csv disk path
  else pd_read_excel disk path.

(** [prepare()]: [file.save(path)] stores the upload on [disk]. *)
Definition prepare (file : option DataUpload) (form : Form)
    (sess : Session) (disk : Disk)
  : Response * list string * Session * Disk :=
  let message_template := form_get_default form "message_template" "" in
  let default_subject := form_get_default form "default_subject" "" in
  match file with
  | None => (Redirect_index, ["Sube un archivo Excel o CSV"], sess, disk)
  | Some file =>
      if negb (Py.truthy (du_filename file)) then
        (Redirect_index, ["Sube un archivo Excel o CSV"], sess, disk)
      else if negb (allowed_file (du_filename file)) then
        (Redirect_index, ["Formato no soportado. Usa .xls, .xlsx o .csv"],
         sess, disk)
      else
        let filename := secure_filename (du_filename file) in
        let path := path_join UPLOAD_FOLDER filename in
        let disk := dict_set path (du_data file) disk in
        match read_table disk filename path with
        | inl exc => (Redirect_index, [msg_unreadable exc], sess, disk)
        | inr df =>
            let columns := df_columns df in
            let sess :=
              {| ss_upload_path := Some path;
                 ss_message_template := Some message_template;
                 ss_default_subject := Some default_subject;
                 ss_columns := Some columns;
                 ss_mapped_records := ss_mapped_records sess;
                 ss_email_col := ss_email_col sess;
                 ss_name_col := ss_name_col sess;
                 ss_subject_col := ss_subject_col sess |} in
            (Preview columns (firstn 10 (df_rows df)), [], sess, disk)
        end
  end.

(** [c in df.columns] *)
Definition in_columns (c : string) (df : DataFrame) : bool :=
  existsb (String.eqb c) (df_columns df).

(** [not c or c not in df.columns] *)
Definition col_missing (df : DataFrame) (c : option string) : bool :=
  match c with
  | Some c => negb (Py.truthy c) || negb (in_columns c df)
  | None => true
  end.

(** The normalized record of one row. *)
Definition make_record (df : DataFrame) (email_col name_col : string)
    (subject_col : option string) (row : string -> string) : Recipient :=
  {| r_email := Py.strip (row email_col);
     r_name := Py.strip (row name_col);
     r_subject :=
       match subject_col with
       | Some sc =>
           if Py.truthy sc && in_columns sc df then Some (Py.strip (row sc))
           else None
       | None => None
       end |}.

(** One entry of [rendered_samples]. *)
Definition render_sample (message_template default_subject : string)
    (rec : Recipient) : Sample :=
  match render message_template (r_name rec) (r_email rec) with
  | inr body =>
      {| sm_to := r_email rec;
         sm_subject := opt_or (r_subject rec) default_subject;
         sm_body := body |}
  | inl exc =>
      {| sm_to := r_email rec;
         sm_subject := "(error)";
         sm_body := "Error al renderizar: " ++ str_exn exc |}
  end.

Definition smtp_defaults_of (environ : Dict string) : Dict string :=
  [ ("smtp_email", _get_env_default environ "SMTP_EMAIL" "");
    ("smtp_app_password",
     _get_env_default environ "SMTP_APP_PASSWORD" "dgjr jxdm dske dxos");
    ("from_name", _get_env_default environ "SMTP_FROM_NAME" "Centro de Idiomas");
    ("smtp_host", _get_env_default environ "SMTP_HOST" "smtp.gmail.com");
    ("smtp_port", _get_env_default environ "SMTP_PORT" "587") ].

(** [map_columns()].  The two required columns are [Some] once [missing]
    is empty, so the last branch of the inner match is never taken. *)
Definition map_columns (form : Form) (sess : Session) (disk : Disk)
    (environ : Dict string) : Response * list string * Session :=
  let email_col := form_get form "email_col" in
  let name_col := form_get form "name_col" in
  let subject_col := form_get form "subject_col" in
  if negb (truthy_opt (ss_upload_path sess)) then
    (Redirect_index, [msg_session_expired], sess)
  else
    let upload_path := get_or_empty (ss_upload_path sess) in
    match read_table disk upload_path upload_path with
    | inl exc => (Redirect_index, [msg_unreadable exc], sess)
    | inr df =>
        let missing := filter (col_missing df) [email_col; name_col] in
        match missing, email_col, name_col with
        | [], Some email_col, Some name_col =>
            let records :=
              map (make_record df email_col name_col subject_col)
                (df_rows df) in
            let sess :=
              {| ss_upload_path := ss_upload_path sess;
                 ss_message_template := ss_message_template sess;
                 ss_default_subject := ss_default_subject sess;
                 ss_columns := ss_columns sess;
                 ss_mapped_records := Some records;
                 ss_email_col := Some email_col;
                 ss_name_col := Some name_col;
                 ss_subject_col := Some (opt_or subject_col "") |} in
            let message_template := get_or_empty (ss_message_template sess) in
            let default_subject := get_or_empty (ss_default_subject sess) in
            let rendered_samples :=
              map (render_sample message_template default_subject)
                (firstn 5 records) in
            (Confirm rendered_samples (List.length records)
               (smtp_defaults_of environ), [], sess)
        | _, _, _ => (Redirect_index, [msg_select_columns], sess)
        end
    end.

(** The attachment loop of one message: entries without content or whose
    name does not end in [.pdf] are skipped. *)
Definition pdf_parts (attachments : list Attachment) : list Attachment :=
  flat_map
    (fun att =>
       let att_name := Py.or_else (att_name att) "adjunto.pdf" in
       if negb (Py.truthy (att_bytes att)) then []
       else if negb (Py.endswith ".pdf" (Py.lower att_name)) then []
       else [ {| att_name := att_name; att_bytes := att_bytes att |} ])
    attachments.

Section Dispatch.

Variables message_template default_subject signature_text : string.
Variables smtp_email from_name : string.
Variable attachments : list Attachment.

(** [rec.get('subject') or default_subject or 'Comunicado'] *)
Definition subject_for (rec : Recipient) : string :=
  Py.or_else (opt_or (r_subject rec) default_subject) "Comunicado".

(** The body sent: the rendered text, followed by the signature when there
    is one. *)
Definition with_signature (body_text : string) : string :=
  if Py.truthy signature_text then body_text ++ Py.nlnl ++ signature_text
  else body_text.

(** The multi-part message of one recipient: [To], [Subject], [From], the
    plain-text part and the PDF parts. *)
Definition build_message (to_addr : string) (rec : Recipient)
    (body_text : string) : Message :=
  {| msg_to := to_addr;
     msg_subject := subject_for rec;
     msg_from := (from_name, smtp_email);
     msg_body := with_signature body_text;
     msg_parts := pdf_parts attachments |}.

(** [{'to': to_addr, 'status': 'error', 'detail': detail}] *)
Definition error_result (to_addr detail : string) : DispatchResult :=
  {| res_to := to_addr; res_status := "error"; res_detail := detail |}.

(** [{'to': to_addr, 'status': 'enviado', 'detail': ''}] *)
Definition sent_result (to_addr : string) : DispatchResult :=
  {| res_to := to_addr; res_status := "enviado"; res_detail := "" |}.

(** The body of the [for] loop for the record [rec] at counter [idx]. *)
Definition send_one (idx : nat) (rec : Recipient) (st : Loop Smtp)
  : Loop Smtp :=
  let to_addr := Py.strip (r_email rec) in
  if negb (Py.truthy to_addr) then
    {| server := server st;
       results := results st ++ [error_result to_addr correo_vacio];
       trace := trace st |}
  else
    match render message_template (r_name rec) to_addr with
    | inl exc =>
        {| server := server st;
           results := results st ++ [error_result to_addr (str_exn exc)];
           trace := trace st |}
    | inr body_text =>
        let msg := build_message to_addr rec body_text in
        match sendmail (server st) smtp_email to_addr msg with
        | (srv, None) =>
            {| server := srv;
               results := results st ++ [sent_result to_addr];
               trace := trace st ++ [Sendmail idx msg; Sleep idx send_pause] |}
        | (srv, Some exc) =>
            {| server := srv;
               results := results st ++ [error_result to_addr (str_exn exc)];
               trace := trace st ++ [Sendmail idx msg] |}
        end
    end.

(** [for idx, rec in enumerate(records, start=idx): ...] *)
Fixpoint send_loop (idx : nat) (records : list Recipient) (st : Loop Smtp)
  : Loop Smtp :=
  match records with
  | [] => st
  | rec :: rest => send_loop (S idx) rest (send_one idx rec st)
  end.

(** The state in which the loop starts: [results = []], nothing done yet. *)
Definition fresh (srv : Smtp) : Loop Smtp :=
  {| server := srv; results := []; trace := [] |}.

(** The whole loop of [send_emails]. *)
Definition dispatch (srv : Smtp) (records : list Recipient) : Loop Smtp :=
  send_loop 1 records (fresh srv).

(** What one iteration of the loop adds to a starting state, by the ways
    it can go: no address, a failed render, a send that succeeds, a send
    that raises. *)
Inductive iteration (srv : Smtp) (idx : nat) (rec : Recipient)
  : Loop Smtp -> Prop :=
  | it_empty :
      Py.strip (r_email rec) = "" ->
      iteration srv idx rec
        {| server := srv;
           results := [error_result (Py.strip (r_email rec)) correo_vacio];
           trace := [] |}
  | it_render exc :
      Py.strip (r_email rec) <> "" ->
      render message_template (r_name rec) (Py.strip (r_email rec)) = inl exc ->
      iteration srv idx rec
        {| server := srv;
           results := [error_result (Py.strip (r_email rec)) (str_exn exc)];
           trace := [] |}
  | it_sent body srv' :
      Py.strip (r_email rec) <> "" ->
      render message_template (r_name rec) (Py.strip (r_email rec)) = inr body ->
      sendmail srv smtp_email (Py.strip (r_email rec))
        (build_message (Py.strip (r_email rec)) rec body) = (srv', None) ->
      iteration srv idx rec
        {| server := srv';
           results := [sent_result (Py.strip (r_email rec))];
           trace := [Sendmail idx (build_message (Py.strip (r_email rec)) rec body);
                     Sleep idx send_pause] |}
  | it_failed body srv' exc :
      Py.strip (r_email rec) <> "" ->
      render message_template (r_name rec) (Py.strip (r_email rec)) = inr body ->
      sendmail srv smtp_email (Py.strip (r_email rec))
        (build_message (Py.strip (r_email rec)) rec body) = (srv', Some exc) ->
      iteration srv idx rec
        {| server := srv';
           results := [error_result (Py.strip (r_email rec)) (str_exn exc)];
           trace := [Sendmail idx (build_message (Py.strip (r_email rec)) rec body)] |}.

End Dispatch.

(** One uploaded file of the Send form, as an entry of [attachments]. *)
Definition collect_attachment (f : FileUpload) : list Attachment :=
  if Py.truthy (fu_filename f) then
    match fu_read f with
    | inr content =>
        [ {| att_name := secure_filename (fu_filename f);
             att_bytes := content |} ]
    | inl _ => []
    end
  else [].

(** The signature text: the converted signature file, or the fallback when
    anything in the [try] block raises, the reading of the file or its
    conversion. *)
Definition load_signature (signature_file : exn + string) : string :=
  match signature_file with
  | inr text =>
      match html_to_plain_text unescape (Py.strip text) with
      | inr signature_text => signature_text
      | inl _ => fallback_signature
      end
  | inl _ => fallback_signature
  end.

(** The dict passed to [_write_env_values] when credentials are remembered. *)
Definition credential_updates (smtp_email smtp_app_password from_name
    smtp_host : string) (smtp_port : Z) : Dict string :=
  [ ("SMTP_EMAIL", smtp_email);
    ("SMTP_APP_PASSWORD", smtp_app_password);
    ("SMTP_FROM_NAME", from_name);
    ("SMTP_HOST", smtp_host);
    ("SMTP_PORT", py_str_int smtp_port) ].

(** The [ValueError] of [os.environ[key] = value] on a value that holds a
    NUL character. *)
Definition embedded_null_byte : exn := Raised "embedded null byte".

(** [send_emails()]: [files] is [request.files.getlist('attachments')] and
    [legacy] is [request.files.get('attachment')].  [inl] is an exception
    that leaves the handler: that of [int] on the port, before anything is
    done, or that of [os.environ] on a remembered value with a NUL
    character, after the batch has been sent and the credential file
    written (the world it leaves is not part of the result). *)
Definition send_emails (form : Form) (files : list FileUpload)
    (legacy : option FileUpload) (sess : Session) (w : World)
  : exn + (Response * list string * World) :=
  match ss_mapped_records sess with
  | None | Some [] => inr (Redirect_index, [msg_no_recipients], w)
  | Some records =>
      let message_template := get_or_empty (ss_message_template sess) in
      let default_subject := get_or_empty (ss_default_subject sess) in
      let smtp_email := Py.strip (form_get_default form "smtp_email" "") in
      let smtp_app_password :=
        Py.strip (form_get_default form "smtp_app_password" "") in
      let from_name :=
        Py.or_else (Py.strip (form_get_default form "from_name" ""))
          "Centro de Idiomas" in
      let smtp_host :=
        Py.or_else
          (Py.strip (form_get_default form "smtp_host" "smtp.gmail.com"))
          "smtp.gmail.com" in
      match py_int (form_get_default form "smtp_port" "587") with
      | inl exc => inl exc
      | inr smtp_port =>
          let remember :=
            match form_get form "remember_credentials" with
            | Some v => String.eqb v "on"
            | None => false
            end in
          let attachments :=
            (flat_map collect_attachment files
             ++ match legacy with
                | Some f => collect_attachment f
                | None => []
                end)%list in
          if negb (Py.truthy smtp_email) || negb (Py.truthy smtp_app_password)
          then inr (Redirect_index, [msg_credentials], w)
          else
            let signature_text := load_signature (w_signature_file w) in
            match smtp_connect smtp_host smtp_port smtp_email
                    smtp_app_password with
            | inl exc => inr (Redirect_index, [msg_smtp exc], w)
            | inr srv =>
                let st :=
                  dispatch message_template default_subject signature_text
                    smtp_email from_name attachments srv records in
                let events := (w_trace w ++ trace st ++ [Quit])%list in
                if remember then
                  let updates :=
                    credential_updates smtp_email smtp_app_password
                      from_name smtp_host smtp_port in
                  if existsb (fun kv => Py.has_char "000" (snd kv)) updates
                  then inl embedded_null_byte
                  else
                    inr (Result (results st), [],
                         {| w_env_file :=
                              Some (_write_env_values updates (w_env_file w));
                            w_environ :=
                              fold_left
                                (fun e kv => dict_set (fst kv) (snd kv) e)
                                updates (w_environ w);
                            w_signature_file := w_signature_file w;
                            w_trace := events |})
                else
                  inr (Result (results st), [],
                       {| w_env_file := w_env_file w;
                          w_environ := w_environ w;
                          w_signature_file := w_signature_file w;
                          w_trace := events |})
            end
      end
  end.

End App.

Arguments send_one render {Smtp} sendmail _ _ _ _ _ _ idx rec st.
Arguments send_loop render {Smtp} sendmail _ _ _ _ _ _ idx records st.
Arguments dispatch render {Smtp} sendmail _ _ _ _ _ _ srv records.
Arguments fresh {Smtp} srv.
Arguments iteration render {Smtp} sendmail _ _ _ _ _ _ srv idx rec _.
Arguments send_emails render secure_filename unescape {Smtp} smtp_connect
  sendmail form files legacy sess w.

(* ================================================================== *)
(** ** Instances of the library interfaces, for evaluating the handlers *)
(* ================================================================== *)

(** A renderer that substitutes the two variables and rejects a template
    with a block tag. *)
Definition render_demo (template name email : string) : exn + string :=
  if Py.contains "{%" template then
    inl (Raised "Encountered unknown tag")
  else
    inr (Py.replace "{{email}}" email (Py.replace "{{name}}" name template)).

(** [secure_filename] on names that are already safe. *)
Definition secure_filename_demo (filename : string) : string := filename.

(** A session that records the accepted recipients, refuses the password
    [wrong] at login and rejects an address without [@]. *)
Definition smtp_connect_demo (host : string) (port : Z)
    (user password : string) : exn + list string :=
  if String.eqb password "wrong" then
    inl (Raised "(535, b'Username and Password not accepted')")
  else inr [].

Definition sendmail_demo (srv : list string) (from_addr to_addr : string)
    (m : Message) : list string * option exn :=
  if Py.has_char "@" to_addr then ((srv ++ [to_addr])%list, None)
  else (srv, Some (Raised "(550, b'mailbox unavailable')")).

(** A two-column table and the upload that carries it. *)
Definition demo_row (mail nombre : string) (c : string) : string :=
  if String.eqb c "mail" then mail
  else if String.eqb c "nombre" then nombre
  else "nan".

Definition demo_df : DataFrame :=
  {| df_columns := ["mail"; "nombre"];
     df_rows := [ demo_row "ana@unmsm.edu.pe " "Ana";
                  demo_row "  " "Luis";
                  demo_row "eva.unmsm.edu.pe" "Eva" ] |}.

Definition demo_upload : DataUpload :=
  {| du_filename := "datos.csv";
     du_data := {| as_csv := inr demo_df;
                   as_excel := inl (Raised "File is not a zip file") |} |}.

(** Another table, uploaded earlier under the same file name. *)
Definition other_upload : DataUpload :=
  {| du_filename := "datos.csv";
     du_data :=
       {| as_csv := inr {| df_columns := ["codigo"; "alumno"];
                           df_rows := [fun _ => "nan"] |};
          as_excel := inl (Raised "File is not a zip file") |} |}.

Definition demo_form : Form :=
  [("message_template", "Hola {{name}}"); ("default_subject", "Aviso")].

(** The session and the upload folder after Prepare on [demo_upload]. *)
Definition demo_prepared : Session * Disk :=
  match prepare secure_filename_demo "uploads" (Some demo_upload) demo_form
          empty_session [] with
  | (_, _, sess, disk) => (sess, disk)
  end.

(** The session of a browser that ran Prepare on [other_upload], and the
    upload folder after a second browser then ran Prepare on
    [demo_upload]. *)
Definition stale_prepared : Session * Disk :=
  match prepare secure_filename_demo "uploads" (Some other_upload) demo_form
          empty_session [] with
  | (_, _, sess, disk) =>
      match prepare secure_filename_demo "uploads" (Some demo_upload)
              demo_form empty_session disk with
      | (_, _, _, disk') => (sess, disk')
      end
  end.

Definition demo_records : list Recipient :=
  map (make_record demo_df "mail" "nombre" None) (df_rows demo_df).

(** The session after Map on [demo_prepared]. *)
Definition demo_mapped : Session :=
  mapped_session (fst demo_prepared) demo_records "mail" "nombre" None.

Definition demo_world : World :=
  {| w_env_file := Some ("# credenciales" ++ Py.nl
                         ++ "SMTP_HOST=smtp.gmail.com" ++ Py.nl);
     w_environ := [("SMTP_HOST", "smtp.gmail.com")];
     w_signature_file := inr "<p>Centro de Idiomas</p>";
     w_trace := [] |}.

(** The loop of [send_emails] on the demo instances, without a signature
    or attachments. *)
Definition demo_dispatch (records : list Recipient) : Loop (list string) :=
  dispatch render_demo sendmail_demo "Hola {{name}}" "Aviso" ""
    "yo@unmsm.edu.pe" "Centro de Idiomas" [] [] records.

(** The previews of the confirm view for [demo_records]. *)
Definition demo_samples : list Sample :=
  map (render_sample render_demo "Hola {{name}}" "Aviso")
    (firstn 5 demo_records).

Definition demo_map_form : Form :=
  [("email_col", "mail"); ("name_col", "nombre")].

Definition demo_send_form (port : string) : Form :=
  [("smtp_email", "yo@unmsm.edu.pe"); ("smtp_app_password", "clave");
   ("smtp_port", port); ("remember_credentials", "on")].

(** The message of the demo loop for a recipient. *)
Definition demo_message (to_addr body : string) : Message :=
  {| msg_to := to_addr;
     msg_subject := "Aviso";
     msg_from := ("Centro de Idiomas", "yo@unmsm.edu.pe");
     msg_body := body;
     msg_parts := [] |}.

(** Whether [s] has a character other than [c]. *)
Fixpoint has_other_than (c : ascii) (s : string) : bool :=
  match s with
  | "" => false
  | String a r => negb (Ascii.eqb a c) || has_other_than c r
  end.

(** Whether [s] is empty or begins with a character that is not
    whitespace. *)
Definition starts_clean (s : string) : bool :=
  match s with
  | "" => true
  | String c _ => negb (Py.isspace c)
  end.

(** The loop counter of an action of the loop ([Quit] is not one). *)
Definition event_counter (e : Event) : nat :=
  match event_idx e with
  | Some idx => idx
  | None => 0
  end.

(** Whether the pattern [<[^>]+>] matches nowhere in [s]. *)
Fixpoint no_tag (s : string) : bool :=
  match s with
  | "" => true
  | String _ r =>
      match Py.any_tag s with
      | None => no_tag r
      | Some _ => false
      end
  end.

(** Whether no character of [s] is whitespace. *)
Fixpoint no_space (s : string) : bool :=
  match s with
  | "" => true
  | String c r => negb (Py.isspace c) && no_space r
  end.

(** Whether [s] holds none of the characters at which [str.splitlines]
    breaks a line. *)
Fixpoint no_break (s : string) : bool :=
  match s with
  | "" => true
  | String c r => negb (Py.islinebreak c) && no_break r
  end.

(** A key as the credential file can hold it on one line and find it
    again: trimmed, without [=], not beginning with [#], without line
    break. *)
Definition plain_key (k : string) : bool :=
  String.eqb (Py.strip k) k && negb (Py.has_char "=" k)
  && negb (Py.startswith "#" k) && no_break k.

(** An entry of the mapping whose line is a key line of its key. *)
Definition keyed_line (entry : string * string) : Prop :=
  is_key_line (snd entry) = true /\ line_key (snd entry) = fst entry.

(** The Send request of the demo, with the port 587, and its parts. *)
Definition demo_sent : exn + (Response * list string * World) :=
  send_emails render_demo secure_filename_demo unescape_xml smtp_connect_demo
    sendmail_demo (demo_send_form "587") [] None demo_mapped demo_world.

Definition demo_report : list DispatchResult :=
  [ sent_result "ana@unmsm.edu.pe";
    error_result "" correo_vacio;
    error_result "eva.unmsm.edu.pe" "(550, b'mailbox unavailable')" ].

Definition demo_after : World :=
  match demo_sent with
  | inr (_, _, w') => w'
  | inl _ => demo_world
  end.

(** The same request with a NUL character in the sender name. *)
Definition demo_null_form : Form :=
  ("from_name", "Centro" ++ String "000" "Idiomas") :: demo_send_form "587".

(** The same request with a password that the server refuses. *)
Definition demo_refused_form : Form :=
  [("smtp_email", "yo@unmsm.edu.pe"); ("smtp_app_password", "wrong");
   ("remember_credentials", "on")].

(** Three uploads: a PDF, a text file, a PDF without content. *)
Definition demo_attachments : list Attachment :=
  [ {| att_name := "Silabo.PDF"; att_bytes := "%PDF-1.4" |};
    {| att_name := "notas.txt"; att_bytes := "hola" |};
    {| att_name := "vacio.pdf"; att_bytes := "" |} ].

Definition demo_dispatch_pdf (records : list Recipient) : Loop (list string) :=
  dispatch render_demo sendmail_demo "Hola {{name}}" "Aviso" "Firma"
    "yo@unmsm.edu.pe" "Centro de Idiomas" demo_attachments [] records.

(** A spreadsheet upload that the reader rejects. *)
Definition broken_upload : DataUpload :=
  {| du_filename := "datos.xlsx"; du_data := du_data demo_upload |}.

(** The first message of [demo_dispatch_pdf]. *)
Definition demo_pdf_message : Message :=
  {| msg_to := "ana@unmsm.edu.pe";
     msg_subject := "Aviso";
     msg_from := ("Centro de Idiomas", "yo@unmsm.edu.pe");
     msg_body := "Hola Ana" ++ Py.nlnl ++ "Firma";
     msg_parts := [ {| att_name := "Silabo.PDF"; att_bytes := "%PDF-1.4" |} ] |}.

(** Credentials whose sender name holds a form feed followed by a pair of
    its own. *)
Definition poisoned_credentials : Dict string :=
  credential_updates "yo@unmsm.edu.pe" "clave"
    ("Centro" ++ String "012" "FLASK_SECRET_KEY=attacker") "smtp.gmail.com"
    587.

(** The credentials of the demo, the password with a line feed in it. *)
Definition demo_credentials : Dict string :=
  credential_updates "yo@unmsm.edu.pe" ("cla" ++ Py.nl ++ "ve")
    "Centro de Idiomas" "smtp.gmail.com" 587.

(* ================================================================== *)
(** ** Lemmas on the string primitives *)
(* ================================================================== *)

#[local] Arguments Ascii.eqb : simpl never.
#[local] Arguments Py.isspace : simpl never.

Section StringFacts.

Lemma append_nil_r (s : string) : s ++ "" = s.
Proof. induction s as [|c s IH]; simpl; [reflexivity | now rewrite IH]. Qed.

Lemma append_assoc (a b c : string) : (a ++ b) ++ c = a ++ b ++ c.
Proof. induction a as [|x a IH]; simpl; [reflexivity | now rewrite IH]. Qed.

Lemma has_char_app (c : ascii) (a b : string) :
  Py.has_char c (a ++ b) = Py.has_char c a || Py.has_char c b.
Proof.
  induction a as [|x a IH]; simpl; [reflexivity|].
  now rewrite IH, orb_assoc.
Qed.


Lemma sub_from_absent c0 m repl (a s : string) :
  only_at c0 m -> Py.has_char c0 a = false ->
  Py.sub_from m repl 0 (a ++ s) = a ++ Py.sub_from m repl 0 s.
Proof.
  intros Hm. induction a as [|c a IH]; simpl; intros Ha; [reflexivity|].
  apply orb_false_iff in Ha. destruct Ha as [Hc Ha].
  rewrite Hm by (apply Ascii.eqb_neq; exact Hc).
  now rewrite IH.
Qed.

Lemma sub_absent c0 m repl (a : string) :
  only_at c0 m -> Py.has_char c0 a = false -> Py.sub m repl a = a.
Proof.
  intros Hm Ha. unfold Py.sub.
  rewrite <- (append_nil_r a) at 1.
  rewrite (sub_from_absent c0) by assumption. simpl. apply append_nil_r.
Qed.


Lemma lit_only_at (c0 : ascii) (old : string) :
  Py.startswith (String c0 "") old = true -> only_at c0 (Py.lit old).
Proof.
  intros Hold c r Hc. unfold Py.lit.
  destruct old as [|o old]; [discriminate|].
  simpl in Hold. apply andb_true_iff in Hold. destruct Hold as [Ho _].
  apply Ascii.eqb_eq in Ho. subst o. simpl.
  destruct (Ascii.eqb_spec c0 c) as [<-|]; [congruence | reflexivity].
Qed.

Lemma replace_absent (old new s : string) (c0 : ascii) :
  Py.startswith (String c0 "") old = true -> Py.has_char c0 s = false ->
  Py.replace old new s = s.
Proof.
  intros Hold Hs. unfold Py.replace.
  now apply (sub_absent c0); [apply lit_only_at|].
Qed.

Lemma close_p_only_at : only_at "<" Py.close_p.
Proof.
  intros c r Hc. unfold Py.close_p.
  destruct c as [[] [] [] [] [] [] [] []]; try reflexivity. congruence.
Qed.

Lemma any_tag_only_at : only_at "<" Py.any_tag.
Proof.
  intros c r Hc. unfold Py.any_tag.
  destruct c as [[] [] [] [] [] [] [] []]; try reflexivity. congruence.
Qed.



Lemma isspace_not_gt (c : ascii) :
  Py.isspace c = true -> Ascii.eqb c ">" = false.
Proof.
  destruct c as [[] [] [] [] [] [] [] []]; intros H;
    solve [reflexivity | discriminate H].
Qed.






Lemma lstrip_has_text (a : string) :
  Py.has_text a = true -> Py.has_text (Py.lstrip a) = true.
Proof.
  induction a as [|c a IH]; simpl; [discriminate|]. intros H.
  destruct (Py.isspace c) eqn:E; simpl in *; [now apply IH|].
  now rewrite E.
Qed.


Lemma truthy_app_cons (a : string) (c : ascii) (s : string) :
  Py.truthy (a ++ String c s) = true.
Proof. destruct a; reflexivity. Qed.

Lemma any_tag_lt (r : string) :
  Py.any_tag (String "<" r)
  = match Py.index_gt r with
    | Some (S n) => Some (n + 3)
    | _ => None
    end.
Proof. reflexivity. Qed.

Lemma index_gt_cons (c : ascii) (r : string) :
  Py.index_gt (String c r)
  = if Ascii.eqb c ">" then Some 0 else option_map S (Py.index_gt r).
Proof. reflexivity. Qed.

(** A substitution brings in no character that neither the text nor the
    replacement holds. *)
Lemma has_char_sub_from (c : ascii) (m : string -> option nat)
    (repl : string) (s : string) :
  Py.has_char c repl = false -> Py.has_char c s = false ->
  forall skip, Py.has_char c (Py.sub_from m repl skip s) = false.
Proof.
  intros Hrepl. induction s as [|a s IH]; intros Hs skip; [reflexivity|].
  cbn [Py.has_char] in Hs. apply orb_false_iff in Hs.
  destruct Hs as [Ha Hs]. cbn [Py.sub_from].
  destruct skip as [|k]; [|now apply IH].
  destruct (m (String a s)) as [[|n]|].
  - cbn [Py.has_char]. now rewrite Ha, IH.
  - rewrite has_char_app, Hrepl. now apply IH.
  - cbn [Py.has_char]. now rewrite Ha, IH.
Qed.

(** The text before [html.unescape] holds no [&] when the input holds
    none. *)
Lemma passes_keep_amp_out (value : string) :
  Py.has_char "&" value = false ->
  Py.has_char "&"
    (Py.sub Py.any_tag ""
       (Py.sub Py.close_p Py.nlnl
          (Py.replace "<br />" Py.nl
             (Py.replace "<br/>" Py.nl (Py.replace "<br>" Py.nl value)))))
  = false.
Proof.
  intros H. unfold Py.replace, Py.sub.
  repeat (apply has_char_sub_from; [reflexivity|]). exact H.
Qed.

End StringFacts.

(* ================================================================== *)
(** ** [html_to_plain_text]: line breaks *)
(* ================================================================== *)

Section HtmlFacts.

Variable unescape : string -> exn + string.
Hypothesis unescape_plain : unescape_spec unescape.






















End HtmlFacts.

(** [unescape_xml] returns a text without [&] unchanged. *)
Lemma unescape_xml_plain : unescape_spec unescape_xml.
Proof.
  intros s Hs. unfold unescape_xml.
  now rewrite !(replace_absent _ _ s "&") by (reflexivity || assumption).
Qed.

(* ================================================================== *)
(** ** Dictionaries *)
(* ================================================================== *)

Section DictFacts.

Context {V : Type}.

Lemma dict_get_set_same (k : string) (v : V) (d : Dict V) :
  dict_get k (dict_set k v d) = Some v.
Proof.
  induction d as [|[k' v'] d IH]; simpl.
  - now rewrite String.eqb_refl.
  - destruct (String.eqb_spec k' k) as [->|Hne]; simpl.
    + now rewrite String.eqb_refl.
    + destruct (String.eqb_spec k' k); [contradiction | exact IH].
Qed.

Lemma dict_get_set_other (k k' : string) (v : V) (d : Dict V) :
  k <> k' -> dict_get k' (dict_set k v d) = dict_get k' d.
Proof.
  intros Hne. induction d as [|[k0 v0] d IH]; simpl.
  - destruct (String.eqb_spec k k'); [contradiction | reflexivity].
  - destruct (String.eqb_spec k0 k) as [->|H0]; simpl.
    + destruct (String.eqb_spec k k'); [contradiction | reflexivity].
    + destruct (String.eqb_spec k0 k'); [reflexivity | exact IH].
Qed.


Lemma dict_get_values (k : string) (v : V) (d : Dict V) :
  dict_get k d = Some v -> In v (dict_values d).
Proof.
  induction d as [|[k0 v0] d IH]; simpl; [discriminate|].
  destruct (String.eqb k0 k); [intros [= ->]; now left | right; now apply IH].
Qed.

(** An assignment keeps the keys in place and adds a new key at the end. *)
Lemma dict_keys_set (k : string) (v : V) (d : Dict V) :
  (In k (dict_keys d) -> dict_keys (dict_set k v d) = dict_keys d)
  /\ (~ In k (dict_keys d) -> dict_keys (dict_set k v d) = (dict_keys d ++ [k])%list).
Proof.
  induction d as [|[k0 v0] d [IH1 IH2]]; simpl.
  - split; [contradiction | reflexivity].
  - destruct (String.eqb_spec k0 k) as [->|H0]; simpl.
    + split; [reflexivity | tauto].
    + split; intros H.
      * f_equal. apply IH1. destruct H; [contradiction | assumption].
      * f_equal. apply IH2. tauto.
Qed.

Lemma dict_values_set (k : string) (v x : V) (d : Dict V) :
  In x (dict_values (dict_set k v d)) -> x = v \/ In x (dict_values d).
Proof.
  induction d as [|[k0 v0] d IH]; simpl.
  - intros [<-|[]]. now left.
  - destruct (String.eqb k0 k); simpl; intros [<-|H]; auto.
    destruct (IH H); auto.
Qed.

Lemma dict_keys_set_nodup (k : string) (v : V) (d : Dict V) :
  NoDup (dict_keys d) -> NoDup (dict_keys (dict_set k v d)).
Proof.
  intros Hd. destruct (dict_keys_set k v d) as [H1 H2].
  destruct (in_dec string_dec k (dict_keys d)) as [Hin|Hout].
  - now rewrite H1.
  - rewrite H2 by assumption. apply NoDup_app; try assumption.
    + constructor; [intros [] | constructor].
    + intros x Hx [<-|[]]. contradiction.
Qed.

Section Loop.

Context {X : Type}.
Variables (keep : X -> bool) (key : X -> string) (value : X -> V).

Lemma last_set_init (k : string) (xs : list X) (init : option V) :
  last_set keep key value k xs init
  = match last_set keep key value k xs None with
    | Some v => Some v
    | None => init
    end.
Proof.
  revert init. induction xs as [|x xs IH]; intros init; simpl; [reflexivity|].
  rewrite IH. symmetry. rewrite IH.
  destruct (last_set keep key value k xs None); [reflexivity|].
  now destruct (keep x && String.eqb (key x) k).
Qed.

(** What the dict holds for [k] after the loop. *)
Lemma set_all_get (k : string) (xs : list X) (d : Dict V) :
  dict_get k (set_all keep key value xs d)
  = match last_set keep key value k xs None with
    | Some v => Some v
    | None => dict_get k d
    end.
Proof.
  revert d. induction xs as [|x xs IH]; intros d; simpl; [reflexivity|].
  fold (set_all keep key value xs
          (if keep x then dict_set (key x) (value x) d else d)).
  rewrite IH.
  fold (last_set keep key value k xs
          (if keep x && String.eqb (key x) k then Some (value x) else None)).
  rewrite (last_set_init k xs (if keep x && _ then _ else _)).
  destruct (last_set keep key value k xs None); [reflexivity|].
  destruct (keep x); simpl; [|reflexivity].
  destruct (String.eqb_spec (key x) k) as [<-|Hne].
  - apply dict_get_set_same.
  - now apply dict_get_set_other.
Qed.


Lemma set_all_nodup (xs : list X) (d : Dict V) :
  NoDup (dict_keys d) -> NoDup (dict_keys (set_all keep key value xs d)).
Proof.
  revert d. induction xs as [|x xs IH]; intros d Hd; simpl; [assumption|].
  apply IH. destruct (keep x); [now apply dict_keys_set_nodup | assumption].
Qed.

(** Every value of the dict after the loop was there before or was
    assigned by the loop. *)
Lemma set_all_values (v : V) (xs : list X) (d : Dict V) :
  In v (dict_values (set_all keep key value xs d)) ->
  In v (dict_values d)
  \/ exists x, In x xs /\ keep x = true /\ v = value x.
Proof.
  revert d. induction xs as [|x xs IH]; intros d; simpl; [now left|].
  intros H. apply IH in H. destruct H as [H|[y [Hy1 Hy2]]].
  - destruct (keep x) eqn:Hx; [|now left].
    apply dict_values_set in H. destruct H as [->|H]; [|now left].
    right. exists x. tauto.
  - right. exists y. tauto.
Qed.

End Loop.

End DictFacts.

(* ================================================================== *)
(** ** The credential file *)
(* ================================================================== *)

Section EnvFacts.

Lemma read_mapping_set_all (lines : list string) :
  read_mapping lines = set_all is_key_line line_key (fun l => l) lines [].
Proof. reflexivity. Qed.

Lemma apply_updates_set_all (updates mapping : Dict string) :
  apply_updates updates mapping
  = set_all (fun _ => true) fst update_line updates mapping.
Proof. reflexivity. Qed.



Lemma join_terminated (lines : list string) :
  Py.join Py.nl lines ++ (match lines with [] => "" | _ => Py.nl end)
  = terminated lines.
Proof.
  induction lines as [|l [|l' rest] IH]; [reflexivity| |].
  - reflexivity.
  - change (Py.join Py.nl (l :: l' :: rest))
      with (l ++ Py.nl ++ Py.join Py.nl (l' :: rest)).
    rewrite !append_assoc, IH. reflexivity.
Qed.

Lemma key_line_in_read_mapping (l : string) (lines : list string) :
  In l (dict_values (read_mapping lines)) ->
  In l lines /\ is_key_line l = true.
Proof.
  rewrite read_mapping_set_all. intros H.
  apply set_all_values in H. destruct H as [[]|[x [Hx [Hk ->]]]]. now split.
Qed.

(** The mapping written has one entry per key. *)
Lemma env_mapping_nodup (updates : Dict string) (env_file : option string) :
  NoDup (dict_keys (env_mapping updates env_file)).
Proof.
  unfold env_mapping. rewrite apply_updates_set_all, read_mapping_set_all.
  do 2 apply set_all_nodup. constructor.
Qed.

(** Every line written is a key line of the old file or the line of an
    update. *)
Lemma env_mapping_values (updates : Dict string) (env_file : option string)
    (l : string) :
  In l (dict_values (env_mapping updates env_file)) ->
  (In l (env_lines env_file) /\ is_key_line l = true)
  \/ exists k v, In (k, v) updates /\ l = k ++ "=" ++ safe_value v.
Proof.
  unfold env_mapping. rewrite apply_updates_set_all. intros Hl.
  apply set_all_values in Hl. destruct Hl as [Hl|[[k v] [Hin [_ ->]]]].
  - left. now apply key_line_in_read_mapping.
  - right. exists k, v. now split.
Qed.


Lemma lit_char (c a : ascii) (s : string) :
  Py.lit (String c "") (String a s) = if Ascii.eqb c a then Some 1 else None.
Proof. unfold Py.lit. cbn. now destruct (Ascii.eqb c a). Qed.

(** Removing a character: [s.replace(c, '')]. *)
Lemma replace_char_gone (c : ascii) (s : string) :
  Py.has_char c (Py.replace (String c "") "" s) = false.
Proof.
  unfold Py.replace, Py.sub.
  induction s as [|a s IH]; [reflexivity|].
  cbn [Py.sub_from]. rewrite lit_char.
  destruct (Ascii.eqb c a) eqn:E; cbn [append].
  - exact IH.
  - cbn [Py.has_char]. rewrite IH, Ascii.eqb_sym, E. reflexivity.
Qed.

Lemma replace_char_absent (c d : ascii) (s : string) :
  Py.has_char d s = false ->
  Py.has_char d (Py.replace (String c "") "" s) = false.
Proof.
  unfold Py.replace, Py.sub.
  induction s as [|a s IH]; [reflexivity|].
  cbn [Py.sub_from Py.has_char]. rewrite lit_char. intros H.
  apply orb_false_iff in H. destruct H as [Ha Hs].
  destruct (Ascii.eqb c a); cbn [append].
  - now apply IH.
  - cbn [Py.has_char]. now rewrite Ha, IH.
Qed.

(** The value written has neither line feed nor carriage return. *)
Lemma safe_value_no_crlf (v : string) : no_crlf (safe_value v) = true.
Proof.
  unfold no_crlf, safe_value.
  change Py.cr with (String Py.CR ""). change Py.nl with (String Py.LF "").
  rewrite replace_char_gone.
  rewrite replace_char_absent by apply replace_char_gone.
  reflexivity.
Qed.

End EnvFacts.

(* ================================================================== *)
(** ** The dispatch loop *)
(* ================================================================== *)

Section DispatchFacts.

Variable render : string -> string -> string -> exn + string.
Variable Smtp : Type.
Variable sendmail : Smtp -> string -> string -> Message -> Smtp * option exn.
Variables message_template default_subject signature_text : string.
Variables smtp_email from_name : string.
Variable attachments : list Attachment.

Local Abbreviation one :=
  (send_one render sendmail message_template default_subject signature_text
     smtp_email from_name attachments).
Local Abbreviation loop :=
  (send_loop render sendmail message_template default_subject signature_text
     smtp_email from_name attachments).
Local Abbreviation run :=
  (dispatch render sendmail message_template default_subject signature_text
     smtp_email from_name attachments).
Local Abbreviation iteration :=
  (iteration render sendmail message_template default_subject signature_text
     smtp_email from_name attachments).
Local Abbreviation message :=
  (build_message default_subject signature_text smtp_email from_name
     attachments).

Lemma truthy_false (s : string) : Py.truthy s = false -> s = "".
Proof.
  unfold Py.truthy. intros H. apply negb_false_iff in H.
  now apply String.eqb_eq.
Qed.

Lemma truthy_true (s : string) : Py.truthy s = true -> s <> "".
Proof.
  unfold Py.truthy. intros H. apply negb_true_iff in H.
  now apply String.eqb_neq.
Qed.

(** One iteration from the starting state goes one of the three ways. *)
Lemma send_one_iteration (srv : Smtp) (idx : nat) (rec : Recipient) :
  iteration srv idx rec (one idx rec (fresh srv)).
Proof.
  unfold send_one. cbn [fresh server results trace app].
  destruct (Py.truthy (Py.strip (r_email rec))) eqn:T; cbn [negb].
  - apply truthy_true in T.
    destruct (render message_template (r_name rec) (Py.strip (r_email rec)))
      as [exc|body] eqn:R.
    + now apply it_render.
    + destruct (sendmail srv smtp_email (Py.strip (r_email rec))
                  (message (Py.strip (r_email rec)) rec body))
        as [srv' [exc|]] eqn:S.
      * eapply it_failed; eassumption.
      * eapply it_sent; eassumption.
  - apply truthy_false in T. now apply it_empty.
Qed.

(** An iteration only appends to [results] and [trace]. *)
Lemma send_one_delta (idx : nat) (rec : Recipient) (st : Loop Smtp) :
  one idx rec st
  = let d := one idx rec (fresh (server st)) in
    {| server := server d;
       results := results st ++ results d;
       trace := trace st ++ trace d |}.
Proof.
  unfold send_one. cbn [fresh server results trace app].
  destruct (Py.truthy (Py.strip (r_email rec))); cbn [negb].
  - destruct (render message_template (r_name rec) (Py.strip (r_email rec))).
    + cbn. now rewrite app_nil_r.
    + destruct (sendmail (server st) smtp_email (Py.strip (r_email rec)) _)
        as [srv' [exc|]]; reflexivity.
  - cbn. now rewrite app_nil_r.
Qed.

Lemma send_loop_delta (records : list Recipient) :
  forall idx st,
    loop idx records st
    = let d := loop idx records (fresh (server st)) in
      {| server := server d;
         results := results st ++ results d;
         trace := trace st ++ trace d |}.
Proof.
  induction records as [|rec rest IH]; intros idx st.
  - destruct st. cbn. now rewrite !app_nil_r.
  - cbn [send_loop]. rewrite IH. symmetry. rewrite IH. symmetry.
    rewrite (send_one_delta idx rec st). cbn [server results trace].
    now rewrite !app_assoc.
Qed.

Lemma send_loop_app (l1 l2 : list Recipient) :
  forall idx st,
    loop idx (l1 ++ l2)%list st = loop (idx + List.length l1) l2 (loop idx l1 st).
Proof.
  induction l1 as [|rec l1 IH]; intros idx st; cbn [app send_loop List.length].
  - now rewrite Nat.add_0_r.
  - rewrite IH. now rewrite Nat.add_succ_r.
Qed.

(** The actions of a stretch of the loop carry the counters of that
    stretch, and it adds one result per record, addressed in order. *)
Lemma send_loop_shape (records : list Recipient) :
  forall idx srv,
    let d := loop idx records (fresh srv) in
    List.length (results d) = List.length records
    /\ map res_to (results d)
       = map (fun rec => Py.strip (r_email rec)) records
    /\ Forall (fun e => exists i, event_idx e = Some i
                                  /\ idx <= i < idx + List.length records)
         (trace d).
Proof.
  induction records as [|rec rest IH]; intros idx srv.
  - cbn. repeat split. constructor.
  - cbn [send_loop]. rewrite send_loop_delta. cbn zeta.
    pose proof (send_one_iteration srv idx rec) as It.
    set (o := one idx rec (fresh srv)) in *. clearbody o.
    destruct (IH (S idx) (server o)) as [Hlen [Hto Hidx]].
    cbn [server results trace List.length map].
    rewrite List.length_app, map_app, Hlen, Hto.
    assert (Hrest : Forall
              (fun e => exists i, event_idx e = Some i
                                  /\ idx <= i < idx + S (List.length rest))
              (trace (loop (S idx) rest (fresh (server o))))).
    { eapply Forall_impl; [|exact Hidx]. cbn beta.
      intros e [i [E Hi]]. exists i. split; [exact E | lia]. }
    destruct It; cbn [results trace List.length map res_to error_result
                        sent_result app];
      (split; [reflexivity|]); (split; [reflexivity|]);
      repeat (constructor; [eexists; split; [reflexivity | lia]|]);
      exact Hrest.
Qed.

(** The run of the loop around the record at position [length l1]. *)
Lemma dispatch_at (srv : Smtp) (l1 : list Recipient) (rec : Recipient)
    (l2 : list Recipient) :
  let before := run srv l1 in
  exists o later_results later_trace,
    iteration (server before) (S (List.length l1)) rec o
    /\ results (run srv (l1 ++ rec :: l2)%list)
       = (results before ++ results o ++ later_results)%list
    /\ trace (run srv (l1 ++ rec :: l2)%list)
       = (trace before ++ trace o ++ later_trace)%list
    /\ List.length (results before) = List.length l1
    /\ Forall (fun e => exists i, event_idx e = Some i
                                  /\ i < S (List.length l1))
         (trace before)
    /\ Forall (fun e => exists i, event_idx e = Some i
                                  /\ S (List.length l1) < i)
         later_trace.
Proof.
  intros before. unfold dispatch in *.
  rewrite send_loop_app. cbn [send_loop]. fold before.
  rewrite send_loop_delta, send_one_delta. cbn zeta.
  cbn [server results trace].
  set (o := one (1 + List.length l1) rec (fresh (server before))).
  exists o, (results (loop (S (1 + List.length l1)) l2 (fresh (server o)))),
    (trace (loop (S (1 + List.length l1)) l2 (fresh (server o)))).
  destruct (send_loop_shape l1 1 srv) as [Hlen [_ Hidx]].
  destruct (send_loop_shape l2 (S (1 + List.length l1)) (server o))
    as [_ [_ Hidx2]].
  split; [apply send_one_iteration|].
  split; [now rewrite app_assoc|].
  split; [now rewrite app_assoc|].
  split; [exact Hlen|]. split.
  - eapply Forall_impl; [|exact Hidx]. cbn beta.
    intros e [i [E Hi]]. exists i. split; [exact E | lia].
  - eapply Forall_impl; [|exact Hidx2]. cbn beta.
    intros e [i [E Hi]]. exists i. split; [exact E | lia].
Qed.

Lemma nth_error_middle {A : Type} (l1 l2 l3 : list A) (x : A) :
  nth_error (l1 ++ (x :: l2) ++ l3)%list (List.length l1) = Some x.
Proof.
  rewrite nth_error_app2 by lia. now rewrite Nat.sub_diag.
Qed.

Lemma firstn_prefix {A : Type} (l1 l2 : list A) :
  firstn (List.length l1) (l1 ++ l2)%list = l1.
Proof.
  rewrite firstn_app, Nat.sub_diag, firstn_all. cbn. apply app_nil_r.
Qed.

(** An action of counter [i] in the run comes from the iteration on
    record [i]. *)
Lemma in_trace_at (e : Event) (i : nat) (t1 t2 t3 : list Event) :
  event_idx e = Some i ->
  Forall (fun e => exists j, event_idx e = Some j /\ j < i) t1 ->
  Forall (fun e => exists j, event_idx e = Some j /\ i < j) t3 ->
  In e (t1 ++ t2 ++ t3)%list -> In e t2.
Proof.
  intros E H1 H3 H. apply in_app_or in H. destruct H as [H|H].
  - rewrite Forall_forall in H1. destruct (H1 e H) as [j [E' Hj]].
    rewrite E in E'. injection E' as <-. lia.
  - apply in_app_or in H. destruct H as [H|H]; [assumption|].
    rewrite Forall_forall in H3. destruct (H3 e H) as [j [E' Hj]].
    rewrite E in E'. injection E' as <-. lia.
Qed.

(** The record at position [k] and the run up to it. *)
Lemma dispatch_at_position (srv : Smtp) (records : list Recipient)
    (k : nat) (rec : Recipient) :
  nth_error records k = Some rec ->
  exists o later_results later_trace,
    iteration (server (run srv (firstn k records))) (S k) rec o
    /\ nth_error (results (run srv records)) k = nth_error (results o) 0
    /\ trace (run srv records)
       = (trace (run srv (firstn k records)) ++ trace o ++ later_trace)%list
    /\ (forall e, event_idx e = Some (S k) ->
          In e (trace (run srv records)) -> In e (trace o))
    /\ results (run srv records)
       = (results (run srv (firstn k records)) ++ results o
          ++ later_results)%list.
Proof.
  intros Hk. apply nth_error_split in Hk.
  destruct Hk as [l1 [l2 [-> <-]]]. rewrite firstn_prefix.
  destruct (dispatch_at srv l1 rec l2)
    as [o [R2 [T2 [It [HR [HT [Hlen [H1 H2]]]]]]]].
  exists o, R2, T2. split; [exact It|]. split; [|split; [exact HT|split]].
  - rewrite HR, <- Hlen. rewrite nth_error_app2 by lia.
    rewrite Nat.sub_diag. destruct It; reflexivity.
  - intros e E He. rewrite HT in He.
    now apply (in_trace_at e (S (List.length l1)) (trace (run srv l1))
                 (trace o) T2).
  - exact HR.
Qed.

(** C1.  A batch of N records gives exactly N results, addressed in the
    order of the records.  The result at position [k] is decided by record
    [k] alone, whatever happened to the records before it: an empty
    address gives the result with status [error] and detail [Correo vacio]
    (with its accent) and no call of [sendmail]; an exception of the render
    gives the status [error] with the text of the exception and no call of
    [sendmail]; otherwise [sendmail] is called once on the session left by
    the records before, and the result has the status [enviado] and an
    empty detail, or the status [error] and the text of the exception that
    [sendmail] raised. *)
Theorem dispatch_one_result_per_record (srv : Smtp)
    (records : list Recipient) :
  let st := run srv records in
  List.length (results st) = List.length records
  /\ map res_to (results st) = map (fun rec => Py.strip (r_email rec)) records
  /\ forall k rec,
       nth_error records k = Some rec ->
       let to_addr := Py.strip (r_email rec) in
       let before := run srv (firstn k records) in
       (to_addr = "" ->
        nth_error (results st) k
        = Some {| res_to := "";
                  res_status := "error";
                  res_detail := "Correo vac" ++ String "237" "o" |}
        /\ forall m, ~ In (Sendmail (S k) m) (trace st))
       /\ (to_addr <> "" ->
           forall exc,
             render message_template (r_name rec) to_addr = inl exc ->
             nth_error (results st) k
             = Some {| res_to := to_addr;
                       res_status := "error";
                       res_detail := str_exn exc |}
             /\ forall m, ~ In (Sendmail (S k) m) (trace st))
       /\ (to_addr <> "" ->
           forall body,
             render message_template (r_name rec) to_addr = inr body ->
             let msg := message to_addr rec body in
             In (Sendmail (S k) msg) (trace st)
             /\ (forall m, In (Sendmail (S k) m) (trace st) -> m = msg)
             /\ nth_error (results st) k
                = Some
                    match snd (sendmail (server before) smtp_email to_addr msg)
                    with
                    | None =>
                        {| res_to := to_addr;
                           res_status := "enviado";
                           res_detail := "" |}
                    | Some exc =>
                        {| res_to := to_addr;
                           res_status := "error";
                           res_detail := str_exn exc |}
                    end).
Proof.
  intros st. unfold st.
  destruct (send_loop_shape records 1 srv) as [Hlen [Hto _]].
  split; [exact Hlen|]. split; [exact Hto|].
  intros k rec Hk. cbv zeta.
  destruct (dispatch_at_position srv records k rec Hk)
    as [o [R2 [T2 [It [Hres [Htr [Hin _]]]]]]].
  set (to_addr := Py.strip (r_email rec)) in *.
  set (before := run srv (firstn k records)) in *.
  split; [|split].
  - intros Hempty. destruct It as [He| | |]; try contradiction.
    split; [rewrite Hres; cbn [results nth_error]; fold to_addr;
            rewrite Hempty; reflexivity|].
    intros m Hm.
    apply (Hin (Sendmail (S k) m) eq_refl) in Hm. exact Hm.
  - intros Hto_addr exc Hexc.
    destruct It as [He|exc' _ R|body srv' _ R _|body srv' exc' _ R _];
      try contradiction; fold to_addr in R; try congruence.
    assert (E : exc' = exc) by congruence. subst exc'.
    split; [exact Hres|]. intros m Hm.
    apply (Hin (Sendmail (S k) m) eq_refl) in Hm. exact Hm.
  - intros Hto_addr body Hbody.
    set (msg := message to_addr rec body).
    destruct It as [He|exc' _ R|body' srv' _ R Hs|body' srv' exc' _ R Hs];
      try contradiction; fold to_addr in R; try congruence;
      fold to_addr in Hs; assert (E : body' = body) by congruence;
      subst body'; fold msg in Hs, Hres, Htr, Hin.
    + split; [|split].
      * rewrite Htr. apply in_or_app. right. apply in_or_app. left.
        now left.
      * intros m Hm. apply (Hin (Sendmail (S k) m) eq_refl) in Hm.
        destruct Hm as [[= <-]|[[=]|[]]]. reflexivity.
      * rewrite Hres, Hs. reflexivity.
    + split; [|split].
      * rewrite Htr. apply in_or_app. right. apply in_or_app. left.
        now left.
      * intros m Hm. apply (Hin (Sendmail (S k) m) eq_refl) in Hm.
        destruct Hm as [[= <-]|[]]. reflexivity.
      * rewrite Hres, Hs. reflexivity.
Qed.

(** An action of the run belongs to a record of the batch. *)
Lemma trace_record (srv : Smtp) (records : list Recipient) (e : Event) :
  In e (trace (run srv records)) ->
  exists k rec, event_idx e = Some (S k) /\ nth_error records k = Some rec.
Proof.
  intros He. destruct (send_loop_shape records 1 srv) as [_ [_ Hidx]].
  rewrite Forall_forall in Hidx. destruct (Hidx e He) as [i [E Hi]].
  destruct i as [|k]; [lia|]. exists k.
  destruct (nth_error records k) as [rec|] eqn:N.
  - exists rec. now split.
  - apply nth_error_None in N. lia.
Qed.

(** C2.  What the loop does about the pause.  Every pause lasts half a
    second.  The pause of the record at position [k] is in the trace
    exactly when the result of that record has the status [enviado], and
    it then follows the call of [sendmail] for that record.  When the
    address is not empty and [sendmail] is called and raises, the result
    has the status [error] and no pause at all is made for that record:
    the loop goes on to the next record at once, where the claim has the
    pause after a failed attempt too. *)
Theorem dispatch_pause_only_after_success (srv : Smtp)
    (records : list Recipient) (k : nat) (rec : Recipient) :
  nth_error records k = Some rec ->
  let st := run srv records in
  let to_addr := Py.strip (r_email rec) in
  let before := run srv (firstn k records) in
  (forall i q, In (Sleep i q) (trace st) -> q = (1 # 2)%Q)
  /\ (In (Sleep (S k) (1 # 2)%Q) (trace st)
      <-> nth_error (results st) k
          = Some {| res_to := to_addr;
                    res_status := "enviado";
                    res_detail := "" |})
  /\ (In (Sleep (S k) (1 # 2)%Q) (trace st) ->
      exists t1 t2 m,
        trace st
        = (t1 ++ [Sendmail (S k) m; Sleep (S k) (1 # 2)%Q] ++ t2)%list)
  /\ (to_addr <> "" ->
      forall body exc,
        render message_template (r_name rec) to_addr = inr body ->
        snd (sendmail (server before) smtp_email to_addr
               (message to_addr rec body)) = Some exc ->
        In (Sendmail (S k) (message to_addr rec body)) (trace st)
        /\ nth_error (results st) k
           = Some {| res_to := to_addr;
                     res_status := "error";
                     res_detail := str_exn exc |}
        /\ forall q, ~ In (Sleep (S k) q) (trace st)).
Proof.
  intros Hk. cbv zeta. split.
  - intros i q Hq.
    destruct (trace_record srv records _ Hq) as [k' [rec' [E Hk']]].
    cbn in E. injection E as ->.
    destruct (dispatch_at_position srv records k' rec' Hk')
      as [o [R2 [T2 [It [_ [_ [Hin _]]]]]]].
    apply (Hin (Sleep (S k') q) eq_refl) in Hq.
    destruct It; cbn in Hq; try contradiction.
    + destruct Hq as [[=]|[[= <-]|[]]]. reflexivity.
    + destruct Hq as [[=]|[]].
  - destruct (dispatch_at_position srv records k rec Hk)
      as [o [R2 [T2 [It [Hres [Htr [Hin _]]]]]]].
    split; [split|split].
    + intros Hp. apply (Hin (Sleep (S k) (1 # 2)%Q) eq_refl) in Hp.
      rewrite Hres. destruct It; cbn in Hp; try contradiction.
      * reflexivity.
      * destruct Hp as [[=]|[]].
    + intros Hr. rewrite Hres in Hr. rewrite Htr.
      destruct It; cbn in Hr; unfold error_result, sent_result in Hr;
        try discriminate Hr.
      apply in_or_app. right. apply in_or_app. left. right. now left.
    + intros Hp. apply (Hin (Sleep (S k) (1 # 2)%Q) eq_refl) in Hp.
      rewrite Htr. destruct It; cbn in Hp; try contradiction.
      * eexists _, T2, _. reflexivity.
      * destruct Hp as [[=]|[]].
    + intros Hto body exc Hbody Hsend.
      destruct It as [He|exc' _ R|body' srv' _ R Hs|body' srv' exc' _ R Hs];
        try contradiction; try congruence;
        assert (E : body' = body) by congruence; subst body'.
      * rewrite Hs in Hsend. discriminate Hsend.
      * rewrite Hs in Hsend. cbn [snd] in Hsend. injection Hsend as ->.
        split; [|split].
        -- rewrite Htr. apply in_or_app. right. apply in_or_app. left.
           now left.
        -- rewrite Hres. reflexivity.
        -- intros q Hq. apply (Hin (Sleep (S k) q) eq_refl) in Hq.
           destruct Hq as [[=]|[]].
Qed.

(** The three cases of [rec.get('subject') or default_subject or
    'Comunicado']. *)
Lemma subject_for_rule (rec : Recipient) :
  (forall s, r_subject rec = Some s -> s <> "" ->
     subject_for default_subject rec = s)
  /\ (r_subject rec = None \/ r_subject rec = Some "" ->
      default_subject <> "" ->
      subject_for default_subject rec = default_subject)
  /\ (r_subject rec = None \/ r_subject rec = Some "" ->
      default_subject = "" ->
      subject_for default_subject rec = "Comunicado").
Proof.
  unfold subject_for, opt_or, Py.or_else.
  split; [|split].
  - intros s -> Hs.
    assert (T : Py.truthy s = true)
      by (unfold Py.truthy; apply String.eqb_neq in Hs; now rewrite Hs).
    now rewrite !T.
  - intros H Hd.
    assert (T : Py.truthy default_subject = true)
      by (unfold Py.truthy; apply String.eqb_neq in Hd; now rewrite Hd).
    destruct H as [-> | ->]; cbn; now rewrite !T.
  - intros H ->. destruct H as [-> | ->]; reflexivity.
Qed.

(** C7.  Every message handed to [sendmail] was built for a record of
    the batch, and its subject is the subject of that record when the
    record has one that is not empty, else the default subject when that
    is not empty, else [Comunicado]. *)
Theorem dispatch_subject_rule (srv : Smtp) (records : list Recipient)
    (idx : nat) (m : Message) :
  In (Sendmail idx m) (trace (run srv records)) ->
  exists rec,
    nth_error records (idx - 1) = Some rec
    /\ 1 <= idx
    /\ (forall s, r_subject rec = Some s -> s <> "" -> msg_subject m = s)
    /\ (r_subject rec = None \/ r_subject rec = Some "" ->
        default_subject <> "" -> msg_subject m = default_subject)
    /\ (r_subject rec = None \/ r_subject rec = Some "" ->
        default_subject = "" -> msg_subject m = "Comunicado").
Proof.
  intros Hm. destruct (trace_record srv records _ Hm) as [k [rec [E Hk]]].
  cbn in E. injection E as ->. exists rec.
  replace (S k - 1) with k by lia. split; [exact Hk|]. split; [lia|].
  destruct (dispatch_at_position srv records k rec Hk)
    as [o [R2 [T2 [It [_ [_ [Hin _]]]]]]].
  apply (Hin (Sendmail (S k) m) eq_refl) in Hm.
  assert (Hs : msg_subject m = subject_for default_subject rec).
  { destruct It; cbn in Hm; try contradiction.
    - destruct Hm as [[= <-]|[[=]|[]]]. reflexivity.
    - destruct Hm as [[= <-]|[]]. reflexivity. }
  rewrite Hs. apply subject_for_rule.
Qed.

End DispatchFacts.

(* ================================================================== *)
(** ** The Map step *)
(* ================================================================== *)

Section MapFacts.

Variable render : string -> string -> string -> exn + string.

(** A required column passes the check exactly when it is given, not
    empty, and a column of the file just read. *)
Lemma col_missing_false (df : DataFrame) (c : option string) :
  col_missing df c = false
  <-> exists s, c = Some s /\ s <> "" /\ In s (df_columns df).
Proof.
  unfold col_missing, in_columns. destruct c as [s|].
  - rewrite orb_false_iff, !negb_false_iff. split.
    + intros [T E]. exists s. split; [reflexivity|].
      split; [now apply truthy_true|].
      apply existsb_exists in E. destruct E as [x [Hx Ex]].
      apply String.eqb_eq in Ex. now subst x.
    + intros [s' [[= <-] [Hs Hin]]]. split.
      * unfold Py.truthy. apply String.eqb_neq in Hs. now rewrite Hs.
      * apply existsb_exists. exists s. split; [assumption|].
        apply String.eqb_refl.
  - split; [discriminate | intros [s [[=] _]]].
Qed.

Lemma in_columns_false (df : DataFrame) (c : string) :
  ~ In c (df_columns df) -> in_columns c df = false.
Proof.
  intros H. unfold in_columns. destruct (existsb _ _) eqn:E; [|reflexivity].
  apply existsb_exists in E. destruct E as [x [Hx Ex]].
  apply String.eqb_eq in Ex. now subst x.
Qed.

(** The outcome of [map_columns] once the session names a file and the
    file has been read again. *)
Lemma map_columns_read (form : Form) (sess : Session) (disk : Disk)
    (environ : Dict string) (path : string) (df : DataFrame) :
  ss_upload_path sess = Some path -> path <> "" ->
  read_table disk path path = inr df ->
  map_columns render form sess disk environ
  = match form_get form "email_col", form_get form "name_col" with
    | Some e, Some n =>
        if col_missing df (Some e) || col_missing df (Some n) then
          (Redirect_index, [msg_select_columns], sess)
        else
          let records :=
            map (make_record df e n (form_get form "subject_col"))
              (df_rows df) in
          (Confirm
             (map (render_sample render
                     (get_or_empty (ss_message_template sess))
                     (get_or_empty (ss_default_subject sess)))
                (firstn 5 records))
             (List.length records) (smtp_defaults_of environ),
           [],
           mapped_session sess records e n (form_get form "subject_col"))
    | _, _ => (Redirect_index, [msg_select_columns], sess)
    end.
Proof.
  intros Hpath Hne Hread. unfold map_columns.
  rewrite Hpath. cbn [truthy_opt get_or_empty].
  assert (T : Py.truthy path = true)
    by (unfold Py.truthy; apply String.eqb_neq in Hne; now rewrite Hne).
  rewrite T. cbn [negb]. rewrite Hread.
  destruct (form_get form "email_col") as [e|],
    (form_get form "name_col") as [n|]; cbn [filter col_missing].
  - fold (col_missing df (Some e)). fold (col_missing df (Some n)).
    destruct (col_missing df (Some e)), (col_missing df (Some n));
      try reflexivity.
    unfold mapped_session. cbn [orb]. rewrite Hpath. reflexivity.
  - fold (col_missing df (Some e)).
    destruct (col_missing df (Some e)); reflexivity.
  - fold (col_missing df (Some n)).
    destruct (col_missing df (Some n)); reflexivity.
  - reflexivity.
Qed.

(** Every outcome of [map_columns] other than the confirm view is a
    redirect that leaves the session as it was. *)
Lemma map_columns_redirect (form : Form) (sess : Session) (disk : Disk)
    (environ : Dict string) (flashes : list string) (sess' : Session) :
  map_columns render form sess disk environ = (Redirect_index, flashes, sess') ->
  sess' = sess.
Proof.
  unfold map_columns.
  destruct (negb (truthy_opt (ss_upload_path sess))); [now intros [= _ <-]|].
  destruct (read_table disk _ _) as [exc|df]; [now intros [= _ <-]|].
  destruct (filter _ _); [|now intros [= _ <-]].
  destruct (form_get form "email_col"); [|now intros [= _ <-]].
  destruct (form_get form "name_col"); [|now intros [= _ <-]].
  discriminate.
Qed.

(** A Map request that reached the confirm view named a readable file. *)
Lemma map_columns_confirm_file (form : Form) (sess : Session) (disk : Disk)
    (environ : Dict string) samples total defaults flashes sess' :
  map_columns render form sess disk environ
  = (Confirm samples total defaults, flashes, sess') ->
  exists path df,
    ss_upload_path sess = Some path /\ path <> ""
    /\ read_table disk path path = inr df.
Proof.
  unfold map_columns.
  destruct (ss_upload_path sess) as [path|] eqn:P; cbn [truthy_opt];
    [|discriminate].
  destruct (Py.truthy path) eqn:T; cbn [negb get_or_empty]; [|discriminate].
  destruct (read_table disk path path) as [exc|df] eqn:R; [discriminate|].
  intros _. exists path, df. split; [reflexivity|].
  split; [now apply truthy_true | exact R].
Qed.

Lemma col_missing_true (df : DataFrame) (c : option string) :
  ~ (exists s, c = Some s /\ s <> "" /\ In s (df_columns df)) ->
  col_missing df c = true.
Proof.
  intros H. destruct (col_missing df c) eqn:E; [reflexivity|].
  apply col_missing_false in E. contradiction.
Qed.

(** C6 (as amended).  The Map step reaches the confirm view only when
    the mail and name columns are both given, not empty, and columns of the
    uploaded file as [map_columns] reads it again; the column list that
    Prepare stored in the session is not consulted.  When either column
    fails this test the answer is the redirect to the start page with the
    session left as it was, so that no [mapped_records] is created; the
    same holds of every other redirect of the step. *)
Theorem map_columns_requires_file_columns (form : Form) (sess : Session)
    (disk : Disk) (environ : Dict string) :
  (forall samples total defaults flashes sess',
     map_columns render form sess disk environ
     = (Confirm samples total defaults, flashes, sess') ->
     exists path df e n,
       ss_upload_path sess = Some path
       /\ read_table disk path path = inr df
       /\ form_get form "email_col" = Some e /\ e <> ""
       /\ In e (df_columns df)
       /\ form_get form "name_col" = Some n /\ n <> ""
       /\ In n (df_columns df)
       /\ ss_mapped_records sess'
          = Some (map (make_record df e n (form_get form "subject_col"))
                    (df_rows df)))
  /\ (forall path df c,
        ss_upload_path sess = Some path -> path <> "" ->
        read_table disk path path = inr df ->
        c = form_get form "email_col" \/ c = form_get form "name_col" ->
        ~ (exists s, c = Some s /\ s <> "" /\ In s (df_columns df)) ->
        map_columns render form sess disk environ
        = (Redirect_index, [msg_select_columns], sess))
  /\ (forall flashes sess',
        map_columns render form sess disk environ
        = (Redirect_index, flashes, sess') ->
        sess' = sess).
Proof.
  split; [|split].
  - intros samples total defaults flashes sess' H.
    destruct (map_columns_confirm_file _ _ _ _ _ _ _ _ _ H)
      as [path [df [Hpath [Hne Hread]]]].
    rewrite (map_columns_read form sess disk environ path df Hpath Hne Hread)
      in H.
    destruct (form_get form "email_col") as [e|]; [|discriminate].
    destruct (form_get form "name_col") as [n|]; [|discriminate].
    destruct (col_missing df (Some e)) eqn:Ee; [discriminate|].
    destruct (col_missing df (Some n)) eqn:En; [discriminate|].
    apply col_missing_false in Ee, En.
    destruct Ee as [e' [[= <-] [He1 He2]]], En as [n' [[= <-] [Hn1 Hn2]]].
    cbn [orb] in H. injection H as _ _ _ _ <-.
    exists path, df, e, n. repeat (split; [easy|]). reflexivity.
  - intros path df c Hpath Hne Hread Hc Hmiss.
    apply col_missing_true in Hmiss.
    rewrite (map_columns_read form sess disk environ path df Hpath Hne Hread).
    destruct (form_get form "email_col") as [e|],
      (form_get form "name_col") as [n|]; try reflexivity.
    destruct Hc as [-> | ->]; rewrite Hmiss; [reflexivity|].
    now rewrite orb_true_r.
  - apply map_columns_redirect.
Qed.

(** C8.  When a Map request reaches the confirm view and the environment
    has no [SMTP_APP_PASSWORD], the password prefilled in the view is the
    literal written in the source, not an empty value; likewise the sender
    name is [Centro de Idiomas] when [SMTP_FROM_NAME] is not set. *)
Theorem map_columns_prefills_literal_password (form : Form) (sess : Session)
    (disk : Disk) (environ : Dict string) samples total defaults flashes
    sess' :
  map_columns render form sess disk environ
  = (Confirm samples total defaults, flashes, sess') ->
  dict_get "SMTP_APP_PASSWORD" environ = None ->
  dict_get "smtp_app_password" defaults = Some "dgjr jxdm dske dxos"
  /\ dict_get "smtp_app_password" defaults <> Some ""
  /\ (dict_get "SMTP_FROM_NAME" environ = None ->
      dict_get "from_name" defaults = Some "Centro de Idiomas").
Proof.
  intros H Hpw.
  assert (Hd : defaults = smtp_defaults_of environ).
  { destruct (map_columns_confirm_file _ _ _ _ _ _ _ _ _ H)
      as [path [df [Hpath [Hne Hread]]]].
    rewrite (map_columns_read form sess disk environ path df Hpath Hne Hread)
      in H.
    destruct (form_get form "email_col") as [e|]; [|discriminate].
    destruct (form_get form "name_col") as [n|]; [|discriminate].
    destruct (col_missing df (Some e) || col_missing df (Some n));
      [discriminate|].
    now injection H as _ _ <- _ _. }
  subst defaults. unfold smtp_defaults_of, _get_env_default. rewrite Hpw.
  split; [reflexivity|]. split; [discriminate|].
  intros ->. reflexivity.
Qed.

(** C10.  A Map request whose mail and name columns are valid and whose
    subject column is given but is not a column of the file succeeds: the
    confirm view is returned, no message is flashed, and the records stored
    in the session have no subject. *)
Theorem map_columns_unknown_subject_column (form : Form) (sess : Session)
    (disk : Disk) (environ : Dict string) (path : string) (df : DataFrame)
    (e n sc : string) :
  ss_upload_path sess = Some path -> path <> "" ->
  read_table disk path path = inr df ->
  form_get form "email_col" = Some e -> e <> "" -> In e (df_columns df) ->
  form_get form "name_col" = Some n -> n <> "" -> In n (df_columns df) ->
  form_get form "subject_col" = Some sc -> ~ In sc (df_columns df) ->
  let records :=
    map (fun row => {| r_email := Py.strip (row e);
                       r_name := Py.strip (row n);
                       r_subject := None |})
      (df_rows df) in
  exists samples,
    map_columns render form sess disk environ
    = (Confirm samples (List.length records) (smtp_defaults_of environ),
       [],
       mapped_session sess records e n (Some sc)).
Proof.
  intros Hpath Hne Hread He He1 He2 Hn Hn1 Hn2 Hsc Hsc1 records.
  rewrite (map_columns_read form sess disk environ path df Hpath Hne Hread).
  rewrite He, Hn, Hsc.
  assert (Ee : col_missing df (Some e) = false)
    by (apply col_missing_false; now exists e).
  assert (En : col_missing df (Some n) = false)
    by (apply col_missing_false; now exists n).
  rewrite Ee, En. cbn [orb].
  assert (Hrec : map (make_record df e n (Some sc)) (df_rows df) = records).
  { apply map_ext. intros row. unfold make_record.
    rewrite (in_columns_false df sc Hsc1). now rewrite andb_false_r. }
  rewrite Hrec. eexists. reflexivity.
Qed.

End MapFacts.

(* ================================================================== *)
(** ** The Send step *)
(* ================================================================== *)

Section SendFacts.

Variable render : string -> string -> string -> exn + string.
Variable secure_filename : string -> string.
Variable unescape : string -> exn + string.
Variable Smtp : Type.
Variable smtp_connect : string -> Z -> string -> string -> exn + Smtp.
Variable sendmail : Smtp -> string -> string -> Message -> Smtp * option exn.

Local Abbreviation send :=
  (send_emails render secure_filename unescape smtp_connect sendmail).

(** C3.  With recipients in the session, a port field that [int] does not
    accept makes [send_emails] raise: the [ValueError] of line 251 is outside
    every [try] and leaves the handler. *)
Theorem send_emails_port_not_caught (form : Form) (files : list FileUpload)
    (legacy : option FileUpload) (sess : Session) (w : World)
    (rec : Recipient) (rest : list Recipient) (port : string) (exc : exn) :
  ss_mapped_records sess = Some (rec :: rest) ->
  form_get form "smtp_port" = Some port ->
  py_int port = inl exc ->
  send form files legacy sess w = inl exc.
Proof.
  intros Hrec Hport Hint. unfold send_emails. rewrite Hrec.
  cbv zeta. unfold form_get_default. rewrite Hport, Hint. reflexivity.
Qed.


End SendFacts.

(* ================================================================== *)
(** ** The handlers on concrete requests *)
(* ================================================================== *)

(** The two conversions quoted by the specification, and the splitting of
    a text with mixed line ends. *)
Example html_to_plain_text_quoted :
  html_to_plain_text unescape_xml "<p>Hi</p>" = inr "Hi"
  /\ html_to_plain_text unescape_xml "A<br>B" = inr ("A" ++ Py.nl ++ "B")
  /\ Py.splitlines ("a" ++ Py.nl ++ Py.cr ++ Py.nl ++ "b" ++ Py.cr)
     = ["a"; ""; "b"].
Proof. repeat split; reflexivity. Qed.

Example py_int_literals :
  py_int " 5_87 " = inr 587%Z /\ py_int "-12" = inr (-12)%Z
  /\ py_int "" = inl (ValueError "") /\ py_int "5__8" = inl (ValueError "5__8")
  /\ py_int (chr 160 ++ "587" ++ chr 133) = inr 587%Z
  /\ py_int (chr 28 ++ "587") = inl (ValueError (chr 28 ++ "587"))
  /\ py_str_int 587 = "587".
Proof. repeat split; reflexivity. Qed.

Example allowed_file_extensions :
  allowed_file "Datos.CSV" = true /\ allowed_file "a.csv/notas" = false
  /\ allowed_file ".csv" = false /\ allowed_file "lista.xlsx" = true.
Proof. repeat split; reflexivity. Qed.

(** Prepare, then Map, on the demo upload. *)
Example map_columns_demo :
  map_columns render_demo demo_map_form (fst demo_prepared)
    (snd demo_prepared) []
  = (Confirm demo_samples 3 (smtp_defaults_of []), [], demo_mapped).
Proof. vm_compute. reflexivity. Qed.

(** A batch of three: one sent, one without address, one rejected. *)
Example dispatch_demo :
  results (demo_dispatch demo_records)
  = [ sent_result "ana@unmsm.edu.pe";
      error_result "" correo_vacio;
      error_result "eva.unmsm.edu.pe" "(550, b'mailbox unavailable')" ]
  /\ trace (demo_dispatch demo_records)
     = [ Sendmail 1 (demo_message "ana@unmsm.edu.pe" "Hola Ana");
         Sleep 1 send_pause;
         Sendmail 3 (demo_message "eva.unmsm.edu.pe" "Hola Eva") ].
Proof. split; vm_compute; reflexivity. Qed.

(** The batch of one recipient whose address the server rejects: the
    error is recorded and the loop ends without a pause. *)
Lemma dispatch_no_pause_after_failed_send :
  Py.truthy (Py.strip "eva.unmsm.edu.pe") = true
  /\ results (demo_dispatch
                [ {| r_email := "eva.unmsm.edu.pe"; r_name := "Eva";
                     r_subject := None |} ])
     = [ error_result "eva.unmsm.edu.pe" "(550, b'mailbox unavailable')" ]
  /\ trace (demo_dispatch
              [ {| r_email := "eva.unmsm.edu.pe"; r_name := "Eva";
                   r_subject := None |} ])
     = [ Sendmail 1 (demo_message "eva.unmsm.edu.pe" "Hola Eva") ].
Proof. repeat split; vm_compute; reflexivity. Qed.

(** C2, at the failing batch: the server rejects the address of the
    second recipient; the attempt is made, the result is an error, and no
    pause is made for that recipient. *)
Lemma dispatch_pause_only_after_success_witness :
  nth_error
    [ {| r_email := "ana@unmsm.edu.pe"; r_name := "Ana"; r_subject := None |};
      {| r_email := "eva.unmsm.edu.pe"; r_name := "Eva"; r_subject := None |} ]
    1
  = Some {| r_email := "eva.unmsm.edu.pe"; r_name := "Eva";
            r_subject := None |}
  /\ In (Sendmail 2 (demo_message "eva.unmsm.edu.pe" "Hola Eva"))
       (trace (demo_dispatch
                 [ {| r_email := "ana@unmsm.edu.pe"; r_name := "Ana";
                      r_subject := None |};
                   {| r_email := "eva.unmsm.edu.pe"; r_name := "Eva";
                      r_subject := None |} ]))
  /\ nth_error
       (results (demo_dispatch
                   [ {| r_email := "ana@unmsm.edu.pe"; r_name := "Ana";
                        r_subject := None |};
                     {| r_email := "eva.unmsm.edu.pe"; r_name := "Eva";
                        r_subject := None |} ]))
       1
     = Some {| res_to := "eva.unmsm.edu.pe";
               res_status := "error";
               res_detail := "(550, b'mailbox unavailable')" |}
  /\ forall q,
       ~ In (Sleep 2 q)
           (trace (demo_dispatch
                     [ {| r_email := "ana@unmsm.edu.pe"; r_name := "Ana";
                          r_subject := None |};
                       {| r_email := "eva.unmsm.edu.pe"; r_name := "Eva";
                          r_subject := None |} ])).
Proof.
  split; [reflexivity|].
  destruct (dispatch_pause_only_after_success render_demo (list string)
              sendmail_demo "Hola {{name}}" "Aviso" "" "yo@unmsm.edu.pe"
              "Centro de Idiomas" [] []
              [ {| r_email := "ana@unmsm.edu.pe"; r_name := "Ana";
                   r_subject := None |};
                {| r_email := "eva.unmsm.edu.pe"; r_name := "Eva";
                   r_subject := None |} ]
              1
              {| r_email := "eva.unmsm.edu.pe"; r_name := "Eva";
                 r_subject := None |}
              eq_refl) as [_ [_ [_ H]]].
  exact (H ltac:(discriminate) "Hola Eva"
           (Raised "(550, b'mailbox unavailable')") eq_refl eq_refl).
Defined.

(** C3, at the failing request: the port field holds [abc]. *)
Lemma send_emails_port_not_caught_witness :
  ss_mapped_records demo_mapped
  = Some ({| r_email := "ana@unmsm.edu.pe"; r_name := "Ana";
             r_subject := None |}
          :: [ {| r_email := ""; r_name := "Luis"; r_subject := None |};
               {| r_email := "eva.unmsm.edu.pe"; r_name := "Eva";
                  r_subject := None |} ])
  /\ form_get (demo_send_form "abc") "smtp_port" = Some "abc"
  /\ py_int "abc" = inl (ValueError "abc")
  /\ send_emails render_demo secure_filename_demo unescape_xml
       smtp_connect_demo sendmail_demo (demo_send_form "abc") [] None
       demo_mapped demo_world
     = inl (ValueError "abc").
Proof.
  split; [reflexivity|]. split; [reflexivity|]. split; [reflexivity|].
  apply (send_emails_port_not_caught render_demo secure_filename_demo
           unescape_xml (list string) smtp_connect_demo sendmail_demo
           (demo_send_form "abc") [] None demo_mapped demo_world
           {| r_email := "ana@unmsm.edu.pe"; r_name := "Ana";
              r_subject := None |}
           [ {| r_email := ""; r_name := "Luis"; r_subject := None |};
             {| r_email := "eva.unmsm.edu.pe"; r_name := "Eva";
                r_subject := None |} ]
           "abc" (ValueError "abc"));
    reflexivity.
Defined.

(** The same request with a port that parses is answered by the report,
    and remembering the credentials rewrites the credential file without
    its comment line. *)
Example send_emails_demo :
  exists w',
    send_emails render_demo secure_filename_demo unescape_xml
      smtp_connect_demo sendmail_demo (demo_send_form "587") [] None
      demo_mapped demo_world
    = inr (Result
             [ sent_result "ana@unmsm.edu.pe";
               error_result "" correo_vacio;
               error_result "eva.unmsm.edu.pe"
                 "(550, b'mailbox unavailable')" ],
           [], w')
    /\ w_env_file w'
       = Some ("SMTP_HOST=smtp.gmail.com" ++ Py.nl
               ++ "SMTP_EMAIL=yo@unmsm.edu.pe" ++ Py.nl
               ++ "SMTP_APP_PASSWORD=clave" ++ Py.nl
               ++ "SMTP_FROM_NAME=Centro de Idiomas" ++ Py.nl
               ++ "SMTP_PORT=587" ++ Py.nl).
Proof. eexists. split; vm_compute; reflexivity. Qed.




(** C6, counterexample.  The session stored the columns [codigo] and
    [alumno]; the file was replaced since; a Map request naming [mail] and
    [nombre], which are not among the stored columns, is accepted and
    creates [mapped_records]. *)
Lemma map_columns_ignores_stored_columns :
  ss_columns (fst stale_prepared) = Some ["codigo"; "alumno"]
  /\ existsb (String.eqb "mail") ["codigo"; "alumno"] = false
  /\ map_columns render_demo demo_map_form (fst stale_prepared)
       (snd stale_prepared) []
     = (Confirm demo_samples 3 (smtp_defaults_of []), [],
        mapped_session (fst stale_prepared) demo_records "mail" "nombre" None)
  /\ ss_mapped_records
       (mapped_session (fst stale_prepared) demo_records "mail" "nombre" None)
     = Some demo_records.
Proof. repeat split; vm_compute; reflexivity. Qed.

(** In the same state the stored columns themselves are refused. *)
Example map_columns_refuses_stored_columns :
  map_columns render_demo [("email_col", "codigo"); ("name_col", "alumno")]
    (fst stale_prepared) (snd stale_prepared) []
  = (Redirect_index, [msg_select_columns], fst stale_prepared).
Proof. vm_compute. reflexivity. Qed.

(** C7, on the first message of the demo batch. *)
Lemma dispatch_subject_rule_witness :
  In (Sendmail 1 (demo_message "ana@unmsm.edu.pe" "Hola Ana"))
    (trace (demo_dispatch demo_records))
  /\ exists rec,
       nth_error demo_records (1 - 1) = Some rec
       /\ 1 <= 1
       /\ (forall s, r_subject rec = Some s -> s <> "" ->
             msg_subject (demo_message "ana@unmsm.edu.pe" "Hola Ana") = s)
       /\ (r_subject rec = None \/ r_subject rec = Some "" ->
           "Aviso" <> "" ->
           msg_subject (demo_message "ana@unmsm.edu.pe" "Hola Ana") = "Aviso")
       /\ (r_subject rec = None \/ r_subject rec = Some "" ->
           "Aviso" = "" ->
           msg_subject (demo_message "ana@unmsm.edu.pe" "Hola Ana")
           = "Comunicado").
Proof.
  split; [vm_compute; now left|].
  apply (dispatch_subject_rule render_demo (list string) sendmail_demo
           "Hola {{name}}" "Aviso" "" "yo@unmsm.edu.pe" "Centro de Idiomas"
           [] [] demo_records 1
           (demo_message "ana@unmsm.edu.pe" "Hola Ana")).
  vm_compute. now left.
Defined.

(** C8, on the demo Map request with an empty environment. *)
Lemma map_columns_prefills_literal_password_witness :
  map_columns render_demo demo_map_form (fst demo_prepared)
    (snd demo_prepared) []
  = (Confirm demo_samples 3 (smtp_defaults_of []), [], demo_mapped)
  /\ dict_get "SMTP_APP_PASSWORD" (@nil (string * string)) = None
  /\ dict_get "smtp_app_password" (smtp_defaults_of [])
     = Some "dgjr jxdm dske dxos"
  /\ dict_get "smtp_app_password" (smtp_defaults_of []) <> Some ""
  /\ (dict_get "SMTP_FROM_NAME" (@nil (string * string)) = None ->
      dict_get "from_name" (smtp_defaults_of []) = Some "Centro de Idiomas").
Proof.
  split; [vm_compute; reflexivity|]. split; [reflexivity|].
  apply (map_columns_prefills_literal_password render_demo demo_map_form
           (fst demo_prepared) (snd demo_prepared) [] demo_samples 3
           (smtp_defaults_of []) [] demo_mapped);
    [vm_compute; reflexivity | reflexivity].
Defined.

(** C10, on the demo Map request with the subject column [asunto], which
    the file does not have. *)
Lemma map_columns_unknown_subject_column_witness :
  ss_upload_path (fst demo_prepared) = Some "uploads/datos.csv"
  /\ read_table (snd demo_prepared) "uploads/datos.csv" "uploads/datos.csv"
     = inr demo_df
  /\ ~ In "asunto" (df_columns demo_df)
  /\ exists samples,
       map_columns render_demo (("subject_col", "asunto") :: demo_map_form)
         (fst demo_prepared) (snd demo_prepared) []
       = (Confirm samples 3 (smtp_defaults_of []), [],
          mapped_session (fst demo_prepared) demo_records "mail" "nombre"
            (Some "asunto")).
Proof.
  assert (Hsc : ~ In "asunto" (df_columns demo_df))
    by (simpl; intuition discriminate).
  split; [reflexivity|]. split; [reflexivity|]. split; [exact Hsc|].
  apply (map_columns_unknown_subject_column render_demo
           (("subject_col", "asunto") :: demo_map_form)
           (fst demo_prepared) (snd demo_prepared) [] "uploads/datos.csv"
           demo_df "mail" "nombre" "asunto");
    try reflexivity; try discriminate; try exact Hsc; simpl; auto.
Defined.

(** The values are cleaned of line feeds and carriage returns only: a form
    feed stays in the line of its key, and [str.splitlines], with which
    [_write_env_values] reads the file the next time, breaks the line
    there. *)
Example write_env_values_form_feed :
  _write_env_values [("SMTP_FROM_NAME", "A" ++ chr 12 ++ "B=1")] None
  = "SMTP_FROM_NAME=A" ++ chr 12 ++ "B=1" ++ Py.nl
  /\ Py.splitlines (_write_env_values
                      [("SMTP_FROM_NAME", "A" ++ chr 12 ++ "B=1")] None)
     = ["SMTP_FROM_NAME=A"; "B=1"].
Proof. split; vm_compute; reflexivity. Qed.

(* ================================================================== *)
(** ** Trimming and file names *)
(* ================================================================== *)

Section NameFacts.

Lemma rstrip_cons (c : ascii) (r : string) :
  Py.rstrip (String c r)
  = match Py.rstrip r with
    | "" => if Py.isspace c then "" else String c ""
    | r' => String c r'
    end.
Proof. reflexivity. Qed.

Lemma rstrip_idem (s : string) : Py.rstrip (Py.rstrip s) = Py.rstrip s.
Proof.
  induction s as [|c s IH]; [reflexivity|].
  rewrite rstrip_cons. destruct (Py.rstrip s) as [|c' r'] eqn:E.
  - destruct (Py.isspace c) eqn:Hc; [reflexivity|].
    rewrite rstrip_cons. cbn [Py.rstrip]. now rewrite Hc.
  - rewrite rstrip_cons, IH. reflexivity.
Qed.

Lemma lstrip_starts_clean (s : string) : starts_clean (Py.lstrip s) = true.
Proof.
  induction s as [|c s IH]; [reflexivity|].
  cbn [Py.lstrip]. destruct (Py.isspace c) eqn:Hc; [exact IH|].
  cbn. now rewrite Hc.
Qed.

Lemma lstrip_clean (s : string) :
  starts_clean s = true -> Py.lstrip s = s.
Proof.
  destruct s as [|c s]; [reflexivity|]. cbn. intros H.
  apply negb_true_iff in H. now rewrite H.
Qed.

Lemma rstrip_starts_clean (s : string) :
  starts_clean s = true -> starts_clean (Py.rstrip s) = true.
Proof.
  destruct s as [|c s]; [reflexivity|]. cbn [starts_clean].
  intros H. rewrite rstrip_cons. destruct (Py.rstrip s).
  - apply negb_true_iff in H. rewrite H. cbn. now rewrite H.
  - exact H.
Qed.

(** Trimming a trimmed text changes nothing. *)
Lemma strip_idem (s : string) : Py.strip (Py.strip s) = Py.strip s.
Proof.
  unfold Py.strip.
  rewrite (lstrip_clean (Py.rstrip (Py.lstrip s)))
    by apply rstrip_starts_clean, lstrip_starts_clean.
  apply rstrip_idem.
Qed.

Lemma lower_app (a b : string) : Py.lower (a ++ b) = Py.lower a ++ Py.lower b.
Proof. induction a as [|c a IH]; cbn; [reflexivity | now rewrite IH]. Qed.

Lemma lower_char_dot (c : ascii) :
  Ascii.eqb (Py.lower_char c) "." = Ascii.eqb c ".".
Proof. destruct c as [[] [] [] [] [] [] [] []]; reflexivity. Qed.

Lemma lower_char_slash (c : ascii) :
  Ascii.eqb (Py.lower_char c) "/" = Ascii.eqb c "/".
Proof. destruct c as [[] [] [] [] [] [] [] []]; reflexivity. Qed.

Lemma lower_has_slash (s : string) :
  Py.has_char "/" (Py.lower s) = Py.has_char "/" s.
Proof.
  induction s as [|c s IH]; [reflexivity|].
  cbn [Py.lower Py.has_char]. now rewrite lower_char_slash, IH.
Qed.

Lemma lower_has_dot (s : string) :
  Py.has_char "." (Py.lower s) = Py.has_char "." s.
Proof.
  induction s as [|c s IH]; [reflexivity|].
  cbn [Py.lower Py.has_char]. now rewrite lower_char_dot, IH.
Qed.

Lemma lower_has_other_than_dot (s : string) :
  has_other_than "." (Py.lower s) = has_other_than "." s.
Proof.
  induction s as [|c s IH]; [reflexivity|].
  cbn [Py.lower has_other_than]. now rewrite lower_char_dot, IH.
Qed.

Lemma basename_no_slash (p : string) :
  Py.has_char "/" p = false -> basename p = p.
Proof.
  destruct p as [|c r]; [reflexivity|]. cbn [Py.has_char basename].
  intros H. apply orb_false_iff in H. destruct H as [Hc Hr].
  now rewrite Hr, Hc.
Qed.

Lemma basename_has_char (c : ascii) (p : string) :
  Py.has_char c p = false -> Py.has_char c (basename p) = false.
Proof.
  induction p as [|a r IH]; [reflexivity|]. cbn [Py.has_char basename].
  intros H. apply orb_false_iff in H. destruct H as [Ha Hr].
  destruct (Py.has_char "/" r); [now apply IH|].
  destruct (Ascii.eqb a "/"); [exact Hr|].
  cbn [Py.has_char]. now rewrite Ha, Hr.
Qed.

Lemma ext_from_no_dot (seen : bool) (s : string) :
  Py.has_char "." s = false -> ext_from seen s = None.
Proof.
  revert seen. induction s as [|c s IH]; intros seen; [reflexivity|].
  cbn [Py.has_char ext_from]. intros H.
  apply orb_false_iff in H. destruct H as [Hc Hs].
  now rewrite IH, Hc.
Qed.

(** The extension of [stem ++ "." ++ e] is [.e] once the stem holds a
    character other than a dot and [e] holds no dot. *)
Lemma ext_from_stem (stem e : string) :
  forall seen,
    Py.has_char "." e = false ->
    seen || has_other_than "." stem = true ->
    ext_from seen (stem ++ String "." e) = Some (String "." e).
Proof.
  induction stem as [|c stem IH]; intros seen He Hseen.
  - cbn [has_other_than] in Hseen. rewrite orb_false_r in Hseen. subst seen.
    cbn [append ext_from]. rewrite ext_from_no_dot by assumption.
    reflexivity.
  - cbn [append ext_from]. rewrite IH; [reflexivity | assumption |].
    cbn [has_other_than] in Hseen. now rewrite <- orb_assoc.
Qed.

End NameFacts.

Section UploadFacts.

Lemma ext_from_dots (dots e : string) :
  Py.has_char "." e = false -> has_other_than "." dots = false ->
  ext_from false (dots ++ String "." e) = None.
Proof.
  intros He. induction dots as [|c dots IH]; intros Hd.
  - cbn [append ext_from]. now rewrite ext_from_no_dot.
  - cbn [has_other_than] in Hd. apply orb_false_iff in Hd.
    destruct Hd as [Hc Hd]. apply negb_false_iff in Hc.
    cbn [append ext_from]. rewrite Hc. cbn [negb orb andb].
    now rewrite IH.
Qed.

(** X1.  A file name [stem.e] without directory part is accepted exactly when
    its extension, in lower case, is one of the three allowed ones; the case
    of the letters does not matter. *)
Theorem allowed_file_by_extension (stem e : string) :
  Py.has_char "/" stem = false -> Py.has_char "/" e = false ->
  Py.has_char "." e = false -> has_other_than "." stem = true ->
  allowed_file (stem ++ String "." e)
  = existsb (String.eqb (String "." (Py.lower e))) ALLOWED_EXTENSIONS.
Proof.
  intros Hs1 He1 He2 Hs2. unfold allowed_file, splitext_ext.
  rewrite lower_app. cbn [Py.lower].
  change (Py.lower_char ".") with "."%char.
  rewrite basename_no_slash.
  - rewrite ext_from_stem; [reflexivity | now rewrite lower_has_dot |].
    now rewrite lower_has_other_than_dot.
  - rewrite has_char_app. cbn [Py.has_char].
    rewrite !lower_has_slash, Hs1, He1. reflexivity.
Qed.

(** X2.  A name without a dot has no extension and is refused, and so is a
    name whose base begins with its only dots, such as [.csv]. *)
Theorem allowed_file_refuses_bare_names :
  (forall filename,
      Py.has_char "." filename = false -> allowed_file filename = false)
  /\ (forall dots e,
        has_other_than "." dots = false -> Py.has_char "." e = false ->
        Py.has_char "/" e = false ->
        allowed_file (dots ++ String "." e) = false).
Proof.
  split.
  - intros filename H. unfold allowed_file, splitext_ext.
    rewrite ext_from_no_dot; [reflexivity|].
    apply basename_has_char. now rewrite lower_has_dot.
  - intros dots e Hd He1 He2. unfold allowed_file, splitext_ext.
    rewrite lower_app. cbn [Py.lower].
    change (Py.lower_char ".") with "."%char.
    assert (Hslash : Py.has_char "/" (Py.lower dots) = false).
    { rewrite lower_has_slash. clear - Hd.
      induction dots as [|c dots IH]; [reflexivity|].
      cbn [has_other_than] in Hd. apply orb_false_iff in Hd.
      destruct Hd as [Hc Hd]. apply negb_false_iff, Ascii.eqb_eq in Hc.
      subst c. cbn [Py.has_char]. now rewrite IH. }
    rewrite basename_no_slash.
    + rewrite ext_from_dots; [reflexivity | now rewrite lower_has_dot |].
      now rewrite lower_has_other_than_dot.
    + rewrite has_char_app. cbn [Py.has_char].
      rewrite Hslash, lower_has_slash, He2. reflexivity.
Qed.

End UploadFacts.

(* ================================================================== *)
(** ** The Prepare step *)
(* ================================================================== *)

Section PrepareFacts.

Variable secure_filename : string -> string.
Variable UPLOAD_FOLDER : string.

Local Abbreviation prep := (prepare secure_filename UPLOAD_FOLDER).

(** Whether the request passes the checks made before the file is
    saved. *)
Lemma prepare_cases (file : option DataUpload) (form : Form)
    (sess : Session) (disk : Disk) :
  (prep file form sess disk
   = (Redirect_index, ["Sube un archivo Excel o CSV"], sess, disk)
   /\ (file = None \/ exists f, file = Some f /\ du_filename f = ""))
  \/ (exists f,
        file = Some f /\ allowed_file (du_filename f) = false
        /\ prep file form sess disk
           = (Redirect_index,
              ["Formato no soportado. Usa .xls, .xlsx o .csv"], sess, disk))
  \/ (exists f,
        file = Some f /\ du_filename f <> ""
        /\ allowed_file (du_filename f) = true
        /\ let filename := secure_filename (du_filename f) in
           let path := path_join UPLOAD_FOLDER filename in
           let disk' := dict_set path (du_data f) disk in
           prep file form sess disk
           = match read_table disk' filename path with
             | inl exc => (Redirect_index, [msg_unreadable exc], sess, disk')
             | inr df =>
                 (Preview (df_columns df) (firstn 10 (df_rows df)), [],
                  {| ss_upload_path := Some path;
                     ss_message_template :=
                       Some (form_get_default form "message_template" "");
                     ss_default_subject :=
                       Some (form_get_default form "default_subject" "");
                     ss_columns := Some (df_columns df);
                     ss_mapped_records := ss_mapped_records sess;
                     ss_email_col := ss_email_col sess;
                     ss_name_col := ss_name_col sess;
                     ss_subject_col := ss_subject_col sess |},
                  disk')
             end).
Proof.
  unfold prepare. destruct file as [f|]; [|left; split; [reflexivity|now left]].
  destruct (Py.truthy (du_filename f)) eqn:T; cbn [negb].
  - destruct (allowed_file (du_filename f)) eqn:A; cbn [negb].
    + right. right. exists f. split; [reflexivity|].
      split; [now apply truthy_true|]. split; [exact A|].
      cbv zeta. destruct (read_table _ _ _); reflexivity.
    + right. left. exists f. split; [reflexivity|]. split; [exact A|].
      reflexivity.
  - left. split; [reflexivity|]. right. exists f.
    split; [reflexivity | now apply truthy_false].
Qed.

(** X3.  A Prepare request that is redirected leaves the session as it was,
    and one refused before the file is saved (no file, no file name, or an
    extension that is not allowed) leaves the upload folder as it was.  No
    Prepare request changes the records and the column choice of an earlier
    Map step. *)
Theorem prepare_frame (file : option DataUpload) (form : Form)
    (sess : Session) (disk : Disk) (response : Response)
    (flashes : list string) (sess' : Session) (disk' : Disk) :
  prep file form sess disk = (response, flashes, sess', disk') ->
  (response = Redirect_index -> sess' = sess)
  /\ (match file with
      | None => True
      | Some f => du_filename f = "" \/ allowed_file (du_filename f) = false
      end ->
      response = Redirect_index /\ disk' = disk)
  /\ ss_mapped_records sess' = ss_mapped_records sess
  /\ ss_email_col sess' = ss_email_col sess
  /\ ss_name_col sess' = ss_name_col sess
  /\ ss_subject_col sess' = ss_subject_col sess.
Proof.
  intros H.
  destruct (prepare_cases file form sess disk)
    as [[E _]|[[f [Hf [Ha E]]]|[f [Hf [Hn [Ha E]]]]]].
  - rewrite E in H. injection H as <- <- <- <-. repeat split; reflexivity.
  - rewrite E in H. injection H as <- <- <- <-. repeat split; reflexivity.
  - cbv zeta in E. rewrite E in H. subst file.
    destruct (read_table _ _ _) as [exc|df].
    + injection H as <- <- <- <-. split; [reflexivity|].
      split; [|repeat split; reflexivity].
      intros [Hempty|Hna]; [contradiction | congruence].
    + injection H as <- <- <- <-. split; [discriminate|].
      split; [|repeat split; reflexivity].
      intros [Hempty|Hna]; [contradiction | congruence].
Qed.

(** X4.  A Prepare request answered by the preview saved the upload under the
    upload folder, read it from there, shows its columns and its first rows,
    ten at most, and stored the path, the template, the default subject and
    those columns in the session. *)
Theorem prepare_preview (file : option DataUpload) (form : Form)
    (sess : Session) (disk : Disk) (columns : list string)
    (sample : list (string -> string)) (flashes : list string)
    (sess' : Session) (disk' : Disk) :
  prep file form sess disk = (Preview columns sample, flashes, sess', disk') ->
  exists f df,
    file = Some f
    /\ allowed_file (du_filename f) = true
    /\ let filename := secure_filename (du_filename f) in
       let path := path_join UPLOAD_FOLDER filename in
       disk' = dict_set path (du_data f) disk
       /\ dict_get path disk' = Some (du_data f)
       /\ read_table disk' filename path = inr df
       /\ columns = df_columns df
       /\ sample = firstn 10 (df_rows df)
       /\ List.length sample = Nat.min 10 (List.length (df_rows df))
       /\ flashes = []
       /\ ss_upload_path sess' = Some path
       /\ ss_columns sess' = Some columns
       /\ ss_message_template sess'
          = Some (form_get_default form "message_template" "")
       /\ ss_default_subject sess'
          = Some (form_get_default form "default_subject" "").
Proof.
  intros H.
  destruct (prepare_cases file form sess disk)
    as [[E _]|[[f [Hf [Ha E]]]|[f [Hf [Hn [Ha E]]]]]];
    try (rewrite E in H; discriminate H).
  cbv zeta in E. rewrite E in H. exists f.
  destruct (read_table _ _ _) as [exc|df] eqn:R; [discriminate|].
  exists df. remember (firstn 10 (df_rows df)) as shown eqn:Hshown in H.
  injection H as <- <- <- <- <-.
  split; [assumption|]. split; [assumption|]. cbv zeta.
  split; [reflexivity|]. split; [apply dict_get_set_same|].
  split; [exact R|]. split; [reflexivity|]. split; [exact Hshown|].
  split; [rewrite Hshown; apply length_firstn|]. repeat split; reflexivity.
Qed.

End PrepareFacts.

(* ================================================================== *)
(** ** Prepare, then Map *)
(* ================================================================== *)

Section PrepareMapFacts.

Variable render : string -> string -> string -> exn + string.
Variable secure_filename : string -> string.
Variable UPLOAD_FOLDER : string.









End PrepareMapFacts.

(* ================================================================== *)
(** ** The confirm view *)
(* ================================================================== *)

Section ConfirmFacts.

Variable render : string -> string -> string -> exn + string.

(** Everything a Map request answered by the confirm view returned. *)
Lemma map_columns_confirm_inv (form : Form) (sess : Session) (disk : Disk)
    (environ : Dict string) samples total defaults flashes sess' :
  map_columns render form sess disk environ
  = (Confirm samples total defaults, flashes, sess') ->
  exists df e n,
    let records :=
      map (make_record df e n (form_get form "subject_col")) (df_rows df) in
    samples
    = map (render_sample render (get_or_empty (ss_message_template sess))
             (get_or_empty (ss_default_subject sess)))
        (firstn 5 records)
    /\ total = List.length records
    /\ defaults = smtp_defaults_of environ
    /\ flashes = []
    /\ sess' = mapped_session sess records e n (form_get form "subject_col").
Proof.
  intros H.
  destruct (map_columns_confirm_file render _ _ _ _ _ _ _ _ _ H)
    as [path [df [Hpath [Hne Hread]]]].
  rewrite (map_columns_read render form sess disk environ path df
             Hpath Hne Hread) in H.
  destruct (form_get form "email_col") as [e|]; [|discriminate].
  destruct (form_get form "name_col") as [n|]; [|discriminate].
  destruct (col_missing df (Some e) || col_missing df (Some n));
    [discriminate|].
  cbv zeta in H. exists df, e, n. cbv zeta.
  remember (map (make_record df e n (form_get form "subject_col"))
              (df_rows df)) as records eqn:Hrec.
  remember (firstn 5 records) as shown eqn:Hshown.
  injection H as <- <- <- <- <-. repeat split; reflexivity.
Qed.

Lemma make_record_trimmed (df : DataFrame) (e n : string)
    (sc : option string) (row : string -> string) :
  let rec := make_record df e n sc row in
  Py.strip (r_email rec) = r_email rec
  /\ Py.strip (r_name rec) = r_name rec
  /\ forall s, r_subject rec = Some s -> Py.strip s = s.
Proof.
  cbv zeta. unfold make_record. cbn [r_email r_name r_subject].
  split; [apply strip_idem|]. split; [apply strip_idem|].
  intros s. destruct sc as [c|]; [|discriminate].
  destruct (Py.truthy c && in_columns c df); [|discriminate].
  intros [= <-]. apply strip_idem.
Qed.

(** X6.  The records stored by a Map request are as many as the confirm view
    announces and every one of them is trimmed: stripping its address, its
    name or its subject again changes nothing.  The request flashes nothing
    and keeps the path, the template, the default subject and the columns that
    Prepare stored. *)
Theorem map_columns_records_trimmed (form : Form) (sess : Session)
    (disk : Disk) (environ : Dict string) samples total defaults flashes
    sess' :
  map_columns render form sess disk environ
  = (Confirm samples total defaults, flashes, sess') ->
  exists records,
    ss_mapped_records sess' = Some records
    /\ total = List.length records
    /\ flashes = []
    /\ Forall (fun rec =>
                 Py.strip (r_email rec) = r_email rec
                 /\ Py.strip (r_name rec) = r_name rec
                 /\ forall s, r_subject rec = Some s -> Py.strip s = s)
         records
    /\ ss_upload_path sess' = ss_upload_path sess
    /\ ss_message_template sess' = ss_message_template sess
    /\ ss_default_subject sess' = ss_default_subject sess
    /\ ss_columns sess' = ss_columns sess.
Proof.
  intros H. destruct (map_columns_confirm_inv _ _ _ _ _ _ _ _ _ H)
    as [df [e [n Hinv]]].
  cbv zeta in Hinv. destruct Hinv as [_ [Htotal [_ [Hfl ->]]]].
  eexists. split; [reflexivity|]. split; [exact Htotal|].
  split; [exact Hfl|]. split; [|repeat split; reflexivity].
  apply Forall_forall. intros rec Hin. apply in_map_iff in Hin.
  destruct Hin as [row [<- _]]. apply make_record_trimmed.
Qed.

(** X7.  The previews of the confirm view are those of the first records, five
    at most and in order.  A render that raises marks its own preview with the
    subject [(error)] and the text of the exception, and the others are
    rendered all the same.  The subject shown is the one the message will
    carry, except that an empty one is sent as [Comunicado]. *)
Theorem map_columns_previews (form : Form) (sess : Session) (disk : Disk)
    (environ : Dict string) samples total defaults flashes sess' :
  map_columns render form sess disk environ
  = (Confirm samples total defaults, flashes, sess') ->
  exists records,
    ss_mapped_records sess' = Some records
    /\ List.length samples = Nat.min 5 (List.length records)
    /\ Forall2
         (fun rec s =>
            let tmpl := get_or_empty (ss_message_template sess) in
            let subj := get_or_empty (ss_default_subject sess) in
            sm_to s = r_email rec
            /\ match render tmpl (r_name rec) (r_email rec) with
               | inr body =>
                   sm_body s = body
                   /\ subject_for subj rec = Py.or_else (sm_subject s) "Comunicado"
               | inl exc =>
                   sm_subject s = "(error)"
                   /\ sm_body s = "Error al renderizar: " ++ str_exn exc
               end)
         (firstn 5 records) samples.
Proof.
  intros H. destruct (map_columns_confirm_inv _ _ _ _ _ _ _ _ _ H)
    as [df [e [n Hinv]]].
  cbv zeta in Hinv. destruct Hinv as [-> [_ [_ [_ ->]]]].
  eexists. split; [reflexivity|].
  split; [now rewrite length_map, length_firstn|].
  generalize (firstn 5
                (map (make_record df e n (form_get form "subject_col"))
                   (df_rows df))).
  intros shown. induction shown as [|rec shown IH]; [constructor|].
  cbn [map]. constructor; [|exact IH]. cbv zeta. unfold render_sample.
  destruct (render _ (r_name rec) (r_email rec)) as [exc|body];
    cbn [sm_to sm_subject sm_body]; repeat split; reflexivity.
Qed.

End ConfirmFacts.

(* ================================================================== *)
(** ** The Send step: refusals, the session, the credentials *)
(* ================================================================== *)

Section SendMoreFacts.

Variable render : string -> string -> string -> exn + string.
Variable secure_filename : string -> string.
Variable unescape : string -> exn + string.
Variable Smtp : Type.
Variable smtp_connect : string -> Z -> string -> string -> exn + Smtp.
Variable sendmail : Smtp -> string -> string -> Message -> Smtp * option exn.

Local Abbreviation send :=
  (send_emails render secure_filename unescape smtp_connect sendmail).

(** The fields of the Send form as the handler reads them. *)
Local Abbreviation field_email form :=
  (Py.strip (form_get_default form "smtp_email" "")).
Local Abbreviation field_password form :=
  (Py.strip (form_get_default form "smtp_app_password" "")).
Local Abbreviation field_from_name form :=
  (Py.or_else (Py.strip (form_get_default form "from_name" ""))
     "Centro de Idiomas").
Local Abbreviation field_host form :=
  (Py.or_else (Py.strip (form_get_default form "smtp_host" "smtp.gmail.com"))
     "smtp.gmail.com").

(** X8.  A Send request answered by a redirect did nothing: no message was
    sent, the credential file and the environment are as they were.  It was
    refused for one of three reasons, tested in this order after the port has
    been parsed (the first one before): no recipient in the session, a blank
    sender address or password, a session that could not be opened. *)
Theorem send_emails_redirect_frame (form : Form) (files : list FileUpload)
    (legacy : option FileUpload) (sess : Session) (w : World)
    (flashes : list string) (w' : World) :
  send form files legacy sess w = inr (Redirect_index, flashes, w') ->
  w' = w
  /\ ((flashes = [msg_no_recipients]
       /\ (ss_mapped_records sess = None \/ ss_mapped_records sess = Some []))
      \/ (flashes = [msg_credentials]
          /\ (field_email form = "" \/ field_password form = ""))
      \/ (exists port exc,
            flashes = [msg_smtp exc]
            /\ py_int (form_get_default form "smtp_port" "587") = inr port
            /\ field_email form <> "" /\ field_password form <> ""
            /\ smtp_connect (field_host form) port (field_email form)
                 (field_password form) = inl exc)).
Proof.
  unfold send_emails.
  destruct (ss_mapped_records sess) as [[|rec rest]|] eqn:Hrec.
  - intros [= <- <-]. split; [reflexivity|]. left. now split; [|right].
  - cbv zeta.
    destruct (py_int _) as [exc|port] eqn:Hport; [discriminate|].
    destruct (Py.truthy (field_email form)) eqn:Te; cbn [negb orb].
    + destruct (Py.truthy (field_password form)) eqn:Tp; cbn [negb].
      * destruct (smtp_connect _ _ _ _) as [exc|srv] eqn:Hc;
          [|destruct (match form_get form "remember_credentials" with
                      | Some v => String.eqb v "on"
                      | None => false
                      end); [destruct (existsb _ _)|]; discriminate].
        intros [= <- <-]. split; [reflexivity|]. right. right.
        exists port, exc. split; [reflexivity|]. split; [reflexivity|].
        split; [now apply truthy_true|]. split; [now apply truthy_true|].
        exact Hc.
      * intros [= <- <-]. split; [reflexivity|]. right. left.
        split; [reflexivity|]. right. now apply truthy_false.
    + intros [= <- <-]. split; [reflexivity|]. right. left.
      split; [reflexivity|]. left. now apply truthy_false.
  - intros [= <- <-]. split; [reflexivity|]. left. now split; [|left].
Qed.


End SendMoreFacts.

Section RememberFacts.

Variable render : string -> string -> string -> exn + string.
Variable secure_filename : string -> string.
Variable unescape : string -> exn + string.
Variable Smtp : Type.
Variable smtp_connect : string -> Z -> string -> string -> exn + Smtp.
Variable sendmail : Smtp -> string -> string -> Message -> Smtp * option exn.

Local Abbreviation send :=
  (send_emails render secure_filename unescape smtp_connect sendmail).

Lemma remember_flag (form : Form) :
  match form_get form "remember_credentials" with
  | Some v => String.eqb v "on"
  | None => false
  end = true
  <-> form_get form "remember_credentials" = Some "on".
Proof.
  destruct (form_get form "remember_credentials") as [v|].
  - rewrite String.eqb_eq. split; [now intros -> | now intros [= ->]].
  - split; discriminate.
Qed.

(** X10.  The credentials of a Send request answered by the report are kept
    only when the box [remember_credentials] is [on].  Then the credential
    file is rewritten with the five credential keys and the environment holds
    the five values, so that the next confirm view is prefilled with exactly
    what was sent; every other variable of the environment is as it was.
    Otherwise neither the file nor the environment changes.  (A value with a
    NUL character is refused by [os.environ] with a [ValueError] once the file
    has been written; such a request is not answered by the report.) *)
Theorem send_emails_remember (form : Form) (files : list FileUpload)
    (legacy : option FileUpload) (sess : Session) (w : World)
    (report : list DispatchResult) (flashes : list string) (w' : World) :
  send form files legacy sess w = inr (Result report, flashes, w') ->
  exists port,
    py_int (form_get_default form "smtp_port" "587") = inr port
    /\ (form_get form "remember_credentials" <> Some "on" ->
        w_env_file w' = w_env_file w /\ w_environ w' = w_environ w)
    /\ (form_get form "remember_credentials" = Some "on" ->
        let email := Py.strip (form_get_default form "smtp_email" "") in
        let password :=
          Py.strip (form_get_default form "smtp_app_password" "") in
        let name :=
          Py.or_else (Py.strip (form_get_default form "from_name" ""))
            "Centro de Idiomas" in
        let host :=
          Py.or_else
            (Py.strip (form_get_default form "smtp_host" "smtp.gmail.com"))
            "smtp.gmail.com" in
        w_env_file w'
        = Some (_write_env_values
                  (credential_updates email password name host port)
                  (w_env_file w))
        /\ smtp_defaults_of (w_environ w')
           = [ ("smtp_email", email); ("smtp_app_password", password);
               ("from_name", name); ("smtp_host", host);
               ("smtp_port", py_str_int port) ]
        /\ forall k,
             ~ In k ["SMTP_EMAIL"; "SMTP_APP_PASSWORD"; "SMTP_FROM_NAME";
                     "SMTP_HOST"; "SMTP_PORT"] ->
             dict_get k (w_environ w') = dict_get k (w_environ w)).
Proof.
  unfold send_emails.
  destruct (ss_mapped_records sess) as [[|rec rest]|]; try discriminate.
  cbv zeta.
  destruct (py_int _) as [exc|port]; [discriminate|].
  destruct (negb _ || negb _); [discriminate|].
  destruct (smtp_connect _ _ _ _) as [exc|srv]; [discriminate|].
  pose proof (remember_flag form) as Hflag.
  destruct (match form_get form "remember_credentials" with
            | Some v => String.eqb v "on"
            | None => false
            end);
    [destruct (existsb _ _); [discriminate|]|];
    intros E; injection E as _ _ <-; exists port;
    (split; [reflexivity|]); cbn [w_env_file w_environ]; split.
  - intros Hoff. exfalso. apply Hoff. now apply Hflag.
  - intros _. split; [reflexivity|].
    cbn [credential_updates fold_left fst snd]. split.
    + unfold smtp_defaults_of, _get_env_default.
      repeat (rewrite dict_get_set_same
              || rewrite dict_get_set_other by discriminate).
      reflexivity.
    + intros k Hk. cbn [In] in Hk.
      rewrite !dict_get_set_other; [reflexivity|..];
        intros <-; apply Hk; tauto.
  - intros _. split; reflexivity.
  - intros Hon. apply Hflag in Hon. discriminate Hon.
Qed.

(** X21.  Remembering a value with a NUL character is not caught: when
    the recipients are there, the port parses, the sender address and the
    password are not blank, the session opens and [remember_credentials]
    is [on], a NUL character in the sender address, the password, the
    sender name or the host makes [send_emails] raise the [ValueError] of
    [os.environ], [embedded null byte], in place of the report. *)
Theorem send_emails_null_byte_not_caught (form : Form)
    (files : list FileUpload) (legacy : option FileUpload) (sess : Session)
    (w : World) (rec : Recipient) (rest : list Recipient) (port : Z)
    (srv : Smtp) :
  let email := Py.strip (form_get_default form "smtp_email" "") in
  let password := Py.strip (form_get_default form "smtp_app_password" "") in
  let name :=
    Py.or_else (Py.strip (form_get_default form "from_name" ""))
      "Centro de Idiomas" in
  let host :=
    Py.or_else
      (Py.strip (form_get_default form "smtp_host" "smtp.gmail.com"))
      "smtp.gmail.com" in
  ss_mapped_records sess = Some (rec :: rest) ->
  py_int (form_get_default form "smtp_port" "587") = inr port ->
  email <> "" -> password <> "" ->
  smtp_connect host port email password = inr srv ->
  form_get form "remember_credentials" = Some "on" ->
  existsb (Py.has_char "000") [email; password; name; host] = true ->
  send form files legacy sess w = inl (Raised "embedded null byte").
Proof.
  intros email password name host Hrec Hport He Hp Hc Hon Hnul.
  unfold send_emails. rewrite Hrec. cbv zeta. rewrite Hport.
  fold email password name host.
  assert (Te : Py.truthy email = true)
    by (unfold Py.truthy; now apply negb_true_iff, String.eqb_neq).
  assert (Tp : Py.truthy password = true)
    by (unfold Py.truthy; now apply negb_true_iff, String.eqb_neq).
  rewrite Te, Tp. cbn [negb orb]. rewrite Hc, Hon.
  rewrite String.eqb_refl.
  cbn [credential_updates existsb snd] in *.
  rewrite !orb_false_r in Hnul. rewrite !orb_assoc in *.
  rewrite Hnul. reflexivity.
Qed.

End RememberFacts.

(* ================================================================== *)
(** ** The messages of a batch *)
(* ================================================================== *)

Section MessageFacts.

Variable render : string -> string -> string -> exn + string.
Variable Smtp : Type.
Variable sendmail : Smtp -> string -> string -> Message -> Smtp * option exn.
Variables message_template default_subject signature_text : string.
Variables smtp_email from_name : string.
Variable attachments : list Attachment.

Local Abbreviation run :=
  (dispatch render sendmail message_template default_subject signature_text
     smtp_email from_name attachments).
Local Abbreviation loop :=
  (send_loop render sendmail message_template default_subject signature_text
     smtp_email from_name attachments).
Local Abbreviation one :=
  (send_one render sendmail message_template default_subject signature_text
     smtp_email from_name attachments).
Local Abbreviation message :=
  (build_message default_subject signature_text smtp_email from_name
     attachments).

(** A message handed to [sendmail] is the one built for the record of its
    counter from a render that succeeded. *)
Lemma sendmail_built (srv : Smtp) (records : list Recipient) (idx : nat)
    (m : Message) :
  In (Sendmail idx m) (trace (run srv records)) ->
  exists rec body,
    nth_error records (idx - 1) = Some rec
    /\ Py.strip (r_email rec) <> ""
    /\ render message_template (r_name rec) (Py.strip (r_email rec))
       = inr body
    /\ m = message (Py.strip (r_email rec)) rec body.
Proof.
  intros Hm.
  destruct (trace_record render Smtp sendmail message_template
              default_subject signature_text smtp_email from_name
              attachments srv records _ Hm) as [k [rec [E Hk]]].
  cbn in E. injection E as ->. exists rec.
  replace (S k - 1) with k by lia.
  destruct (dispatch_at_position render Smtp sendmail message_template
              default_subject signature_text smtp_email from_name
              attachments srv records k rec Hk)
    as [o [R2 [T2 [It [_ [_ [Hin _]]]]]]].
  apply (Hin (Sendmail (S k) m) eq_refl) in Hm.
  destruct It as [He|exc Hne R|body srv' Hne R Hs|body srv' exc Hne R Hs];
    cbn in Hm; try contradiction.
  - destruct Hm as [[= <-]|[[=]|[]]]. exists body. now repeat split.
  - destruct Hm as [[= <-]|[]]. exists body. now repeat split.
Qed.

(** X11.  Every message sent goes to the trimmed address of its record, which
    is not empty, comes from the sender of the form, and carries the rendered
    text of that record: alone when there is no signature, else followed by a
    blank line and the signature. *)
Theorem dispatch_message_content (srv : Smtp) (records : list Recipient)
    (idx : nat) (m : Message) :
  In (Sendmail idx m) (trace (run srv records)) ->
  exists rec body,
    nth_error records (idx - 1) = Some rec
    /\ render message_template (r_name rec) (Py.strip (r_email rec))
       = inr body
    /\ msg_to m = Py.strip (r_email rec)
    /\ msg_to m <> ""
    /\ msg_from m = (from_name, smtp_email)
    /\ (signature_text = "" -> msg_body m = body)
    /\ (signature_text <> "" ->
        msg_body m = body ++ Py.nlnl ++ signature_text).
Proof.
  intros Hm. destruct (sendmail_built srv records idx m Hm)
    as [rec [body [Hk [Hne [R ->]]]]].
  exists rec, body. cbn [build_message msg_to msg_from msg_body].
  split; [exact Hk|]. split; [exact R|]. split; [reflexivity|].
  split; [exact Hne|]. split; [reflexivity|]. unfold with_signature.
  split.
  - intros ->. reflexivity.
  - intros Hsig. apply String.eqb_neq in Hsig. unfold Py.truthy.
    now rewrite Hsig.
Qed.

Lemma pdf_parts_in (p : Attachment) (atts : list Attachment) :
  In p (pdf_parts atts)
  <-> exists a,
        In a atts
        /\ att_bytes a <> ""
        /\ Py.endswith ".pdf"
             (Py.lower (Py.or_else (att_name a) "adjunto.pdf")) = true
        /\ p = {| att_name := Py.or_else (att_name a) "adjunto.pdf";
                  att_bytes := att_bytes a |}.
Proof.
  unfold pdf_parts. rewrite in_flat_map. split.
  - intros [a [Ha Hp]]. exists a. split; [exact Ha|].
    destruct (Py.truthy (att_bytes a)) eqn:T; cbn [negb] in Hp;
      [|contradiction].
    destruct (Py.endswith ".pdf" _) eqn:E; cbn [negb] in Hp; [|contradiction].
    destruct Hp as [<-|[]]. split; [now apply truthy_true|]. now split.
  - intros [a [Ha [Hb [He ->]]]]. exists a. split; [exact Ha|].
    apply String.eqb_neq in Hb. unfold Py.truthy. rewrite Hb. cbn [negb].
    rewrite He. cbn [negb]. now left.
Qed.

(** X12.  Every message of a batch carries the same parts: the uploaded files
    that have content and whose name ends in [.pdf], in any letter case; a
    file without name counts as [adjunto.pdf].  Nothing else is ever attached,
    and no such file is left out. *)
Theorem dispatch_attaches_pdf_only (srv : Smtp) (records : list Recipient)
    (idx : nat) (m : Message) :
  In (Sendmail idx m) (trace (run srv records)) ->
  msg_parts m = pdf_parts attachments
  /\ (forall p, In p (msg_parts m) ->
        att_bytes p <> ""
        /\ Py.endswith ".pdf" (Py.lower (att_name p)) = true
        /\ exists a,
             In a attachments /\ att_bytes a = att_bytes p
             /\ (att_name a = att_name p
                 \/ att_name a = "" /\ att_name p = "adjunto.pdf"))
  /\ (forall a, In a attachments -> att_bytes a <> "" ->
        Py.endswith ".pdf" (Py.lower (att_name a)) = true ->
        In a (msg_parts m)).
Proof.
  intros Hm. destruct (sendmail_built srv records idx m Hm)
    as [rec [body [_ [_ [_ ->]]]]].
  cbn [build_message msg_parts]. split; [reflexivity|]. split.
  - intros p Hp. apply pdf_parts_in in Hp.
    destruct Hp as [a [Ha [Hb [He ->]]]]. cbn [att_name att_bytes].
    split; [exact Hb|]. split; [exact He|]. exists a.
    split; [exact Ha|]. split; [reflexivity|].
    unfold Py.or_else. destruct (Py.truthy (att_name a)) eqn:T.
    + now left.
    + right. split; [now apply truthy_false | reflexivity].
  - intros a Ha Hb He. apply pdf_parts_in. exists a.
    assert (T : Py.truthy (att_name a) = true).
    { destruct (att_name a); [discriminate He | reflexivity]. }
    unfold Py.or_else. rewrite T. split; [exact Ha|]. split; [exact Hb|].
    split; [exact He|]. now destruct a.
Qed.

End MessageFacts.

Section OrderFacts.

Variable render : string -> string -> string -> exn + string.
Variable Smtp : Type.
Variable sendmail : Smtp -> string -> string -> Message -> Smtp * option exn.
Variables message_template default_subject signature_text : string.
Variables smtp_email from_name : string.
Variable attachments : list Attachment.

Local Abbreviation run :=
  (dispatch render sendmail message_template default_subject signature_text
     smtp_email from_name attachments).
Local Abbreviation loop :=
  (send_loop render sendmail message_template default_subject signature_text
     smtp_email from_name attachments).
Local Abbreviation one :=
  (send_one render sendmail message_template default_subject signature_text
     smtp_email from_name attachments).

Lemma strongly_sorted_app (l1 l2 : list nat) :
  StronglySorted le l1 -> StronglySorted le l2 ->
  (forall x y, In x l1 -> In y l2 -> x <= y) ->
  StronglySorted le (l1 ++ l2).
Proof.
  intros H1 H2 H. induction H1 as [|a l1 H1 IH Ha]; [exact H2|].
  cbn [app]. constructor.
  - apply IH. intros x y Hx Hy. apply H; [now right | assumption].
  - apply Forall_app. split; [exact Ha|].
    apply Forall_forall. intros y Hy. apply H; [now left | assumption].
Qed.

Lemma send_loop_sorted (records : list Recipient) :
  forall idx srv,
    StronglySorted le (map event_counter (trace (loop idx records (fresh srv)))).
Proof.
  induction records as [|rec rest IH]; intros idx srv; [constructor|].
  cbn [send_loop]. rewrite send_loop_delta. cbv zeta. cbn [trace].
  pose proof (send_one_iteration render Smtp sendmail message_template
                default_subject signature_text smtp_email from_name
                attachments srv idx rec) as It.
  set (o := one idx rec (fresh srv)) in *. clearbody o.
  destruct (send_loop_shape render Smtp sendmail message_template
              default_subject signature_text smtp_email from_name
              attachments rest (S idx) (server o)) as [_ [_ Hidx]].
  rewrite map_app. apply strongly_sorted_app; [|apply IH|].
  - destruct It; cbn; repeat constructor.
  - intros x y Hx Hy. apply in_map_iff in Hy.
    destruct Hy as [e [<- He]]. rewrite Forall_forall in Hidx.
    destruct (Hidx e He) as [i [E Hi]]. unfold event_counter at 1.
    rewrite E.
    assert (Hxi : x = idx).
    { destruct It; cbn in Hx; try contradiction.
      - destruct Hx as [<-|[<-|[]]]; reflexivity.
      - destruct Hx as [<-|[]]; reflexivity. }
    lia.
Qed.

(** X13.  The loop works through the records one after the other: along the
    trace of a batch the counters of the actions never go back, so a recipient
    is contacted only after every earlier one has been dealt with. *)
Theorem dispatch_in_record_order (srv : Smtp) (records : list Recipient) :
  StronglySorted le (map event_counter (trace (run srv records)))
  /\ forall t1 e1 t2 e2 t3,
       trace (run srv records) = (t1 ++ e1 :: t2 ++ e2 :: t3)%list ->
       event_counter e1 <= event_counter e2.
Proof.
  assert (Hs : StronglySorted le
                 (map event_counter (trace (run srv records))))
    by apply send_loop_sorted.
  split; [exact Hs|]. intros t1 e1 t2 e2 t3 E. rewrite E in Hs.
  rewrite map_app in Hs. cbn [map] in Hs.
  assert (Hs' : StronglySorted le
                  (event_counter e1 :: map event_counter (t2 ++ e2 :: t3))).
  { clear - Hs. induction (map event_counter t1) as [|a l IH];
      [exact Hs|]. cbn [app] in Hs. apply StronglySorted_inv in Hs.
    apply IH, Hs. }
  apply StronglySorted_inv in Hs'. destruct Hs' as [_ Hall].
  rewrite Forall_forall in Hall. apply Hall.
  rewrite map_app. apply in_or_app. right. now left.
Qed.

End OrderFacts.

(* ================================================================== *)
(** ** [html_to_plain_text]: what remains *)
(* ================================================================== *)

Section TagFacts.

Lemma no_tag_cons (c : ascii) (r : string) :
  no_tag (String c r)
  = match Py.any_tag (String c r) with
    | None => no_tag r
    | Some _ => false
    end.
Proof. reflexivity. Qed.

Lemma index_gt_none (r : string) :
  Py.index_gt r = None <-> Py.has_char ">" r = false.
Proof.
  induction r as [|c r IH]; [now split|].
  rewrite index_gt_cons. cbn [Py.has_char].
  destruct (Ascii.eqb c ">"); cbn [orb]; [split; discriminate|].
  rewrite <- IH. destruct (Py.index_gt r); cbn; split; congruence.
Qed.

(** After the removal of the tags the pattern matches nowhere. *)
Lemma no_tag_sub_from (s : string) :
  forall skip, no_tag (Py.sub_from Py.any_tag "" skip s) = true.
Proof.
  induction s as [|c s IH]; intros skip; [reflexivity|].
  cbn [Py.sub_from]. destruct skip as [|k]; [|apply IH].
  destruct (Py.any_tag (String c s)) as [[|n]|] eqn:E;
    [|cbn [append]; apply IH|].
  - (* a match of length 0 does not occur *)
    exfalso. destruct (Ascii.eqb_spec c "<") as [->|Hc].
    + rewrite any_tag_lt in E.
      destruct (Py.index_gt s) as [[|i]|]; try discriminate E.
      injection E as E. lia.
    + now rewrite any_tag_only_at in E.
  - rewrite no_tag_cons.
    assert (Hhead : Py.any_tag (String c (Py.sub_from Py.any_tag "" 0 s))
                    = None).
    { destruct (Ascii.eqb_spec c "<") as [->|Hc];
        [|now apply any_tag_only_at].
      rewrite any_tag_lt in E. rewrite any_tag_lt.
      destruct (Py.index_gt s) as [[|i]|] eqn:G; try discriminate E.
      - destruct s as [|a s']; [discriminate G|].
        rewrite index_gt_cons in G.
        destruct (Ascii.eqb_spec a ">") as [->|Ha].
        + cbn [Py.sub_from].
          rewrite (any_tag_only_at ">"%char s') by discriminate.
          reflexivity.
        + destruct (Py.index_gt s'); discriminate G.
      - apply index_gt_none in G.
        assert (G' : Py.index_gt (Py.sub_from Py.any_tag "" 0 s) = None)
          by (apply index_gt_none; now apply has_char_sub_from).
        now rewrite G'. }
    rewrite Hhead. apply IH.
Qed.

Lemma no_tag_tail (c : ascii) (r : string) :
  no_tag (String c r) = true -> no_tag r = true.
Proof.
  rewrite no_tag_cons. now destruct (Py.any_tag (String c r)).
Qed.

Lemma no_tag_lstrip (s : string) :
  no_tag s = true -> no_tag (Py.lstrip s) = true.
Proof.
  induction s as [|c s IH]; [reflexivity|]. intros H. cbn [Py.lstrip].
  destruct (Py.isspace c); [|exact H]. apply IH. now apply no_tag_tail in H.
Qed.

(** Trimming the right end removes no [>]. *)
Lemma index_gt_rstrip (r : string) :
  Py.index_gt (Py.rstrip r) = Py.index_gt r.
Proof.
  induction r as [|a r IH]; [reflexivity|].
  rewrite rstrip_cons, index_gt_cons.
  destruct (Ascii.eqb a ">") eqn:Ha.
  - assert (Hs : Py.isspace a = false).
    { destruct (Py.isspace a) eqn:S; [|reflexivity].
      apply isspace_not_gt in S. congruence. }
    destruct (Py.rstrip r); rewrite ?Hs, index_gt_cons, Ha; reflexivity.
  - rewrite <- IH. destruct (Py.rstrip r) as [|b r'].
    + destruct (Py.isspace a); [reflexivity|].
      rewrite index_gt_cons, Ha. reflexivity.
    + rewrite index_gt_cons, Ha. reflexivity.
Qed.

Lemma no_tag_rstrip (s : string) :
  no_tag s = true -> no_tag (Py.rstrip s) = true.
Proof.
  induction s as [|c s IH]; [reflexivity|]. intros H.
  pose proof (no_tag_tail c s H) as Ht. specialize (IH Ht).
  rewrite no_tag_cons in H.
  destruct (Py.any_tag (String c s)) eqn:E; [discriminate|].
  assert (Hhead : Py.any_tag (String c (Py.rstrip s)) = None).
  { destruct (Ascii.eqb_spec c "<") as [->|Hc];
      [|now apply any_tag_only_at].
    rewrite any_tag_lt in *. now rewrite index_gt_rstrip. }
  rewrite rstrip_cons. destruct (Py.rstrip s) as [|b r'] eqn:R.
  - destruct (Py.isspace c); [reflexivity|].
    rewrite no_tag_cons, Hhead. reflexivity.
  - rewrite no_tag_cons, Hhead. exact IH.
Qed.

Lemma has_char_lstrip (c : ascii) (s : string) :
  Py.has_char c s = false -> Py.has_char c (Py.lstrip s) = false.
Proof.
  induction s as [|a s IH]; [reflexivity|]. intros H. cbn [Py.lstrip].
  destruct (Py.isspace a); [|exact H].
  cbn [Py.has_char] in H. apply orb_false_iff in H. now apply IH.
Qed.

(** X14.  A result of [html_to_plain_text] is trimmed, whatever
    [html.unescape] does; and when the input holds no character reference (no
    [&]) no complete tag is left in it: the pattern of a tag matches nowhere
    in the result, well-formed markup or not. *)
Theorem html_to_plain_text_no_tags (unescape : string -> exn + string)
    (value : string) :
  (forall out,
      html_to_plain_text unescape value = inr out -> Py.strip out = out)
  /\ (unescape_spec unescape -> Py.has_char "&" value = false ->
      exists out,
        html_to_plain_text unescape value = inr out /\ no_tag out = true).
Proof.
  unfold html_to_plain_text.
  destruct (Py.truthy value); cbn [negb].
  - split.
    + intros out H. destruct (unescape _) as [exc|text]; [discriminate|].
      injection H as <-. apply strip_idem.
    + intros Hu Hamp. rewrite Hu by now apply passes_keep_amp_out.
      eexists. split; [reflexivity|].
      unfold Py.strip. apply no_tag_rstrip, no_tag_lstrip.
      unfold Py.sub at 1. apply no_tag_sub_from.
  - split; [intros out H; now injection H as <-|].
    intros _ _. now exists "".
Qed.

End TagFacts.

(* ================================================================== *)
(** ** [int] and [str] on the port *)
(* ================================================================== *)

Section PortFacts.

Local Open Scope Z_scope.

Lemma int_strip_no_space (s : string) :
  no_space s = true -> int_rstrip (int_lstrip s) = s.
Proof.
  intros H.
  assert (Hl : int_lstrip s = s).
  { destruct s as [|c s]; [reflexivity|]. cbn [no_space] in H.
    apply andb_true_iff in H. destruct H as [Hc _].
    apply negb_true_iff in Hc. cbn [int_lstrip]. unfold int_space.
    now rewrite Hc. }
  rewrite Hl. clear Hl.
  induction s as [|c s IH]; [reflexivity|]. cbn [no_space] in H.
  apply andb_true_iff in H. destruct H as [Hc Hs].
  apply negb_true_iff in Hc. cbn [int_rstrip]. rewrite (IH Hs).
  destruct s; [|reflexivity]. unfold int_space. now rewrite Hc.
Qed.

Lemma digits_no_space (d : Decimal.uint) :
  no_space (NilEmpty.string_of_uint d) = true.
Proof.
  induction d; cbn [NilEmpty.string_of_uint no_space];
    rewrite ?IHd; reflexivity.
Qed.

(** Reading the digits of [d] after the digits of [acc]. *)
Lemma int_digits_acc (d : Decimal.uint) :
  forall acc,
    int_digits (Z.pos acc) true (NilEmpty.string_of_uint d)
    = Some (Z.pos (Pos.of_uint_acc d acc)).
Proof.
  induction d; intros acc;
    cbn [NilEmpty.string_of_uint int_digits Pos.of_uint_acc];
    [reflexivity|..];
    match goal with
    | |- context [digit_val ?c] =>
        change (digit_val c) with (Some (Z.of_nat (nat_of_ascii c - 48)))
    end;
    match goal with
    | |- context [Z.of_nat ?n] =>
        let v := eval vm_compute in (Z.of_nat n) in
        change (Z.of_nat n) with v
    end;
    rewrite <- IHd; f_equal; lia.
Qed.

Lemma int_digits_zero (d : Decimal.uint) :
  forall after_digit,
    d <> Decimal.Nil ->
    int_digits 0 after_digit (NilEmpty.string_of_uint d)
    = Some (Z.of_N (Pos.of_uint d)).
Proof.
  induction d; intros after_digit Hd; [contradiction|..];
    cbn [NilEmpty.string_of_uint int_digits Pos.of_uint];
    match goal with
    | |- context [digit_val ?c] =>
        change (digit_val c) with (Some (Z.of_nat (nat_of_ascii c - 48)))
    end;
    match goal with
    | |- context [Z.of_nat ?n] =>
        let v := eval vm_compute in (Z.of_nat n) in
        change (Z.of_nat n) with v
    end; change (10 * 0 + ?k) with k.
  - destruct d; [reflexivity|..]; apply IHd; discriminate.
  - apply (int_digits_acc d 1).
  - apply (int_digits_acc d 2).
  - apply (int_digits_acc d 3).
  - apply (int_digits_acc d 4).
  - apply (int_digits_acc d 5).
  - apply (int_digits_acc d 6).
  - apply (int_digits_acc d 7).
  - apply (int_digits_acc d 8).
  - apply (int_digits_acc d 9).
Qed.

Lemma py_int_digits (d : Decimal.uint) :
  d <> Decimal.Nil ->
  py_int (NilEmpty.string_of_uint d) = inr (Z.of_N (Pos.of_uint d))
  /\ py_int (String "-" (NilEmpty.string_of_uint d))
     = inr (- Z.of_N (Pos.of_uint d)).
Proof.
  intros Hd. unfold py_int. split.
  - rewrite int_strip_no_space by apply digits_no_space.
    assert (E : match NilEmpty.string_of_uint d with
                | String "-" r => option_map Z.opp (int_digits 0 false r)
                | String "+" r => int_digits 0 false r
                | _ => int_digits 0 false (NilEmpty.string_of_uint d)
                end = int_digits 0 false (NilEmpty.string_of_uint d))
      by (destruct d; reflexivity).
    rewrite E, int_digits_zero by assumption. reflexivity.
  - rewrite int_strip_no_space
      by (cbn [no_space]; now rewrite digits_no_space).
    rewrite int_digits_zero by assumption. reflexivity.
Qed.

(** X15.  The port written to the credential file and to the environment,
    [str(smtp_port)], is read back by [int] as the same number: the port
    parsed from the form, stored when the credentials are remembered and
    prefilled in the next confirm view is the port of the next Send request.
    *)
Theorem py_int_str_round_trip (n : Z) : py_int (py_str_int n) = inr n.
Proof.
  unfold py_str_int. destruct n as [|p|p]; [reflexivity| |];
    cbn [Z.to_int NilZero.string_of_int];
    pose proof (Unsigned.to_uint_nonnil p) as Hnil;
    pose proof (DecimalPos.Unsigned.of_to p) as Hof;
    destruct (py_int_digits (Pos.to_uint p) Hnil) as [Hpos Hneg];
    rewrite Hof in Hpos, Hneg.
  - replace (NilZero.string_of_uint (Pos.to_uint p))
      with (NilEmpty.string_of_uint (Pos.to_uint p))
      by (destruct (Pos.to_uint p); [contradiction|..]; reflexivity).
    exact Hpos.
  - replace (NilZero.string_of_uint (Pos.to_uint p))
      with (NilEmpty.string_of_uint (Pos.to_uint p))
      by (destruct (Pos.to_uint p); [contradiction|..]; reflexivity).
    exact Hneg.
Qed.

End PortFacts.

(* ================================================================== *)
(** ** Refusals of the Map and Prepare steps *)
(* ================================================================== *)

Section RefusalFacts.

Variable render : string -> string -> string -> exn + string.
Variable secure_filename : string -> string.
Variable UPLOAD_FOLDER : string.

(** X16.  A Map request answered by a redirect flashes the reason, and the
    reasons are tested in this order: the session names no uploaded file (it
    expired, or Prepare was never run); the file cannot be read any more; one
    of the two required columns is not given, is empty, or is not a column of
    the file. *)
Theorem map_columns_refusal_reasons (form : Form) (sess : Session)
    (disk : Disk) (environ : Dict string) (flashes : list string)
    (sess' : Session) :
  map_columns render form sess disk environ
  = (Redirect_index, flashes, sess') ->
  (flashes = [msg_session_expired]
   /\ (ss_upload_path sess = None \/ ss_upload_path sess = Some ""))
  \/ (exists path exc,
        flashes = [msg_unreadable exc]
        /\ ss_upload_path sess = Some path
        /\ read_table disk path path = inl exc)
  \/ (exists path df,
        flashes = [msg_select_columns]
        /\ ss_upload_path sess = Some path
        /\ read_table disk path path = inr df
        /\ (col_missing df (form_get form "email_col") = true
            \/ col_missing df (form_get form "name_col") = true)).
Proof.
  unfold map_columns.
  destruct (ss_upload_path sess) as [path|] eqn:P; cbn [truthy_opt negb].
  2:{ intros H. injection H as <- _. left. split; [reflexivity|]. now left. }
  destruct (Py.truthy path) eqn:T; cbn [negb get_or_empty].
  - destruct (read_table disk path path) as [exc|df] eqn:R.
    + intros H. injection H as <- _. right. left. exists path, exc.
      now repeat split.
    + intros H. right. right. exists path, df.
      cbn [filter] in H.
      destruct (col_missing df (form_get form "email_col")) eqn:Ce.
      * injection H as <- _. split; [reflexivity|]. split; [reflexivity|].
        split; [exact R | now left].
      * destruct (col_missing df (form_get form "name_col")) eqn:Cn.
        -- injection H as <- _. split; [reflexivity|]. split; [reflexivity|].
           split; [exact R | now right].
        -- exfalso. apply col_missing_false in Ce, Cn.
           destruct Ce as [e [He _]], Cn as [n [Hn _]].
           rewrite He, Hn in H. discriminate H.
  - intros H. injection H as <- _. left. split; [reflexivity|]. right.
    apply truthy_false in T. now subst path.
Qed.

(** X17.  An upload with an allowed name is saved before it is read: when the
    reader raises, the request is redirected with the text of the exception
    and the session is unchanged, but the file stays in the upload folder, in
    the place of any file saved there under the same name before. *)
Theorem prepare_unreadable_file_stays (f : DataUpload) (form : Form)
    (sess : Session) (disk : Disk) (exc : exn) :
  du_filename f <> "" -> allowed_file (du_filename f) = true ->
  let filename := secure_filename (du_filename f) in
  let path := path_join UPLOAD_FOLDER filename in
  (if Py.endswith ".csv" (Py.lower filename) then as_csv (du_data f)
   else as_excel (du_data f)) = inl exc ->
  exists disk',
    prepare secure_filename UPLOAD_FOLDER (Some f) form sess disk
    = (Redirect_index, [msg_unreadable exc], sess, disk')
    /\ dict_get path disk' = Some (du_data f)
    /\ forall other, other <> path -> dict_get other disk' = dict_get other disk.
Proof.
  intros Hname Hallowed filename path Hread.
  exists (dict_set path (du_data f) disk).
  split; [|split; [apply dict_get_set_same|]].
  - unfold prepare.
    assert (T : Py.truthy (du_filename f) = true).
    { unfold Py.truthy. apply String.eqb_neq in Hname. now rewrite Hname. }
    rewrite T, Hallowed. cbn [negb]. fold filename. fold path.
    unfold read_table, pd_read_csv, pd_read_excel.
    rewrite dict_get_set_same. cbv zeta.
    destruct (Py.endswith ".csv" (Py.lower filename)); now rewrite Hread.
  - intros other Hother. apply dict_get_set_other. congruence.
Qed.

End RefusalFacts.

(* ================================================================== *)
(** ** The messages of a Send request *)
(* ================================================================== *)

Section SendMessageFacts.

Variable render : string -> string -> string -> exn + string.
Variable secure_filename : string -> string.
Variable unescape : string -> exn + string.
Variable Smtp : Type.
Variable smtp_connect : string -> Z -> string -> string -> exn + Smtp.
Variable sendmail : Smtp -> string -> string -> Message -> Smtp * option exn.

Local Abbreviation send :=
  (send_emails render secure_filename unescape smtp_connect sendmail).




End SendMessageFacts.

(* ================================================================== *)
(** ** Writing the credential file twice *)
(* ================================================================== *)

Section RewriteFacts.

Lemma no_break_app (a b : string) :
  no_break (a ++ b) = no_break a && no_break b.
Proof.
  induction a as [|c a IH]; [reflexivity|]. cbn [append no_break].
  now rewrite IH, andb_assoc.
Qed.

Lemma linebreak_CR (c : ascii) :
  Py.islinebreak c = false -> Ascii.eqb c Py.CR = false.
Proof.
  intros H. destruct (Ascii.eqb_spec c Py.CR) as [->|]; [|reflexivity].
  discriminate H.
Qed.

(** [splitlines] returns lines without line break. *)
Lemma splitlines_from_no_break (n : nat) :
  forall s cur l,
    String.length s <= n -> no_break cur = true ->
    In l (Py.splitlines_from cur s) -> no_break l = true.
Proof.
  induction n as [|n IH]; intros s cur l Hlen Hcur.
  - destruct s; [|simpl in Hlen; lia]. simpl.
    destruct (String.eqb cur ""); [intros [] | intros [<-|[]]; assumption].
  - destruct s as [|c r].
    { simpl. destruct (String.eqb cur "");
        [intros [] | intros [<-|[]]; assumption]. }
    simpl in Hlen. cbn [Py.splitlines_from].
    destruct (Ascii.eqb c Py.CR) eqn:Hcr.
    + destruct r as [|c' r'].
      * intros [<-|[]]. assumption.
      * simpl in Hlen. destruct (Ascii.eqb c' Py.LF).
        -- intros [<-|H]; [assumption|].
           apply (IH r' "" l); [lia | reflexivity | assumption].
        -- intros [<-|H]; [assumption|].
           apply (IH (String c' r') "" l);
             [simpl; lia | reflexivity | assumption].
    + destruct (Py.islinebreak c) eqn:Hbr.
      * intros [<-|H]; [assumption|].
        apply (IH r "" l); [lia | reflexivity | assumption].
      * apply IH; [lia|]. rewrite no_break_app, Hcur. cbn [no_break].
        now rewrite Hbr.
Qed.

Lemma splitlines_from_line (l : string) :
  forall cur rest,
    no_break l = true ->
    Py.splitlines_from cur (l ++ String Py.LF rest)
    = (cur ++ l) :: Py.splitlines_from "" rest.
Proof.
  induction l as [|c l IH]; intros cur rest Hl.
  - cbn [append Py.splitlines_from]. now rewrite append_nil_r.
  - cbn [no_break] in Hl. apply andb_true_iff in Hl.
    destruct Hl as [Hc Hl]. apply negb_true_iff in Hc.
    cbn [append Py.splitlines_from].
    rewrite (linebreak_CR c Hc), Hc, IH by assumption.
    now rewrite append_assoc.
Qed.

(** Reading back, with [splitlines], lines written one per line. *)
Lemma splitlines_terminated (lines : list string) :
  (forall l, In l lines -> no_break l = true) ->
  Py.splitlines (terminated lines) = lines.
Proof.
  unfold Py.splitlines. induction lines as [|l rest IH]; intros H;
    [reflexivity|].
  cbn [terminated]. change (String "010" (terminated rest))
    with (String Py.LF (terminated rest)).
  rewrite splitlines_from_line by (apply H; now left).
  rewrite IH by (intros x Hx; apply H; now right). reflexivity.
Qed.

Lemma dict_set_new {V : Type} (k : string) (v : V) (d : Dict V) :
  ~ In k (dict_keys d) -> dict_set k v d = (d ++ [(k, v)])%list.
Proof.
  induction d as [|[k0 v0] d IH]; [reflexivity|]. cbn. intros H.
  destruct (String.eqb_spec k0 k) as [->|_]; [tauto|].
  rewrite IH by tauto. reflexivity.
Qed.

Lemma dict_set_same {V : Type} (k : string) (v : V) (d : Dict V) :
  dict_get k d = Some v -> dict_set k v d = d.
Proof.
  induction d as [|[k0 v0] d IH]; [discriminate|]. cbn.
  destruct (String.eqb k0 k); [now intros [= ->]|].
  intros H. now rewrite IH.
Qed.

Lemma set_all_cons {X V : Type} (keep : X -> bool) (key : X -> string)
    (value : X -> V) (x : X) (xs : list X) (d : Dict V) :
  set_all keep key value (x :: xs) d
  = set_all keep key value xs
      (if keep x then dict_set (key x) (value x) d else d).
Proof. reflexivity. Qed.

(** Reading the lines of a mapping of key lines gives the mapping
    back. *)
Lemma read_keyed_lines (d : Dict string) :
  forall acc,
    NoDup (dict_keys (acc ++ d)%list) -> Forall keyed_line d ->
    set_all is_key_line line_key (fun l => l) (dict_values d) acc
    = (acc ++ d)%list.
Proof.
  induction d as [|[k l] d IH]; intros acc Hnd Hgood.
  - cbn. now rewrite app_nil_r.
  - apply Forall_cons_iff in Hgood. destruct Hgood as [[Hk Hl] Hgood].
    cbn [fst snd] in Hk, Hl.
    change (dict_values ((k, l) :: d)) with (l :: dict_values d).
    rewrite set_all_cons, Hk, Hl.
    assert (Hnew : ~ In k (dict_keys acc)).
    { unfold dict_keys in *. rewrite map_app in Hnd. cbn [map fst] in Hnd.
      apply NoDup_remove_2 in Hnd. intros Hin. apply Hnd.
      apply in_or_app. now left. }
    rewrite (dict_set_new k l acc Hnew), IH; [|now rewrite <- app_assoc|assumption].
    now rewrite <- app_assoc.
Qed.

Lemma set_all_keyed {X : Type} (keep : X -> bool) (key : X -> string)
    (value : X -> string) (xs : list X) :
  (forall x, In x xs -> keep x = true -> keyed_line (key x, value x)) ->
  forall d, Forall keyed_line d ->
            Forall keyed_line (set_all keep key value xs d).
Proof.
  induction xs as [|x xs IH]; intros Hx d Hd; [exact Hd|].
  rewrite set_all_cons.
  apply IH; [intros y Hy; apply Hx; now right|].
  destruct (keep x) eqn:K; [|exact Hd].
  specialize (Hx x (or_introl eq_refl) K). clear - Hx Hd.
  induction d as [|[k0 v0] d IHd]; cbn.
  - now constructor.
  - apply Forall_cons_iff in Hd. destruct Hd as [H0 Hd].
    destruct (String.eqb_spec k0 (key x)) as [E|_].
    + constructor; [|exact Hd]. destruct Hx as [H1 H2].
      split; [exact H1|]. cbn [fst snd] in *. congruence.
    + constructor; [exact H0 | now apply IHd].
Qed.

Lemma last_set_absent {X V : Type} (keep : X -> bool) (key : X -> string)
    (value : X -> V) (k : string) (xs : list X) (init : option V) :
  ~ In k (map key xs) -> last_set keep key value k xs init = init.
Proof.
  revert init. induction xs as [|x xs IH]; intros init H; [reflexivity|].
  cbn [last_set fold_left]. cbn [map In] in H.
  fold (last_set keep key value k xs
          (if keep x && String.eqb (key x) k then Some (value x) else init)).
  rewrite IH by tauto.
  destruct (String.eqb_spec (key x) k) as [E|_]; [tauto|].
  now rewrite andb_false_r.
Qed.

(** With distinct keys, the loop leaves at each key the value of the one
    entry that names it. *)
Lemma last_set_nodup {X V : Type} (keep : X -> bool) (key : X -> string)
    (value : X -> V) (x : X) (xs : list X) :
  NoDup (map key xs) -> In x xs -> keep x = true ->
  forall init, last_set keep key value (key x) xs init = Some (value x).
Proof.
  induction xs as [|y xs IH]; intros Hnd Hin Hk init; [contradiction|].
  cbn [map] in Hnd. apply NoDup_cons_iff in Hnd. destruct Hnd as [Hy Hnd].
  cbn [last_set fold_left].
  fold (last_set keep key value (key x) xs
          (if keep y && String.eqb (key y) (key x)
           then Some (value y) else init)).
  destruct Hin as [->|Hin].
  - rewrite last_set_absent by assumption.
    now rewrite Hk, String.eqb_refl.
  - now apply IH.
Qed.

Lemma set_all_noop {X V : Type} (keep : X -> bool) (key : X -> string)
    (value : X -> V) (xs : list X) (d : Dict V) :
  (forall x, In x xs -> keep x = true ->
             dict_get (key x) d = Some (value x)) ->
  set_all keep key value xs d = d.
Proof.
  induction xs as [|x xs IH]; intros H; [reflexivity|].
  rewrite set_all_cons. destruct (keep x) eqn:K.
  - rewrite dict_set_same by (apply H; [now left | exact K]).
    apply IH. intros y Hy. apply H. now right.
  - apply IH. intros y Hy. apply H. now right.
Qed.

Lemma before_char_app (c : ascii) (k rest : string) :
  Py.has_char c k = false ->
  Py.before_char c (k ++ String c rest) = k.
Proof.
  induction k as [|a k IH]; intros H.
  - cbn. now rewrite Ascii.eqb_refl.
  - cbn [Py.has_char] in H. apply orb_false_iff in H.
    destruct H as [Ha Hk]. cbn [append Py.before_char].
    now rewrite Ha, IH.
Qed.

Lemma rstrip_keeps_head (c : ascii) (r : string) :
  Py.isspace c = false -> exists r', Py.rstrip (String c r) = String c r'.
Proof.
  intros Hc. rewrite rstrip_cons. destruct (Py.rstrip r) as [|b r'].
  - rewrite Hc. now exists "".
  - now exists (String b r').
Qed.

Lemma plain_key_inv (k : string) :
  plain_key k = true ->
  Py.strip k = k /\ Py.has_char "=" k = false
  /\ Py.startswith "#" k = false /\ no_break k = true.
Proof.
  unfold plain_key. intros H.
  apply andb_true_iff in H. destruct H as [H H4].
  apply andb_true_iff in H. destruct H as [H H3].
  apply andb_true_iff in H. destruct H as [H1 H2].
  apply String.eqb_eq in H1. apply negb_true_iff in H2, H3. tauto.
Qed.

(** The line written for a plain key is a key line of that key. *)
Lemma update_line_keyed (k v : string) :
  plain_key k = true -> keyed_line (k, update_line (k, v)).
Proof.
  intros Hk. apply plain_key_inv in Hk.
  destruct Hk as [Hstrip [Heq [Hhash _]]].
  unfold keyed_line, update_line, is_key_line, line_key. cbn [fst snd].
  split.
  - rewrite has_char_app. cbn [append Py.has_char].
    rewrite Ascii.eqb_refl, orb_true_r. cbn [andb].
    apply negb_true_iff.
    assert (Hclean : starts_clean k = true).
    { rewrite <- Hstrip. unfold Py.strip.
      apply rstrip_starts_clean, lstrip_starts_clean. }
    unfold Py.strip. destruct k as [|c k].
    + cbn [append]. rewrite lstrip_clean by reflexivity.
      destruct (rstrip_keeps_head "=" (safe_value v) eq_refl) as [r' ->].
      reflexivity.
    + cbn [starts_clean] in Hclean. apply negb_true_iff in Hclean.
      cbn [append]. rewrite lstrip_clean by (cbn; now rewrite Hclean).
      match goal with
      | |- context [Py.rstrip (String c ?x)] =>
          destruct (rstrip_keeps_head c x Hclean) as [r' ->]
      end.
      cbn [Py.startswith] in *. apply andb_false_iff in Hhash.
      destruct Hhash as [Hhash|Hhash]; [|discriminate Hhash].
      rewrite Hhash. reflexivity.
  - change (k ++ "=" ++ safe_value v)
      with (k ++ String "=" (safe_value v)).
    now rewrite before_char_app.
Qed.

(** X19.  Writing the same values a second time changes nothing: for distinct
    plain keys and values that hold no other line break than the line feeds
    and carriage returns that are removed, the file written is read back key
    by key, every key is found where it is, and the second write returns the
    text of the first.  Remembering the credentials again does not make the
    file grow. *)
Theorem write_env_values_twice (updates : Dict string)
    (env_file : option string) :
  NoDup (dict_keys updates) ->
  (forall k v, In (k, v) updates ->
     plain_key k = true /\ no_break (safe_value v) = true) ->
  _write_env_values updates (Some (_write_env_values updates env_file))
  = _write_env_values updates env_file.
Proof.
  intros Hnd Hplain.
  set (M := env_mapping updates env_file).
  assert (Htext : _write_env_values updates env_file
                  = terminated (dict_values M)) by apply join_terminated.
  assert (Hbreak : forall l, In l (dict_values M) -> no_break l = true).
  { intros l Hl. apply env_mapping_values in Hl.
    destruct Hl as [[Hold _]|[k [v [Hin ->]]]].
    - destruct env_file as [text|]; [|contradiction].
      apply (splitlines_from_no_break (String.length text) text "" l);
        auto.
    - destruct (Hplain k v Hin) as [Hk Hv]. apply plain_key_inv in Hk.
      rewrite !no_break_app, Hv. now destruct Hk as [_ [_ [_ ->]]]. }
  assert (Hkeyed : Forall keyed_line M).
  { unfold M, env_mapping. rewrite apply_updates_set_all.
    apply set_all_keyed.
    - intros [k v] Hin _. apply update_line_keyed. now apply (Hplain k v).
    - rewrite read_mapping_set_all. apply set_all_keyed; [|constructor].
      intros l _ Hl. now split. }
  assert (Hread : read_mapping (Py.splitlines (terminated (dict_values M)))
                  = M).
  { rewrite splitlines_terminated by exact Hbreak.
    rewrite read_mapping_set_all.
    apply (read_keyed_lines M []); [apply env_mapping_nodup | exact Hkeyed]. }
  assert (Hagain : apply_updates updates M = M).
  { rewrite apply_updates_set_all. apply set_all_noop.
    intros [k v] Hin _. unfold M, env_mapping.
    rewrite apply_updates_set_all, set_all_get.
    now rewrite (last_set_nodup (fun _ => true) fst update_line (k, v)
                   updates Hnd Hin eq_refl None). }
  rewrite Htext. unfold _write_env_values at 1.
  unfold env_mapping, env_lines. rewrite Hread, Hagain.
  apply join_terminated.
Qed.

End RewriteFacts.

(* ================================================================== *)
(** ** A line break that the writer leaves in a value *)
(* ================================================================== *)

Section InjectionFacts.

Lemma splitlines_from_break (l : string) (c : ascii) :
  forall cur rest,
    no_break l = true -> Py.islinebreak c = true ->
    Ascii.eqb c Py.CR = false ->
    Py.splitlines_from cur (l ++ String c rest)
    = (cur ++ l) :: Py.splitlines_from "" rest.
Proof.
  induction l as [|a l IH]; intros cur rest Hl Hc Hcr.
  - cbn [append Py.splitlines_from]. now rewrite Hcr, Hc, append_nil_r.
  - cbn [no_break] in Hl. apply andb_true_iff in Hl.
    destruct Hl as [Ha Hl]. apply negb_true_iff in Ha.
    cbn [append Py.splitlines_from].
    rewrite (linebreak_CR a Ha), Ha, IH by assumption.
    now rewrite append_assoc.
Qed.

Lemma terminated_app (a b : list string) :
  terminated (a ++ b) = terminated a ++ terminated b.
Proof.
  induction a as [|l a IH]; [reflexivity|].
  cbn [app terminated]. rewrite IH, append_assoc. reflexivity.
Qed.

(** Reading, with [splitlines], a text that begins with whole lines. *)
Lemma splitlines_from_lines (lines : list string) (rest : string) :
  (forall l, In l lines -> no_break l = true) ->
  Py.splitlines_from "" (terminated lines ++ rest)
  = (lines ++ Py.splitlines_from "" rest)%list.
Proof.
  induction lines as [|l ls IH]; intros H; [reflexivity|].
  cbn [terminated]. rewrite append_assoc.
  change (String "010" (terminated ls) ++ rest)
    with (String Py.LF (terminated ls ++ rest)).
  rewrite splitlines_from_line by (apply H; now left).
  rewrite IH by (intros x Hx; apply H; now right). reflexivity.
Qed.

Lemma no_break_no_char (c : ascii) (s : string) :
  no_break s = true -> Py.islinebreak c = true -> Py.has_char c s = false.
Proof.
  intros Hs Hc. induction s as [|a s IH]; [reflexivity|].
  cbn [no_break] in Hs. apply andb_true_iff in Hs. destruct Hs as [Ha Hs].
  cbn [Py.has_char]. rewrite (IH Hs), orb_false_r.
  destruct (Ascii.eqb_spec a c) as [->|_]; [|reflexivity].
  rewrite Hc in Ha. discriminate Ha.
Qed.

(** A value without line feed and carriage return is written as it is. *)
Lemma safe_value_clean (v : string) :
  Py.has_char Py.LF v = false -> Py.has_char Py.CR v = false ->
  safe_value v = v.
Proof.
  intros Hlf Hcr. unfold safe_value.
  rewrite (replace_absent Py.nl "" v Py.LF) by (reflexivity || assumption).
  now rewrite (replace_absent Py.cr "" v Py.CR) by (reflexivity || assumption).
Qed.

(** Updates with distinct new keys are appended in their order. *)
Lemma apply_updates_fresh (updates : Dict string) :
  forall acc,
    NoDup (dict_keys acc ++ dict_keys updates) ->
    apply_updates updates acc
    = (acc ++ map (fun kv => (fst kv, update_line kv)) updates)%list.
Proof.
  induction updates as [|kv us IH]; intros acc Hnd.
  - cbn. now rewrite app_nil_r.
  - rewrite apply_updates_set_all, set_all_cons.
    rewrite <- apply_updates_set_all.
    cbn [dict_keys map] in Hnd.
    assert (Hnew : ~ In (fst kv) (dict_keys acc)).
    { apply NoDup_remove_2 in Hnd. intros Hin. apply Hnd.
      apply in_or_app. now left. }
    rewrite (dict_set_new _ _ acc Hnew), IH.
    + rewrite <- app_assoc. reflexivity.
    + unfold dict_keys in *. rewrite map_app. cbn [map].
      now rewrite <- app_assoc.
Qed.

Lemma dict_get_in {V : Type} (k : string) (v : V) (d : Dict V) :
  NoDup (dict_keys d) -> In (k, v) d -> dict_get k d = Some v.
Proof.
  induction d as [|[k0 v0] d IH]; [contradiction|].
  cbn [dict_keys map fst]. intros Hnd Hin.
  apply NoDup_cons_iff in Hnd. destruct Hnd as [Hk0 Hnd].
  cbn [dict_get]. destruct Hin as [[= -> ->]|Hin].
  - now rewrite String.eqb_refl.
  - destruct (String.eqb_spec k0 k) as [->|_]; [|now apply IH].
    exfalso. apply Hk0. change k with (fst (k, v)).
    now apply in_map.
Qed.

Lemma dict_set_middle {V : Type} (k : string) (x y : V) (d r : Dict V) :
  ~ In k (dict_keys d) ->
  dict_set k x (d ++ (k, y) :: r)%list = (d ++ (k, x) :: r)%list.
Proof.
  induction d as [|[k0 v0] d IH]; intros H.
  - cbn. now rewrite String.eqb_refl.
  - cbn [dict_keys map fst In] in H. cbn [app dict_set].
    destruct (String.eqb_spec k0 k) as [->|_]; [tauto|].
    rewrite IH by tauto. reflexivity.
Qed.

(** Updates whose lines the mapping already holds change nothing. *)
Lemma apply_updates_present (updates mapping : Dict string) :
  NoDup (dict_keys mapping) ->
  (forall kv, In kv updates -> In (fst kv, update_line kv) mapping) ->
  apply_updates updates mapping = mapping.
Proof.
  intros Hnd H. rewrite apply_updates_set_all. apply set_all_noop.
  intros kv Hin _. apply dict_get_in; [exact Hnd | now apply H].
Qed.

(** C9.  Every value is written with its line feeds and carriage returns
    removed, but [str.splitlines], with which the file is read at the
    next write, breaks a line at six more characters, and these stay.  For
    updates with distinct plain keys, one of whose values holds such a
    character [c] followed by a text [inj] of the form [key=value] with a
    key that no update names: the first write puts the value, [c] and
    [inj] included, on the line of its key; the next write reads [inj] as a
    line of its own; and the second write of the same updates puts [inj]
    into the file as one more line, a pair under a key that nobody has
    written. *)
Theorem write_env_values_line_injection (before after : Dict string)
    (k v inj : string) (c : ascii) :
  let updates :=
    (before ++ (k, (v ++ String c inj)%string) :: after)%list in
  let line := k ++ "=" ++ v ++ String c inj in
  let first := _write_env_values updates None in
  NoDup (dict_keys updates) ->
  (forall k' v', In (k', v') updates -> plain_key k' = true) ->
  (forall k' v', In (k', v') (before ++ after)%list ->
     no_break (safe_value v') = true) ->
  no_break v = true -> no_break inj = true ->
  Py.islinebreak c = true -> c <> Py.LF -> c <> Py.CR ->
  is_key_line inj = true -> ~ In (line_key inj) (dict_keys updates) ->
  (forall k' v', In (k', v') updates -> no_crlf (safe_value v') = true)
  /\ first
     = terminated (map update_line before ++ line :: map update_line after)
  /\ env_lines (Some first)
     = (map update_line before
        ++ (k ++ "=" ++ v)%string :: inj :: map update_line after)%list
  /\ _write_env_values updates (Some first)
     = terminated
         (map update_line before ++ line :: inj :: map update_line after).
Proof.
  intros updates line first Hnd Hplain Hclean Hv Hinj Hc Hlf Hcr Hkey Hnew.
  set (entry := fun kv : string * string => (fst kv, update_line kv)).
  set (E1 := map entry before). set (E2 := map entry after).
  set (L1 := map update_line before). set (L2 := map update_line after).
  assert (Hceq : Ascii.eqb c Py.CR = false) by now apply Ascii.eqb_neq.
  assert (Hvals1 : dict_values E1 = L1)
    by (unfold dict_values, E1, L1; now rewrite map_map).
  assert (Hvals2 : dict_values E2 = L2)
    by (unfold dict_values, E2, L2; now rewrite map_map).
  assert (Hkeys1 : dict_keys E1 = dict_keys before)
    by (unfold dict_keys, E1; now rewrite map_map).
  assert (Hkeys2 : dict_keys E2 = dict_keys after)
    by (unfold dict_keys, E2; now rewrite map_map).
  (* the line of the poisoned value *)
  assert (Hline : update_line (k, v ++ String c inj) = line).
  { unfold update_line, line. cbn [fst snd]. rewrite safe_value_clean;
      [reflexivity| |]; rewrite has_char_app; cbn [Py.has_char];
      rewrite (no_break_no_char _ v Hv), (no_break_no_char _ inj Hinj)
        by reflexivity;
      [destruct (Ascii.eqb_spec c Py.LF) | destruct (Ascii.eqb_spec c Py.CR)];
      try contradiction; reflexivity. }
  assert (Hshort : update_line (k, v) = k ++ "=" ++ v).
  { unfold update_line. cbn [fst snd].
    now rewrite safe_value_clean by (now apply no_break_no_char). }
  (* the mapping of the first write *)
  assert (HM1 : env_mapping updates None = (E1 ++ (k, line) :: E2)%list).
  { unfold env_mapping, env_lines. cbn [read_mapping fold_left].
    rewrite (apply_updates_fresh updates []) by exact Hnd.
    unfold updates. rewrite map_app. cbn [map app fst].
    now rewrite Hline. }
  assert (Hfirst : first = terminated (L1 ++ line :: L2)).
  { unfold first, _write_env_values. cbv zeta. rewrite join_terminated, HM1.
    unfold dict_values. rewrite map_app. cbn [map snd].
    fold (dict_values E1). fold (dict_values E2).
    now rewrite Hvals1, Hvals2. }
  (* the lines are without line break, the poisoned one apart *)
  assert (Hkey_plain : forall k' v', In (k', v') updates ->
                         no_break k' = true).
  { intros k' v' Hin. apply Hplain in Hin. apply plain_key_inv in Hin.
    tauto. }
  assert (Hin_side : forall kv, In kv (before ++ after)%list ->
                       In kv updates).
  { intros kv Hin. unfold updates. apply in_app_or in Hin.
    apply in_or_app. destruct Hin; [now left | right; now right]. }
  assert (Hside : forall l, In l (L1 ++ L2)%list -> no_break l = true).
  { intros l Hl. unfold L1, L2 in Hl. rewrite <- map_app in Hl.
    apply in_map_iff in Hl. destruct Hl as [[k' v'] [<- Hin]].
    unfold update_line. cbn [fst snd].
    rewrite !no_break_app, (Hclean k' v' Hin).
    rewrite (Hkey_plain k' v' (Hin_side _ Hin)). reflexivity. }
  assert (Hk : no_break (k ++ "=" ++ v) = true).
  { rewrite !no_break_app, Hv.
    rewrite (Hkey_plain k (v ++ String c inj)); [reflexivity|].
    unfold updates. apply in_or_app. right. now left. }
  (* what the next write reads *)
  assert (Hread : Py.splitlines first
                  = (L1 ++ (k ++ "=" ++ v)%string :: inj :: L2)%list).
  { rewrite Hfirst, terminated_app. unfold Py.splitlines.
    rewrite splitlines_from_lines
      by (intros l Hl; apply Hside, in_or_app; now left).
    f_equal. cbn [terminated].
    replace (line ++ String "010" (terminated L2))
      with ((k ++ "=" ++ v)
            ++ String c (inj ++ String Py.LF (terminated L2)))
      by (unfold line; now rewrite !append_assoc).
    rewrite splitlines_from_break by assumption. cbn [append]. f_equal.
    rewrite splitlines_from_line by assumption. cbn [append]. f_equal.
    apply (splitlines_terminated L2).
    intros l Hl. apply Hside, in_or_app. now right. }
  (* the mapping read from these lines *)
  set (D := (E1 ++ (k, (k ++ "=" ++ v)%string)
                :: (line_key inj, inj) :: E2)%list).
  assert (HkeysD : forall x y,
            dict_keys (E1 ++ (k, x) :: (line_key inj, y) :: E2)%list
            = ((dict_keys before ++ [k]) ++ line_key inj :: dict_keys after)%list).
  { intros x y. unfold dict_keys in *. rewrite map_app. cbn [map fst].
    rewrite Hkeys1, Hkeys2, <- app_assoc. reflexivity. }
  assert (HndD : forall x y,
            NoDup (dict_keys (E1 ++ (k, x) :: (line_key inj, y) :: E2)%list)).
  { intros x y. rewrite HkeysD.
    apply (Permutation_NoDup (Permutation_middle _ _ _)).
    unfold updates, dict_keys in Hnd, Hnew. rewrite map_app in Hnd, Hnew.
    cbn [map fst] in Hnd, Hnew. unfold dict_keys.
    constructor; rewrite <- app_assoc; assumption. }
  assert (Hentry : forall kv, In kv updates ->
                     keyed_line (fst kv, update_line kv)).
  { intros [k' v'] Hin. apply update_line_keyed. now apply (Hplain k' v'). }
  assert (HkeyedD : Forall keyed_line D).
  { unfold D. apply Forall_app. split; [|constructor; [|constructor]].
    - unfold E1. apply Forall_forall. intros e He. apply in_map_iff in He.
      destruct He as [kv [<- Hin]]. apply Hentry. unfold updates.
      apply in_or_app. now left.
    - rewrite <- Hshort. apply update_line_keyed.
      apply (Hplain k (v ++ String c inj)). unfold updates.
      apply in_or_app. right. now left.
    - now split.
    - unfold E2. apply Forall_forall. intros e He. apply in_map_iff in He.
      destruct He as [kv [<- Hin]]. apply Hentry. unfold updates.
      apply in_or_app. right. now right. }
  assert (HreadD : read_mapping (Py.splitlines first) = D).
  { rewrite Hread, read_mapping_set_all.
    replace (L1 ++ (k ++ "=" ++ v)%string :: inj :: L2)%list
      with (dict_values D)
      by (unfold D, dict_values; rewrite map_app; cbn [map snd];
          fold (dict_values E1); fold (dict_values E2);
          now rewrite Hvals1, Hvals2).
    apply (read_keyed_lines D []); [apply HndD | exact HkeyedD]. }
  (* the second write *)
  assert (HM2 : env_mapping updates (Some first)
                = (E1 ++ (k, line) :: (line_key inj, inj) :: E2)%list).
  { unfold env_mapping, env_lines. rewrite HreadD. unfold updates.
    unfold apply_updates. rewrite fold_left_app. cbn [fold_left fst].
    fold (apply_updates before D).
    rewrite (apply_updates_present before D).
    - rewrite Hline. unfold D.
      rewrite dict_set_middle.
      + match goal with
        | |- fold_left ?f after ?d = _ => change (apply_updates after d = d)
        end.
        apply apply_updates_present; [apply HndD|].
        intros kv Hin. apply in_or_app. right. right. right.
        unfold E2. now apply (in_map entry).
      + rewrite Hkeys1. unfold updates, dict_keys in Hnd.
        rewrite map_app in Hnd. cbn [map fst] in Hnd.
        apply NoDup_remove_2 in Hnd. intros Hin. apply Hnd.
        apply in_or_app. now left.
    - apply HndD.
    - intros kv Hin. apply in_or_app. left. unfold E1.
      now apply (in_map entry). }
  split; [intros k' v' _; apply safe_value_no_crlf|].
  split; [exact Hfirst|]. split; [exact Hread|].
  unfold _write_env_values. cbv zeta. rewrite join_terminated, HM2.
  unfold dict_values. rewrite map_app. cbn [map snd].
  fold (dict_values E1). fold (dict_values E2).
  now rewrite Hvals1, Hvals2.
Qed.

End InjectionFacts.

(* ================================================================== *)
(** ** The further properties on concrete requests *)
(* ================================================================== *)

Lemma allowed_file_by_extension_witness :
  Py.has_char "/" "Datos" = false /\ Py.has_char "/" "CSV" = false
  /\ Py.has_char "." "CSV" = false /\ has_other_than "." "Datos" = true
  /\ allowed_file "Datos.CSV" = true.
Proof.
  repeat (split; [reflexivity|]).
  exact (eq_trans
           (allowed_file_by_extension "Datos" "CSV" eq_refl eq_refl eq_refl
              eq_refl)
           eq_refl).
Defined.

Example prepare_demo_again :
  prepare secure_filename_demo "uploads" (Some demo_upload) demo_form
    demo_mapped []
  = (Preview ["mail"; "nombre"] (df_rows demo_df), [],
     demo_mapped, snd demo_prepared).
Proof. vm_compute. reflexivity. Qed.

Lemma prepare_frame_witness :
  prepare secure_filename_demo "uploads" (Some demo_upload) demo_form
    demo_mapped []
  = (Preview ["mail"; "nombre"] (df_rows demo_df), [],
     demo_mapped, snd demo_prepared)
  /\ ss_mapped_records demo_mapped = Some demo_records.
Proof.
  assert (E : prepare secure_filename_demo "uploads" (Some demo_upload)
                demo_form demo_mapped []
              = (Preview ["mail"; "nombre"] (df_rows demo_df), [],
                 demo_mapped, snd demo_prepared))
    by (vm_compute; reflexivity).
  split; [exact E|].
  destruct (prepare_frame secure_filename_demo "uploads" _ _ _ _ _ _ _ _ E)
    as [_ [_ [H _]]].
  exact H.
Defined.

Lemma prepare_preview_witness :
  prepare secure_filename_demo "uploads" (Some demo_upload) demo_form
    empty_session []
  = (Preview ["mail"; "nombre"] (df_rows demo_df), [],
     fst demo_prepared, snd demo_prepared)
  /\ ss_columns (fst demo_prepared) = Some ["mail"; "nombre"].
Proof.
  assert (E : prepare secure_filename_demo "uploads" (Some demo_upload)
                demo_form empty_session []
              = (Preview ["mail"; "nombre"] (df_rows demo_df), [],
                 fst demo_prepared, snd demo_prepared))
    by (vm_compute; reflexivity).
  split; [exact E|].
  destruct (prepare_preview secure_filename_demo "uploads" _ _ _ _ _ _ _ _ _ E)
    as [f [df [_ [_ H]]]].
  cbv zeta in H. tauto.
Defined.


Lemma map_columns_records_trimmed_witness :
  map_columns render_demo demo_map_form (fst demo_prepared)
    (snd demo_prepared) []
  = (Confirm demo_samples 3 (smtp_defaults_of []), [], demo_mapped)
  /\ exists records,
       ss_mapped_records demo_mapped = Some records
       /\ 3 = List.length records.
Proof.
  assert (E : map_columns render_demo demo_map_form (fst demo_prepared)
                (snd demo_prepared) []
              = (Confirm demo_samples 3 (smtp_defaults_of []), [],
                 demo_mapped))
    by (vm_compute; reflexivity).
  split; [exact E|].
  destruct (map_columns_records_trimmed render_demo _ _ _ _ _ _ _ _ _ E)
    as [records [H1 [H2 _]]].
  exists records. now split.
Defined.

Lemma map_columns_previews_witness :
  map_columns render_demo demo_map_form (fst demo_prepared)
    (snd demo_prepared) []
  = (Confirm demo_samples 3 (smtp_defaults_of []), [], demo_mapped)
  /\ exists records,
       ss_mapped_records demo_mapped = Some records
       /\ List.length demo_samples = Nat.min 5 (List.length records).
Proof.
  assert (E : map_columns render_demo demo_map_form (fst demo_prepared)
                (snd demo_prepared) []
              = (Confirm demo_samples 3 (smtp_defaults_of []), [],
                 demo_mapped))
    by (vm_compute; reflexivity).
  split; [exact E|].
  destruct (map_columns_previews render_demo _ _ _ _ _ _ _ _ _ E)
    as [records [H1 [H2 _]]].
  exists records. now split.
Defined.

Lemma map_columns_refusal_reasons_witness :
  map_columns render_demo [("email_col", "codigo"); ("name_col", "alumno")]
    (fst stale_prepared) (snd stale_prepared) []
  = (Redirect_index, [msg_select_columns], fst stale_prepared)
  /\ [msg_select_columns] <> [msg_session_expired].
Proof.
  assert (E : map_columns render_demo
                [("email_col", "codigo"); ("name_col", "alumno")]
                (fst stale_prepared) (snd stale_prepared) []
              = (Redirect_index, [msg_select_columns], fst stale_prepared))
    by (vm_compute; reflexivity).
  split; [exact E|].
  destruct (map_columns_refusal_reasons render_demo _ _ _ _ _ _ E)
    as [[H _]|[[path [exc [H _]]]|_]]; discriminate.
Defined.

Lemma prepare_unreadable_file_stays_witness :
  du_filename broken_upload <> ""
  /\ allowed_file (du_filename broken_upload) = true
  /\ exists disk',
       prepare secure_filename_demo "uploads" (Some broken_upload) demo_form
         demo_mapped []
       = (Redirect_index,
          [msg_unreadable (Raised "File is not a zip file")], demo_mapped,
          disk')
       /\ dict_get "uploads/datos.xlsx" disk' = Some (du_data broken_upload).
Proof.
  split; [discriminate|]. split; [reflexivity|].
  destruct (prepare_unreadable_file_stays secure_filename_demo "uploads"
              broken_upload demo_form demo_mapped []
              (Raised "File is not a zip file"))
    as [disk' [H1 [H2 _]]]; try reflexivity; try discriminate.
  exists disk'. split; [exact H1 | exact H2].
Defined.

Lemma send_emails_redirect_frame_witness :
  send_emails render_demo secure_filename_demo unescape_xml smtp_connect_demo
    sendmail_demo demo_refused_form [] None demo_mapped demo_world
  = inr (Redirect_index,
         [msg_smtp (Raised "(535, b'Username and Password not accepted')")],
         demo_world)
  /\ demo_world = demo_world.
Proof.
  assert (E : send_emails render_demo secure_filename_demo unescape_xml
                smtp_connect_demo sendmail_demo demo_refused_form [] None
                demo_mapped demo_world
              = inr (Redirect_index,
                     [msg_smtp
                        (Raised "(535, b'Username and Password not accepted')")],
                     demo_world))
    by (vm_compute; reflexivity).
  split; [exact E|].
  destruct (send_emails_redirect_frame render_demo secure_filename_demo
              unescape_xml (list string) smtp_connect_demo sendmail_demo
              _ _ _ _ _ _ _ E) as [H _].
  exact H.
Defined.

Example send_emails_demo_report :
  demo_sent = inr (Result demo_report, [], demo_after).
Proof. vm_compute. reflexivity. Qed.


Lemma send_emails_remember_witness :
  demo_sent = inr (Result demo_report, [], demo_after)
  /\ smtp_defaults_of (w_environ demo_after)
     = [ ("smtp_email", "yo@unmsm.edu.pe"); ("smtp_app_password", "clave");
         ("from_name", "Centro de Idiomas"); ("smtp_host", "smtp.gmail.com");
         ("smtp_port", "587") ].
Proof.
  assert (E : demo_sent = inr (Result demo_report, [], demo_after))
    by (vm_compute; reflexivity).
  split; [exact E|].
  destruct (send_emails_remember render_demo secure_filename_demo
              unescape_xml (list string) smtp_connect_demo sendmail_demo
              _ _ _ _ _ _ _ _ E) as [port [Hport [_ Hon]]].
  destruct (Hon eq_refl) as [_ [H _]].
  injection Hport as <-. exact H.
Defined.


Lemma dispatch_message_content_witness :
  In (Sendmail 1 demo_pdf_message) (trace (demo_dispatch_pdf demo_records))
  /\ msg_to demo_pdf_message <> ""
  /\ msg_from demo_pdf_message = ("Centro de Idiomas", "yo@unmsm.edu.pe").
Proof.
  assert (Hin : In (Sendmail 1 demo_pdf_message)
                  (trace (demo_dispatch_pdf demo_records)))
    by (vm_compute; now left).
  split; [exact Hin|].
  destruct (dispatch_message_content render_demo (list string) sendmail_demo
              "Hola {{name}}" "Aviso" "Firma" "yo@unmsm.edu.pe"
              "Centro de Idiomas" demo_attachments [] demo_records 1
              demo_pdf_message Hin) as [rec [body [_ [_ [_ [H1 [H2 _]]]]]]].
  split; [exact H1 | exact H2].
Defined.

Lemma dispatch_attaches_pdf_only_witness :
  In (Sendmail 1 demo_pdf_message) (trace (demo_dispatch_pdf demo_records))
  /\ msg_parts demo_pdf_message = pdf_parts demo_attachments.
Proof.
  assert (Hin : In (Sendmail 1 demo_pdf_message)
                  (trace (demo_dispatch_pdf demo_records)))
    by (vm_compute; now left).
  split; [exact Hin|].
  destruct (dispatch_attaches_pdf_only render_demo (list string)
              sendmail_demo "Hola {{name}}" "Aviso" "Firma" "yo@unmsm.edu.pe"
              "Centro de Idiomas" demo_attachments [] demo_records 1
              demo_pdf_message Hin) as [H _].
  exact H.
Defined.

Lemma write_env_values_twice_witness :
  NoDup (dict_keys demo_credentials)
  /\ (forall k v, In (k, v) demo_credentials ->
        plain_key k = true /\ no_break (safe_value v) = true)
  /\ _write_env_values demo_credentials
       (Some (_write_env_values demo_credentials (w_env_file demo_world)))
     = _write_env_values demo_credentials (w_env_file demo_world).
Proof.
  assert (Hnd : NoDup (dict_keys demo_credentials)).
  { cbn. repeat constructor; cbn; intuition discriminate. }
  assert (Hplain : forall k v, In (k, v) demo_credentials ->
                     plain_key k = true /\ no_break (safe_value v) = true).
  { intros k v H. cbn in H.
    repeat (destruct H as [H|H];
            [injection H as <- <-; split; reflexivity|]).
    contradiction. }
  split; [exact Hnd|]. split; [exact Hplain|].
  exact (write_env_values_twice demo_credentials (w_env_file demo_world)
           Hnd Hplain).
Defined.

(* ================================================================== *)
(** ** Converting a converted text *)
(* ================================================================== *)

Section AgainFacts.

Variable unescape : string -> exn + string.

(** A substitution leaves a text without tags as it is when every match
    of its pattern is also a match of the tag pattern. *)
Lemma sub_from_no_tag (m : string -> option nat) (repl s : string) :
  (forall t, Py.any_tag t = None -> m t = None) ->
  no_tag s = true -> Py.sub_from m repl 0 s = s.
Proof.
  intros Hm. induction s as [|c s IH]; [reflexivity|]. intros H.
  pose proof (no_tag_tail c s H) as Ht. rewrite no_tag_cons in H.
  destruct (Py.any_tag (String c s)) eqn:E; [discriminate|].
  cbn [Py.sub_from]. rewrite (Hm _ E). now rewrite IH.
Qed.

Lemma startswith_split (p s : string) :
  Py.startswith p s = true -> exists r, s = p ++ r.
Proof.
  revert s. induction p as [|a p IH]; intros s H; [now exists s|].
  destruct s as [|b s]; [discriminate|]. cbn [Py.startswith] in H.
  apply andb_true_iff in H. destruct H as [Hab H].
  apply Ascii.eqb_eq in Hab. subst b.
  destruct (IH s H) as [r ->]. now exists r.
Qed.

(** The three spellings of a line break are tags. *)
Lemma lit_br_tag (old t : string) :
  In old br_forms -> Py.any_tag t = None -> Py.lit old t = None.
Proof.
  intros Hin E. unfold Py.lit.
  destruct (Py.startswith old t) eqn:Hs; [|reflexivity].
  apply startswith_split in Hs. destruct Hs as [r ->].
  destruct Hin as [<-|[<-|[<-|[]]]]; vm_compute in E; discriminate E.
Qed.

Lemma ws_then_gt_index (r : string) (n : nat) :
  Py.ws_then_gt r = Some n -> exists i, Py.index_gt r = Some i.
Proof.
  revert n. induction r as [|c r IH]; intros n H; [discriminate|].
  cbn [Py.ws_then_gt] in H. rewrite index_gt_cons.
  destruct (Ascii.eqb c ">"); [now exists 0|].
  destruct (Py.isspace c); [|discriminate].
  destruct (Py.ws_then_gt r) as [k|]; [|discriminate].
  destruct (IH k eq_refl) as [i ->]. now exists (S i).
Qed.

Lemma close_p_lt_slash (p : ascii) (r : string) :
  Py.close_p (String "<" (String "/" (String p r)))
  = if Ascii.eqb p "p" || Ascii.eqb p "P"
    then option_map (fun n => 3 + n) (Py.ws_then_gt r)
    else None.
Proof. reflexivity. Qed.

(** A closing [p] tag is a tag. *)
Lemma close_p_tag (t : string) :
  Py.any_tag t = None -> Py.close_p t = None.
Proof.
  intros E. destruct t as [|c r]; [reflexivity|].
  destruct (Ascii.eqb_spec c "<") as [->|Hc]; [|now apply close_p_only_at].
  rewrite any_tag_lt in E.
  destruct r as [|c2 [|p r]]; try reflexivity.
  - destruct c2 as [[] [] [] [] [] [] [] []]; reflexivity.
  - destruct (Ascii.eqb_spec c2 "/") as [->|H2].
    + rewrite close_p_lt_slash.
      destruct (Ascii.eqb p "p" || Ascii.eqb p "P") eqn:P; [|reflexivity].
      destruct (Py.ws_then_gt r) as [n|] eqn:W; [|reflexivity].
      exfalso. apply ws_then_gt_index in W. destruct W as [i Hi].
      rewrite !index_gt_cons, Hi in E.
      change (Ascii.eqb "/" ">") with false in E.
      apply orb_true_iff in P.
      destruct P as [P|P]; apply Ascii.eqb_eq in P; subst p;
        vm_compute in E; discriminate E.
    + destruct c2 as [[] [] [] [] [] [] [] []]; try reflexivity.
      now contradiction H2.
Qed.

Lemma has_char_rstrip (c : ascii) (s : string) :
  Py.has_char c s = false -> Py.has_char c (Py.rstrip s) = false.
Proof.
  induction s as [|a s IH]; [reflexivity|]. intros H.
  cbn [Py.has_char] in H. apply orb_false_iff in H. destruct H as [Ha H].
  specialize (IH H). rewrite rstrip_cons.
  destruct (Py.rstrip s) as [|b r'].
  - destruct (Py.isspace a); [reflexivity|].
    cbn [Py.has_char]. now rewrite Ha.
  - cbn [Py.has_char] in *. now rewrite Ha, IH.
Qed.

(** What the converter returns for a text without character references:
    a trimmed text without tags and without character references. *)
Lemma converted_text (value : string) :
  unescape_spec unescape -> Py.has_char "&" value = false ->
  exists out,
    html_to_plain_text unescape value = inr out
    /\ Py.strip out = out /\ no_tag out = true
    /\ Py.has_char "&" out = false.
Proof.
  intros Hu Hamp. unfold html_to_plain_text.
  destruct (Py.truthy value); cbn [negb];
    [|exists ""; repeat split; reflexivity].
  rewrite Hu by now apply passes_keep_amp_out.
  eexists. split; [reflexivity|]. split; [apply strip_idem|].
  unfold Py.strip. split.
  - apply no_tag_rstrip, no_tag_lstrip. unfold Py.sub at 1.
    apply no_tag_sub_from.
  - apply has_char_rstrip, has_char_lstrip. now apply passes_keep_amp_out.
Qed.

(** X20.  Converting a converted text changes nothing: when the input
    holds no character reference, [html_to_plain_text] returns a text that
    it returns unchanged in turn, so a signature that was already
    converted to plain text keeps its wording. *)
Theorem html_to_plain_text_idempotent (value : string) :
  unescape_spec unescape -> Py.has_char "&" value = false ->
  exists out,
    html_to_plain_text unescape value = inr out
    /\ html_to_plain_text unescape out = inr out.
Proof.
  intros Hu Hamp.
  destruct (converted_text value Hu Hamp) as [out [E [Hstrip [Htag Hout]]]].
  exists out. split; [exact E|]. clear E.
  unfold html_to_plain_text.
  destruct (Py.truthy out) eqn:T; cbn [negb].
  - unfold Py.replace, Py.sub.
    rewrite (sub_from_no_tag (Py.lit "<br>") Py.nl out)
      by (assumption || (intros t; apply lit_br_tag; now left)).
    rewrite (sub_from_no_tag (Py.lit "<br/>") Py.nl out)
      by (assumption || (intros t; apply lit_br_tag; right; now left)).
    rewrite (sub_from_no_tag (Py.lit "<br />") Py.nl out)
      by (assumption
          || (intros t; apply lit_br_tag; right; right; now left)).
    rewrite (sub_from_no_tag Py.close_p Py.nlnl out)
      by (assumption || exact close_p_tag).
    rewrite (sub_from_no_tag Py.any_tag "" out) by (assumption || trivial).
    rewrite (Hu out Hout). now rewrite Hstrip.
  - apply truthy_false in T. now rewrite T.
Qed.

End AgainFacts.

(** X20, on a paragraph with a name in bold and a line break. *)
Lemma html_to_plain_text_idempotent_witness :
  unescape_spec unescape_xml
  /\ exists out,
       html_to_plain_text unescape_xml "<p>Hola <b>Ana</b></p>Lima<br>Peru"
       = inr out
       /\ html_to_plain_text unescape_xml out = inr out.
Proof.
  split; [exact unescape_xml_plain|].
  exact (html_to_plain_text_idempotent unescape_xml
           "<p>Hola <b>Ana</b></p>Lima<br>Peru" unescape_xml_plain eq_refl).
Defined.

(** C9, at the failing request: the sender name holds a form feed and
    then [FLASK_SECRET_KEY=attacker].  After the second write the file has
    that pair on a line of its own. *)
Lemma write_env_values_line_injection_witness :
  NoDup (dict_keys poisoned_credentials)
  /\ is_key_line "FLASK_SECRET_KEY=attacker" = true
  /\ ~ In (line_key "FLASK_SECRET_KEY=attacker")
         (dict_keys poisoned_credentials)
  /\ _write_env_values poisoned_credentials None
     = "SMTP_EMAIL=yo@unmsm.edu.pe" ++ Py.nl
       ++ "SMTP_APP_PASSWORD=clave" ++ Py.nl
       ++ "SMTP_FROM_NAME=Centro" ++ String "012" "FLASK_SECRET_KEY=attacker"
       ++ Py.nl ++ "SMTP_HOST=smtp.gmail.com" ++ Py.nl
       ++ "SMTP_PORT=587" ++ Py.nl
  /\ env_lines (Some (_write_env_values poisoned_credentials None))
     = [ "SMTP_EMAIL=yo@unmsm.edu.pe"; "SMTP_APP_PASSWORD=clave";
         "SMTP_FROM_NAME=Centro"; "FLASK_SECRET_KEY=attacker";
         "SMTP_HOST=smtp.gmail.com"; "SMTP_PORT=587" ]
  /\ _write_env_values poisoned_credentials
       (Some (_write_env_values poisoned_credentials None))
     = "SMTP_EMAIL=yo@unmsm.edu.pe" ++ Py.nl
       ++ "SMTP_APP_PASSWORD=clave" ++ Py.nl
       ++ "SMTP_FROM_NAME=Centro" ++ String "012" "FLASK_SECRET_KEY=attacker"
       ++ Py.nl ++ "FLASK_SECRET_KEY=attacker" ++ Py.nl
       ++ "SMTP_HOST=smtp.gmail.com" ++ Py.nl
       ++ "SMTP_PORT=587" ++ Py.nl.
Proof.
  assert (Hnd : NoDup (dict_keys poisoned_credentials)).
  { cbn. repeat constructor; cbn; intuition discriminate. }
  assert (Hplain : forall k v, In (k, v) poisoned_credentials ->
                     plain_key k = true).
  { intros k v H. cbn in H.
    repeat (destruct H as [H|H]; [injection H as <- _; reflexivity|]).
    contradiction. }
  assert (Hclean : forall k v,
             In (k, v)
               ([("SMTP_EMAIL", "yo@unmsm.edu.pe");
                 ("SMTP_APP_PASSWORD", "clave")]
                ++ [("SMTP_HOST", "smtp.gmail.com");
                    ("SMTP_PORT", py_str_int 587)])%list ->
             no_break (safe_value v) = true).
  { intros k v H. cbn in H.
    repeat (destruct H as [H|H]; [injection H as _ <-; reflexivity|]).
    contradiction. }
  assert (Hnew : ~ In (line_key "FLASK_SECRET_KEY=attacker")
                     (dict_keys poisoned_credentials)).
  { vm_compute. intuition discriminate. }
  split; [exact Hnd|]. split; [reflexivity|]. split; [exact Hnew|].
  destruct (write_env_values_line_injection
              [("SMTP_EMAIL", "yo@unmsm.edu.pe");
               ("SMTP_APP_PASSWORD", "clave")]
              [("SMTP_HOST", "smtp.gmail.com");
               ("SMTP_PORT", py_str_int 587)]
              "SMTP_FROM_NAME" "Centro" "FLASK_SECRET_KEY=attacker" "012"
              Hnd Hplain Hclean eq_refl eq_refl eq_refl
              ltac:(discriminate) ltac:(discriminate) eq_refl Hnew)
    as [_ [H1 [H2 H3]]].
  split; [exact H1|]. split; [exact H2 | exact H3].
Defined.


(** X21, on the demo request with a NUL character in the sender name. *)
Lemma send_emails_null_byte_not_caught_witness :
  ss_mapped_records demo_mapped <> None
  /\ form_get demo_null_form "remember_credentials" = Some "on"
  /\ send_emails render_demo secure_filename_demo unescape_xml
       smtp_connect_demo sendmail_demo demo_null_form [] None demo_mapped
       demo_world
     = inl (Raised "embedded null byte").
Proof.
  split; [discriminate|]. split; [reflexivity|].
  exact (send_emails_null_byte_not_caught render_demo secure_filename_demo
           unescape_xml (list string) smtp_connect_demo sendmail_demo
           demo_null_form [] None demo_mapped demo_world _ _ 587%Z []
           eq_refl eq_refl ltac:(discriminate) ltac:(discriminate)
           eq_refl eq_refl eq_refl).
Defined.
